(** * StudyBuddy ("Learning VI"): the conversational messaging pipeline

    A shallow embedding of the server core of the repository:

    - [JsString]  the JavaScript string primitives the router relies on
                  ([toLowerCase], [startsWith], [substring], [trim]);
    - [Router]    [modelRouting] and [OpenAIService.getModelAndPrompt]
                  (server/services/openai.ts);
    - [Gateway]   [OpenAIService.generateResponse] and [generateTitle];
    - [Storage]   the two tables of shared/schema.ts and the
                  [DatabaseStorage] operations the message route uses
                  (server/storage.ts);
    - [Hub]       [WebSocketService] (server/services/websocket.ts);
    - [Routes]    the handler of POST /api/conversations/:id/messages
                  (server/routes.ts), as a machine that advances from one
                  [await] to the next;
    - [Uuid], [Intake]  the [uuid] columns of shared/schema.ts and the
                  first turn of that handler on the text of the request.

    Strings are modelled as Rocq strings: a JavaScript code unit is an
    8-bit character (the Latin-1 range U+0000..U+00FF). *)

From Stdlib Require Import Bool Arith List Ascii String Lia Sorting.Sorted
  Sorting.Permutation.
Import ListNotations.
Open Scope string_scope.
Open Scope nat_scope.

(* ================================================================= *)
(** ** JavaScript string primitives *)

Module JsString.

(** Code units in the Latin-1 range with a lower-case counterpart:
    A-Z, and U+00C0..U+00DE except the multiplication sign U+00D7. *)
Definition isUpper (c : ascii) : bool :=
  let n := nat_of_ascii c in
  ((65 <=? n) && (n <=? 90))
  || ((192 <=? n) && (n <=? 222) && negb (n =? 215)).

Definition lowerCodeUnit (c : ascii) : ascii :=
  if isUpper c then ascii_of_nat (nat_of_ascii c + 32) else c.

(** [String.prototype.toLowerCase]. *)
Fixpoint toLowerCase (s : string) : string :=
  match s with
  | EmptyString => EmptyString
  | String c r => String (lowerCodeUnit c) (toLowerCase r)
  end.

(** [s.startsWith(p)]. *)
Definition startsWith (s p : string) : bool := String.prefix p s.

(** [s.substring(n)] for [0 <= n]: the code units from index [n] on
    (the empty string when [n] exceeds the length). *)
Fixpoint substringFrom (n : nat) (s : string) : string :=
  match n, s with
  | O, _ => s
  | S _, EmptyString => EmptyString
  | S k, String _ r => substringFrom k r
  end.

(** White space and line terminators of ECMAScript in the Latin-1
    range: TAB, LF, VT, FF, CR, SP and NBSP. *)
Definition isWhiteSpace (c : ascii) : bool :=
  let n := nat_of_ascii c in
  ((9 <=? n) && (n <=? 13)) || (n =? 32) || (n =? 160).

Fixpoint trimStart (s : string) : string :=
  match s with
  | EmptyString => EmptyString
  | String c r => if isWhiteSpace c then trimStart r else s
  end.

Fixpoint trimEnd (s : string) : string :=
  match s with
  | EmptyString => EmptyString
  | String c r =>
      match trimEnd r with
      | EmptyString => if isWhiteSpace c then EmptyString
                       else String c EmptyString
      | r' => String c r'
      end
  end.

(** [String.prototype.trim]. *)
Definition trim (s : string) : string := trimEnd (trimStart s).

(** Truthiness of a string value: only the empty string is falsy. *)
Definition truthy (s : string) : bool :=
  match s with EmptyString => false | _ => true end.

End JsString.

(* ================================================================= *)
(** ** server/services/openai.ts: prefix routing *)

Module Router.
Import JsString.

(** An entry of [ModelRoutingConfig]. *)
Record RoutingRule := {
  model : string;
  systemPrompt : option string
}.

Definition gpt4o : string := "gpt-4o".

(** [modelRouting], in the order [Object.entries] enumerates it (the
    insertion order of its string keys). *)
Definition modelRouting : list (string * RoutingRule) :=
  [ ("code:",
     {| model := gpt4o;
        systemPrompt := Some "You are an expert software developer and architect. Provide detailed, accurate code examples and explanations. Focus on best practices, security, and maintainability." |});
    ("research:",
     {| model := gpt4o;
        systemPrompt := Some "You are a research assistant. Provide well-researched, accurate information with proper context and citations when possible. Be thorough and analytical." |});
    ("creative:",
     {| model := gpt4o;
        systemPrompt := Some "You are a creative writing assistant. Help with storytelling, creative projects, brainstorming, and artistic endeavors. Be imaginative and inspiring." |});
    ("analysis:",
     {| model := gpt4o;
        systemPrompt := Some "You are a data analyst and strategic thinker. Provide detailed analysis, break down complex problems, and offer insights based on available information." |}) ].

(** What [getModelAndPrompt] returns. *)
Record Routed := {
  r_model : string;
  r_systemPrompt : option string;
  cleanedMessage : string
}.

(** The [for ... of Object.entries(modelRouting)] loop over a rule
    table: the first rule whose prefix starts the lower-cased message
    returns. *)
Fixpoint firstMatch (rules : list (string * RoutingRule))
         (lowercaseMessage message : string) : option Routed :=
  match rules with
  | [] => None
  | (prefix, config) :: rest =>
      if startsWith lowercaseMessage prefix then
        Some {| r_model := model config;
                r_systemPrompt := systemPrompt config;
                cleanedMessage :=
                  trim (substringFrom (String.length prefix) message) |}
      else firstMatch rest lowercaseMessage message
  end.

(** [OpenAIService.getModelAndPrompt]. *)
Definition getModelAndPrompt (message : string) : Routed :=
  let lowercaseMessage := toLowerCase message in
  match firstMatch modelRouting lowercaseMessage message with
  | Some r => r
  | None => {| r_model := gpt4o;
               r_systemPrompt := None;
               cleanedMessage := message |}
  end.

(** [OpenAIService.getModelForPrefix]. *)
Definition getModelForPrefix (prefix : string) : string :=
  match find (fun e => String.eqb (fst e) prefix) modelRouting with
  | Some (_, config) => if truthy (model config) then model config else gpt4o
  | None => gpt4o
  end.

End Router.

(* ================================================================= *)
(** ** Thrown values, settled promises, request bodies *)

Module Js.

(** A thrown value: an [Error] object with its message, or anything
    else ([error instanceof Error] is false). *)
Inductive Thrown :=
| ErrorObject (message : string)
| NotAnError.

(** How an awaited call settles. *)
Inductive Outcome (A : Type) :=
| Resolved (a : A)
| Rejected (e : Thrown).
Arguments Resolved {A} a.
Arguments Rejected {A} e.

(** The value found under a key of a parsed JSON body. Numbers are
    integers here; only their truthiness and type tag are read. *)
Inductive Value :=
| Undefined
| Null
| Boolean (b : bool)
| Number (n : nat)
| Str (s : string)
| Object.

Definition truthy (v : Value) : bool :=
  match v with
  | Undefined | Null => false
  | Boolean b => b
  | Number n => negb (n =? 0)
  | Str s => JsString.truthy s
  | Object => true
  end.

(** [typeof v === 'string']. *)
Definition isString (v : Value) : bool :=
  match v with Str _ => true | _ => false end.

(** [array.slice(-n)]: the last [n] elements, all of them when the
    array is shorter. *)
Definition sliceLast {A : Type} (n : nat) (l : list A) : list A :=
  skipn (List.length l - n) l.

End Js.

(* ================================================================= *)
(** ** server/services/openai.ts: the completion gateway *)

Module Gateway.
Import Js.

Inductive Role := user | assistant | system.

Definition Role_eqb (a b : Role) : bool :=
  match a, b with
  | user, user | assistant, assistant | system, system => true
  | _, _ => false
  end.

Record ChatMessage := { role : Role; content : string }.

(** The argument of [openai.chat.completions.create]; the temperature
    is kept as the decimal literal of the source. *)
Record CompletionRequest := {
  model : string;
  messages : list ChatMessage;
  temperature : string;
  max_tokens : nat
}.

(** The part of the provider's response the service reads:
    [choices[0].message.content] and [usage?.total_tokens]. A missing
    [message] is [None]; a [null] content is [Some None]. *)
Record Choice := { message : option (option string) }.
Record ChatCompletion := {
  choices : list Choice;
  total_tokens : option nat
}.

(** The provider, outside the program: how the call for a request
    settles. *)
Definition Provider := CompletionRequest -> Outcome ChatCompletion.

(** What [generateResponse] resolves to. *)
Record AiResponse := {
  ai_content : string;
  ai_model : string;
  ai_tokenCount : option nat
}.

(** [response.choices[0].message.content]: reading through a missing
    choice or message throws a [TypeError]. *)
Definition firstContent (response : ChatCompletion)
  : Outcome (option string) :=
  match choices response with
  | [] => Rejected (ErrorObject
            "Cannot read properties of undefined (reading 'message')")
  | c :: _ =>
      match message c with
      | None => Rejected (ErrorObject
            "Cannot read properties of undefined (reading 'content')")
      | Some content => Resolved content
      end
  end.

(** Lines 67-88 of [generateResponse]: the request built from the raw
    user message and the history handed in. *)
Definition completionRequest (userMessage : string)
           (conversationHistory : list ChatMessage) : CompletionRequest :=
  let r := Router.getModelAndPrompt userMessage in
  let systemMessages :=
    match Router.r_systemPrompt r with
    | Some p => if JsString.truthy p
                then [ {| role := system; content := p |} ] else []
    | None => []
    end in
  let recentHistory := sliceLast 10 conversationHistory in
  {| model := Router.r_model r;
     messages := systemMessages ++ recentHistory
                 ++ [ {| role := user;
                         content := Router.cleanedMessage r |} ];
     temperature := "0.7";
     max_tokens := 4000 |}.

(** The [catch] of [generateResponse]. *)
Definition generationFailed (error : Thrown) : Thrown :=
  ErrorObject ("Failed to generate AI response: " ++
               match error with
               | ErrorObject m => m
               | NotAnError => "Unknown error"
               end).

(** Lines 90-101: what is made of the settled provider call. *)
Definition completionResult (model : string)
           (settled : Outcome ChatCompletion) : Outcome AiResponse :=
  match settled with
  | Rejected e => Rejected (generationFailed e)
  | Resolved response =>
      match firstContent response with
      | Rejected e => Rejected (generationFailed e)
      | Resolved c =>
          Resolved {| ai_content := match c with
                                    | Some s => s   (* [s || ''] is [s] *)
                                    | None => ""
                                    end;
                      ai_model := model;
                      ai_tokenCount := total_tokens response |}
      end
  end.

(** [OpenAIService.generateResponse]. *)
Definition generateResponse (openai : Provider) (userMessage : string)
           (conversationHistory : list ChatMessage) : Outcome AiResponse :=
  let request := completionRequest userMessage conversationHistory in
  completionResult (model request) (openai request).

Definition newConversation : string := "New Conversation".

(** [messages.find(m => m.role === 'user')?.content || '']. *)
Definition firstUserMessage (messages : list ChatMessage) : string :=
  match find (fun m => Role_eqb (role m) user) messages with
  | Some m => content m
  | None => ""
  end.

Definition titleRequest (firstUserMessage : string) : CompletionRequest :=
  {| model := "gpt-4o";
     messages :=
       [ {| role := system;
            content := "Generate a short, descriptive title (4-6 words) for a conversation based on the user's first message. Do not use quotes or special characters." |};
         {| role := user; content := firstUserMessage |} ];
     temperature := "0.3";
     max_tokens := 20 |}.

(** The provider call [generateTitle] issues, if any. *)
Definition titleCall (messages : list ChatMessage)
  : option CompletionRequest :=
  let first := firstUserMessage messages in
  if JsString.truthy first then Some (titleRequest first) else None.

(** Line 129 and the [catch]: the title made of the settled call. *)
Definition titleResult (settled : Outcome ChatCompletion) : string :=
  match settled with
  | Rejected _ => newConversation
  | Resolved response =>
      match firstContent response with
      | Rejected _ => newConversation
      | Resolved None => newConversation
      | Resolved (Some c) =>
          let t := JsString.trim c in
          if JsString.truthy t then t else newConversation
      end
  end.

(** [OpenAIService.generateTitle]. *)
Definition generateTitle (openai : Provider)
           (messages : list ChatMessage) : string :=
  match titleCall messages with
  | None => newConversation
  | Some request => titleResult (openai request)
  end.

End Gateway.

(* ================================================================= *)
(** ** shared/schema.ts and server/storage.ts *)

Module Storage.
Import Js.

(** A row of [conversations]. *)
Record Conversation := {
  c_id : string;
  c_userId : string;
  title : string;
  c_model : string;
  c_createdAt : nat;
  updatedAt : nat
}.

(** A row of [messages]. *)
Record Message := {
  id : string;
  conversationId : string;
  role : Gateway.Role;
  content : string;
  model : option string;
  tokenCount : option nat;
  createdAt : nat
}.

(** [InsertMessage]: a row without [id] and [createdAt]. *)
Record InsertMessage := {
  i_conversationId : string;
  i_role : Gateway.Role;
  i_content : string;
  i_model : option string;
  i_tokenCount : option nat
}.

(** The two tables, rows in insertion order. *)
Record Db := {
  conversations : list Conversation;
  messages : list Message
}.

(** [DatabaseStorage.getConversation]: the first row with this id and
    this owner. The id is a uuid, compared as the database writes it;
    the text of a request is read as one before ([Intake]). *)
Definition getConversation (db : Db) (id userId : string)
  : option Conversation :=
  find (fun c => String.eqb (c_id c) id && String.eqb (c_userId c) userId)
       (conversations db).

(** [ORDER BY created_at]: ascending, rows with equal time stamps in
    insertion order. *)
Fixpoint insertByCreatedAt (m : Message) (l : list Message)
  : list Message :=
  match l with
  | [] => [m]
  | x :: r => if createdAt m <=? createdAt x then m :: l
              else x :: insertByCreatedAt m r
  end.

Fixpoint orderByCreatedAt (l : list Message) : list Message :=
  match l with
  | [] => []
  | m :: r => insertByCreatedAt m (orderByCreatedAt r)
  end.

(** [select().from(messages).where(eq(conversationId)).orderBy(createdAt)]. *)
Definition selectMessages (db : Db) (conversationId' : string)
  : list Message :=
  orderByCreatedAt
    (filter (fun m => String.eqb (conversationId m) conversationId')
            (messages db)).

(** [DatabaseStorage.getConversationMessages]. *)
Definition getConversationMessages (db : Db)
           (conversationId' userId : string) : Outcome (list Message) :=
  match getConversation db conversationId' userId with
  | None => Rejected (ErrorObject "Conversation not found or access denied")
  | Some _ => Resolved (selectMessages db conversationId')
  end.

(** [DatabaseStorage.addMessage]; [newId] is the value drawn by
    [defaultRandom()] and [now] is [new Date()]. The insert is rejected
    when the primary key is taken or when the referenced conversation
    does not exist. *)
Definition addMessage (newId : string) (now : nat) (db : Db)
           (message : InsertMessage) : Outcome (Message * Db) :=
  if existsb (fun m => String.eqb (id m) newId) (messages db) then
    Rejected (ErrorObject
      "duplicate key value violates unique constraint")
  else if negb (existsb (fun c => String.eqb (c_id c)
                                    (i_conversationId message))
                        (conversations db)) then
    Rejected (ErrorObject
      "insert or update on table violates foreign key constraint")
  else
    let newMessage :=
      {| id := newId;
         conversationId := i_conversationId message;
         role := i_role message;
         content := i_content message;
         model := i_model message;
         tokenCount := i_tokenCount message;
         createdAt := now |} in
    Resolved (newMessage,
              {| conversations := conversations db;
                 messages := messages db ++ [newMessage] |}).

(** The [updates] that set a title, a model or both (a
    [Partial<InsertConversation>] without [userId]); the message route
    passes [{ title }]. *)
Record Updates := {
  u_title : option string;
  u_model : option string
}.

Definition applyUpdates (now : nat) (u : Updates) (c : Conversation)
  : Conversation :=
  {| c_id := c_id c;
     c_userId := c_userId c;
     title := match u_title u with Some t => t | None => title c end;
     c_model := match u_model u with Some m => m | None => c_model c end;
     c_createdAt := c_createdAt c;
     updatedAt := now |}.

(** [DatabaseStorage.updateConversation]: every row with this id and
    owner is rewritten; the first one is returned. *)
Definition updateConversation (now : nat) (db : Db) (id userId : string)
           (updates : Updates) : option Conversation * Db :=
  let hit c := String.eqb (c_id c) id && String.eqb (c_userId c) userId in
  (option_map (applyUpdates now updates) (find hit (conversations db)),
   {| conversations :=
        map (fun c => if hit c then applyUpdates now updates c else c)
            (conversations db);
      messages := messages db |}).

End Storage.

(* ================================================================= *)
(** ** server/services/websocket.ts: the realtime hub *)

Module Hub.
Import Js.

Inductive ReadyState := CONNECTING | OPEN | CLOSING | CLOSED.

Definition isOpen (s : ReadyState) : bool :=
  match s with OPEN => true | _ => false end.

(** A connection: which socket it is, and the state it is in. *)
Record WebSocket := { socketId : nat; readyState : ReadyState }.

Inductive MessageType := typing | message | error | connection.

(** The [data] field of an outbound frame. *)
Inductive Data :=
| NoData
| Opaque (json : string)
| ErrorData (message : string)
| ConnectionData (clientId message : string)
| NewMessageData (userMessage aiMessage : Storage.Message).

(** [WebSocketMessage], as the service builds it. *)
Record WebSocketMessage := {
  type : MessageType;
  conversationId : option string;
  userId : option string;
  data : Data
}.

(** What [JSON.parse] makes of an inbound frame, read through the same
    interface: at run time the [type] is any string or missing, and so
    are the other fields. *)
Record InboundFrame := {
  in_type : option string;
  in_conversationId : option string;
  in_userId : option string;
  in_data : option string
}.

(** [JSON.parse(data.toString())]: a syntax error, the value [null],
    or a value whose properties can be read. *)
Inductive Parsed :=
| SyntaxError
| ParsedNull
| ParsedValue (f : InboundFrame).

(** An entry of [clients]. *)
Record Client := {
  ws : WebSocket;
  c_userId : string;
  c_conversationId : option string
}.

(** The [Map] of clients, in insertion order. *)
Definition Clients := list (string * Client).

Fixpoint get (clients : Clients) (clientId : string) : option Client :=
  match clients with
  | [] => None
  | (k, c) :: r => if String.eqb k clientId then Some c else get r clientId
  end.

(** [Map.prototype.set]: an existing key keeps its place. *)
Fixpoint set (clients : Clients) (clientId : string) (c : Client)
  : Clients :=
  match clients with
  | [] => [(clientId, c)]
  | (k, c') :: r => if String.eqb k clientId then (k, c) :: r
                    else (k, c') :: set r clientId c
  end.

Definition delete (clients : Clients) (clientId : string) : Clients :=
  filter (fun e => negb (String.eqb (fst e) clientId)) clients.

(** A call of [ws.send(JSON.stringify(frame))] on the socket of the
    entry stored under [to]. *)
Record Delivery := {
  to : string;
  socket : WebSocket;
  frame : WebSocketMessage
}.

(** [WebSocketService.sendToClient]. *)
Definition sendToClient (clients : Clients) (clientId : string)
           (message : WebSocketMessage) : list Delivery :=
  match get clients clientId with
  | Some client =>
      if isOpen (readyState (ws client))
      then [ {| to := clientId; socket := ws client; frame := message |} ]
      else []
  | None => []
  end.

(** [client.conversationId === conversationId]. *)
Definition watches (client : Client) (conversationId : string) : bool :=
  match c_conversationId client with
  | Some c => String.eqb c conversationId
  | None => false
  end.

(** [clientId !== excludeClientId]. *)
Definition notExcluded (clientId : string) (excludeClientId : option string)
  : bool :=
  match excludeClientId with
  | Some x => negb (String.eqb clientId x)
  | None => true
  end.

(** [WebSocketService.broadcastToConversation]. *)
Fixpoint broadcastToConversation (clients : Clients)
         (conversationId : string) (message : WebSocketMessage)
         (excludeClientId : option string) : list Delivery :=
  match clients with
  | [] => []
  | (clientId, client) :: r =>
      let rest := broadcastToConversation r conversationId message
                                          excludeClientId in
      if watches client conversationId
         && notExcluded clientId excludeClientId
         && isOpen (readyState (ws client))
      then {| to := clientId; socket := ws client; frame := message |}
           :: rest
      else rest
  end.

(** [WebSocketService.notifyNewMessage]. *)
Definition notifyNewMessage (clients : Clients) (conversationId : string)
           (messageData : Data) : list Delivery :=
  broadcastToConversation clients conversationId
    {| type := message;
       conversationId := Some conversationId;
       userId := None;
       data := messageData |}
    None.

Definition dataOf (d : option string) : Data :=
  match d with Some j => Opaque j | None => NoData end.

Definition truthyField (f : option string) : bool :=
  match f with Some s => JsString.truthy s | None => false end.

(** [WebSocketService.handleMessage]. The argument is [None] when the
    parsed value is [null]: reading [message.type] then throws. The
    registry after the call and the frames sent are returned. *)
Definition handleMessage (clients : Clients) (clientId : string)
           (message : option InboundFrame)
  : Outcome (Clients * list Delivery) :=
  match get clients clientId with
  | None => Resolved (clients, [])
  | Some client =>
      match message with
      | None => Rejected (ErrorObject
                  "Cannot read properties of null (reading 'type')")
      | Some m =>
          if match in_type m with
             | Some t => String.eqb t "typing"
             | None => false
             end
          then
            match in_userId m, in_conversationId m with
            | Some u, Some c =>
                if JsString.truthy u && JsString.truthy c then
                  let clients' :=
                    set clients clientId
                        {| ws := ws client;
                           c_userId := u;
                           c_conversationId := Some c |} in
                  Resolved
                    (clients',
                     broadcastToConversation clients' c
                       {| type := typing;
                          conversationId := None;
                          userId := Some u;
                          data := dataOf (in_data m) |}
                       (Some clientId))
                else Resolved (clients, [])
            | _, _ => Resolved (clients, [])
            end
          else Resolved (clients, [])   (* default: logged only *)
      end
  end.

Definition invalidFormat : WebSocketMessage :=
  {| type := error;
     conversationId := None;
     userId := None;
     data := ErrorData "Invalid message format" |}.

(** The ['message'] listener installed by [handleConnection]. *)
Definition onMessage (clients : Clients) (clientId : string)
           (parsed : Parsed) : Clients * list Delivery :=
  let attempt :=
    match parsed with
    | SyntaxError => Rejected (ErrorObject "Unexpected token in JSON")
    | ParsedNull => handleMessage clients clientId None
    | ParsedValue f => handleMessage clients clientId (Some f)
    end in
  match attempt with
  | Resolved r => r
  | Rejected _ => (clients, sendToClient clients clientId invalidFormat)
  end.

(** The ['close'] and ['error'] listeners. *)
Definition onClose (clients : Clients) (clientId : string) : Clients :=
  delete clients clientId.

(** [WebSocketService.handleConnection]; [clientId] is the value drawn
    by [generateClientId]. *)
Definition handleConnection (clients : Clients) (clientId : string)
           (ws' : WebSocket) : Clients * list Delivery :=
  let clients' :=
    set clients clientId
        {| ws := ws'; c_userId := ""; c_conversationId := None |} in
  (clients',
   sendToClient clients' clientId
     {| type := connection;
        conversationId := None;
        userId := None;
        data := ConnectionData clientId "Connected to Learning VI" |}).

End Hub.

(* ================================================================= *)
(** ** server/routes.ts: POST /api/conversations/:id/messages *)

Module Routes.
Import Js.

(** What lies outside the program, indexed by the moment it is asked:
    the provider, the identifiers drawn by the database and the clock. *)
Record Env := {
  openai : nat -> Gateway.Provider;
  randomUUID : nat -> string;
  date : nat -> nat
}.

(** The state the handlers share: the database, the hub's registry,
    the frames sent over sockets and the provider calls settled so far
    with their requests (oldest first), and the number of moments
    elapsed. *)
Record World := {
  db : Storage.Db;
  clients : Hub.Clients;
  wire : list Hub.Delivery;
  calls : list Gateway.CompletionRequest;
  tick : nat
}.

(** [req.user.claims.sub], [req.params.id] and [req.body.content]. *)
Record Request := {
  userId : string;
  conversationId : string;
  content : Value
}.

Inductive Body :=
| Failure (message : string)
| Exchange (userMessage aiMessage : Storage.Message).

Record Response := { status : nat; json : Body }.

(** Where a handler stands: the [await] it is about to perform, with
    the locals it holds, or the response it has given. *)
Inductive Task :=
| Received (req : Request)
| AddUserMessage (userId conversationId content : string)
| VerifyOwner (userId conversationId content : string)
              (userMessage : Storage.Message)
| SelectMessages (userId conversationId content : string)
                 (userMessage : Storage.Message)
| Generating (userId conversationId content : string)
             (userMessage : Storage.Message)
             (messages : list Storage.Message)
| AddAiMessage (userId conversationId content : string)
               (userMessage : Storage.Message)
               (messages : list Storage.Message)
               (aiResponse : Gateway.AiResponse)
| GenerateTitle (userId conversationId content : string)
                (userMessage aiMessage : Storage.Message)
                (aiResponse : Gateway.AiResponse)
| UpdateTitle (userId conversationId : string)
              (userMessage aiMessage : Storage.Message)
              (title : string)
| Responded (res : Response).

Definition notFound : Response :=
  {| status := 404; json := Failure "Conversation not found" |}.
Definition contentRequired : Response :=
  {| status := 400; json := Failure "Message content is required" |}.
(** The [catch] of the handler. *)
Definition failedToSend : Response :=
  {| status := 500; json := Failure "Failed to send message" |}.

Definition elapse (w : World) : World :=
  {| db := db w; clients := clients w; wire := wire w;
     calls := calls w; tick := S (tick w) |}.

Definition withDb (w : World) (d : Storage.Db) : World :=
  {| db := d; clients := clients w; wire := wire w;
     calls := calls w; tick := tick w |}.

Definition withCall (w : World) (r : Gateway.CompletionRequest) : World :=
  {| db := db w; clients := clients w; wire := wire w;
     calls := calls w ++ [r]; tick := tick w |}.

Definition withSent (w : World) (sent : list Hub.Delivery) : World :=
  {| db := db w; clients := clients w; wire := wire w ++ sent;
     calls := calls w; tick := tick w |}.

(** [m => ({ role: m.role, content: m.content })]. *)
Definition chatOf (m : Storage.Message) : Gateway.ChatMessage :=
  {| Gateway.role := Storage.role m;
     Gateway.content := Storage.content m |}.

(** Lines 246-248: the history made of the fetched log. *)
Definition conversationHistory (messages : list Storage.Message)
           (userMessage : Storage.Message) : list Gateway.ChatMessage :=
  map chatOf
      (filter (fun m => negb (String.eqb (Storage.id m)
                                         (Storage.id userMessage)))
              messages).

(** Lines 271-281: notify the hub, then answer. *)
Definition notifyAndRespond (w : World) (conversationId : string)
           (userMessage aiMessage : Storage.Message) : World * Task :=
  (withSent w (Hub.notifyNewMessage (clients w) conversationId
                 (Hub.NewMessageData userMessage aiMessage)),
   Responded {| status := 200;
                json := Exchange userMessage aiMessage |}).

(** One turn of a handler: the awaited operation takes effect and the
    code after it runs up to the next [await]. *)
Definition step (env : Env) (w : World) (t : Task) : World * Task :=
  let now := tick w in
  let w := elapse w in
  match t with
  | Responded res => (w, Responded res)
  | Received req =>
      match Storage.getConversation (db w) (conversationId req)
                                    (userId req) with
      | None => (w, Responded notFound)
      | Some _ =>
          if negb (truthy (content req)) || negb (isString (content req))
          then (w, Responded contentRequired)
          else match content req with
               | Str s => (w, AddUserMessage (userId req)
                                             (conversationId req) s)
               | _ => (w, Responded contentRequired)
               end
      end
  | AddUserMessage userId conversationId content =>
      match Storage.addMessage (randomUUID env now) (date env now) (db w)
              {| Storage.i_conversationId := conversationId;
                 Storage.i_role := Gateway.user;
                 Storage.i_content := content;
                 Storage.i_model := None;
                 Storage.i_tokenCount := None |} with
      | Rejected _ => (w, Responded failedToSend)
      | Resolved (userMessage, db') =>
          (withDb w db',
           VerifyOwner userId conversationId content userMessage)
      end
  | VerifyOwner userId conversationId content userMessage =>
      match Storage.getConversation (db w) conversationId userId with
      | None => (w, Responded failedToSend)
      | Some _ =>
          (w, SelectMessages userId conversationId content userMessage)
      end
  | SelectMessages userId conversationId content userMessage =>
      (w, Generating userId conversationId content userMessage
                     (Storage.selectMessages (db w) conversationId))
  | Generating userId conversationId content userMessage messages =>
      let request :=
        Gateway.completionRequest content
          (conversationHistory messages userMessage) in
      match Gateway.completionResult (Gateway.model request)
                                     (openai env now request) with
      | Rejected _ => (withCall w request, Responded failedToSend)
      | Resolved aiResponse =>
          (withCall w request,
           AddAiMessage userId conversationId content userMessage
                        messages aiResponse)
      end
  | AddAiMessage userId conversationId content userMessage messages
                 aiResponse =>
      match Storage.addMessage (randomUUID env now) (date env now) (db w)
              {| Storage.i_conversationId := conversationId;
                 Storage.i_role := Gateway.assistant;
                 Storage.i_content := Gateway.ai_content aiResponse;
                 Storage.i_model := Some (Gateway.ai_model aiResponse);
                 Storage.i_tokenCount :=
                   Gateway.ai_tokenCount aiResponse |} with
      | Rejected _ => (w, Responded failedToSend)
      | Resolved (aiMessage, db') =>
          if List.length messages =? 1 then
            (withDb w db',
             GenerateTitle userId conversationId content userMessage
                           aiMessage aiResponse)
          else notifyAndRespond (withDb w db') conversationId
                                userMessage aiMessage
      end
  | GenerateTitle userId conversationId content userMessage aiMessage
                  aiResponse =>
      let exchange :=
        [ {| Gateway.role := Gateway.user; Gateway.content := content |};
          {| Gateway.role := Gateway.assistant;
             Gateway.content := Gateway.ai_content aiResponse |} ] in
      match Gateway.titleCall exchange with
      | None =>
          (w, UpdateTitle userId conversationId userMessage aiMessage
                          Gateway.newConversation)
      | Some request =>
          (withCall w request,
           UpdateTitle userId conversationId userMessage aiMessage
                       (Gateway.titleResult (openai env now request)))
      end
  | UpdateTitle userId conversationId userMessage aiMessage title =>
      let '(_, db') :=
        Storage.updateConversation (date env now) (db w)
          conversationId userId
          {| Storage.u_title := Some title; Storage.u_model := None |} in
      notifyAndRespond (withDb w db') conversationId userMessage aiMessage
  end.

(** A handler run on its own, for at most [fuel] turns. *)
Fixpoint run (env : Env) (fuel : nat) (w : World) (t : Task)
  : World * Task :=
  match fuel, t with
  | _, Responded _ => (w, t)
  | O, _ => (w, t)
  | S fuel', _ => let '(w', t') := step env w t in run env fuel' w' t'
  end.

(** The handler of POST /api/conversations/:id/messages, run from the
    request to its response with nothing in between: eight turns reach
    the response on every path. *)
Definition submitMessage (env : Env) (w : World) (req : Request)
  : World * Task :=
  run env 8 w (Received req).

(** Several handlers at once on the event loop: a schedule names, turn
    by turn, the handler that advances. *)
Fixpoint advance (env : Env) (i : nat) (w : World) (tasks : list Task)
  : World * list Task :=
  match tasks with
  | [] => (w, [])
  | t :: rest =>
      match i with
      | O => match t with
             | Responded _ => (w, tasks)
             | _ => let '(w', t') := step env w t in (w', t' :: rest)
             end
      | S j => let '(w', rest') := advance env j w rest in (w', t :: rest')
      end
  end.

Fixpoint interleave (env : Env) (schedule : list nat) (w : World)
         (tasks : list Task) : World * list Task :=
  match schedule with
  | [] => (w, tasks)
  | i :: later => let '(w', tasks') := advance env i w tasks in
                  interleave env later w' tasks'
  end.



End Routes.

(* ================================================================= *)
(** ** server/storage.ts: the other conversation operations *)

Module Conversations.
Import Js Storage.

(** [ORDER BY updated_at DESC]: descending, rows with equal time stamps
    in insertion order. *)
Fixpoint insertByUpdatedAtDesc (c : Conversation) (l : list Conversation)
  : list Conversation :=
  match l with
  | [] => [c]
  | x :: r => if updatedAt x <=? updatedAt c then c :: l
              else x :: insertByUpdatedAtDesc c r
  end.

Fixpoint orderByUpdatedAtDesc (l : list Conversation) : list Conversation :=
  match l with
  | [] => []
  | c :: r => insertByUpdatedAtDesc c (orderByUpdatedAtDesc r)
  end.

(** [DatabaseStorage.getUserConversations]. *)
Definition getUserConversations (db : Db) (userId : string)
  : list Conversation :=
  orderByUpdatedAtDesc
    (filter (fun c => String.eqb (c_userId c) userId) (conversations db)).

(** [DatabaseStorage.deleteConversation]: the rows with this id and
    owner are deleted, and with them ([onDelete: "cascade"]) the messages
    that reference a deleted row; the answer is [rowCount > 0]. *)
Definition deleteConversation (db : Db) (id userId : string) : bool * Db :=
  let hit c := String.eqb (c_id c) id && String.eqb (c_userId c) userId in
  let deleted := filter hit (conversations db) in
  (0 <? List.length deleted,
   {| conversations := filter (fun c => negb (hit c)) (conversations db);
      messages :=
        filter (fun m => negb (existsb (fun c => String.eqb (c_id c)
                                                   (conversationId m))
                                       deleted))
               (messages db) |}).

(** [DatabaseStorage.getConversationWithMessages]. *)
Definition getConversationWithMessages (db : Db)
           (conversationId' userId : string)
  : option (Conversation * list Message) :=
  match getConversation db conversationId' userId with
  | None => None
  | Some conversation =>
      Some (conversation, selectMessages db conversationId')
  end.

End Conversations.

(* ================================================================= *)
(** ** server/routes.ts: the other routes *)

Module Api.
Import Js.

Inductive Payload :=
| Message (message : string)
| ConversationList (l : list Storage.Conversation)
| ConversationWithMessages (c : Storage.Conversation)
                           (l : list Storage.Message)
| MessageList (l : list Storage.Message)
| Empty.

Record Reply := { status : nat; payload : Payload }.

(** GET /api/conversations. *)
Definition listConversations (db : Storage.Db) (userId : string) : Reply :=
  {| status := 200;
     payload := ConversationList
                  (Conversations.getUserConversations db userId) |}.

(** GET /api/conversations/:id. *)
Definition getConversation (db : Storage.Db) (userId conversationId : string)
  : Reply :=
  match Conversations.getConversationWithMessages db conversationId userId
  with
  | None => {| status := 404; payload := Message "Conversation not found" |}
  | Some (c, l) => {| status := 200;
                      payload := ConversationWithMessages c l |}
  end.

(** GET /api/conversations/:id/messages: the error thrown by the store
    for a conversation that is not the owner's reaches the [catch]. *)
Definition getMessages (db : Storage.Db) (userId conversationId : string)
  : Reply :=
  match Storage.getConversationMessages db conversationId userId with
  | Rejected _ =>
      {| status := 500; payload := Message "Failed to fetch messages" |}
  | Resolved l => {| status := 200; payload := MessageList l |}
  end.

(** DELETE /api/conversations/:id. *)
Definition deleteConversation (db : Storage.Db)
           (userId conversationId : string) : Reply * Storage.Db :=
  let '(deleted, db') :=
    Conversations.deleteConversation db conversationId userId in
  if deleted then ({| status := 204; payload := Empty |}, db')
  else ({| status := 404; payload := Message "Conversation not found" |},
        db').

(** The [switch (format)] of the export route, as far as the file
    extension goes; [format] is [req.query.format || 'markdown']. *)
Definition fileExtension (format : option string) : string :=
  match format with
  | Some f => if String.eqb f "json" then "json"
              else if String.eqb f "txt" then "txt"
              else "md"
  | None => "md"
  end.

(** A code unit the pattern [/[^a-z0-9]/gi] does not match. *)
Definition isAlphanumeric (c : ascii) : bool :=
  let n := nat_of_ascii c in
  ((48 <=? n) && (n <=? 57)) || ((65 <=? n) && (n <=? 90))
  || ((97 <=? n) && (n <=? 122)).

(** [title.replace(/[^a-z0-9]/gi, '_')]. *)
Fixpoint replaceNonAlphanumeric (title : string) : string :=
  match title with
  | EmptyString => EmptyString
  | String c r =>
      String (if isAlphanumeric c then c else "_"%char)
             (replaceNonAlphanumeric r)
  end.

(** The [filename] of the export route. *)
Definition exportFilename (title : string) (format : option string)
  : string :=
  (JsString.toLowerCase (replaceNonAlphanumeric title) ++ "."
   ++ fileExtension format)%string.

(** An entry of the answer of GET /api/models/routing. *)
Record RouteInfo := {
  prefix : string;
  model : string;
  description : string
}.

(** [s.substring(0, n)]. *)
Fixpoint substringTo (n : nat) (s : string) : string :=
  match n, s with
  | O, _ => EmptyString
  | S _, EmptyString => EmptyString
  | S k, String c r => String c (substringTo k r)
  end.

(** The mapping of GET /api/models/routing over a table of rules. *)
Definition routingInfoOf (rules : list (string * Router.RoutingRule))
  : list RouteInfo :=
  map (fun e =>
         {| prefix := fst e;
            model := Router.model (snd e);
            description :=
              match Router.systemPrompt (snd e) with
              | Some p => if JsString.truthy p
                          then (substringTo 100 p ++ "...")%string
                          else ""%string
              | None => ""%string
              end |})
      rules.

(** GET /api/models/routing. *)
Definition routingInfo : list RouteInfo := routingInfoOf Router.modelRouting.

End Api.

(* ================================================================= *)
(** ** client: ChatInterface.tsx and MessageInput.tsx *)

Module Client.

(** [ChatInterface.getModelForPrefix]; [modelRouting] is the answer of
    GET /api/models/routing once it is loaded. *)
Fixpoint firstRoute (routing : list Api.RouteInfo) (lowerContent : string)
  : option string :=
  match routing with
  | [] => None
  | route :: rest =>
      if JsString.startsWith lowerContent (Api.prefix route)
      then Some (Api.model route)
      else firstRoute rest lowerContent
  end.

Definition getModelForPrefix (modelRouting : option (list Api.RouteInfo))
           (selectedModel content : string) : string :=
  let lowerContent := JsString.toLowerCase content in
  let routing := match modelRouting with Some r => r | None => [] end in
  match firstRoute routing lowerContent with
  | Some m => m
  | None => selectedModel
  end.

(** [MessageInput]: the length check behind the send button. *)
Definition maxLength : nat := 4000.

Definition isValid (message : string) : bool :=
  (0 <? String.length message) && (String.length message <=? maxLength).

(** [MessageInput]: the effect that sets [routedModel], the model shown
    under "Will route to". *)
Definition routedModel (getModelForPrefix : option (string -> string))
           (message : string) : option string :=
  match getModelForPrefix with
  | Some getModel =>
      if JsString.truthy (JsString.trim message) then
        let model := getModel message in
        let defaultModel := "gpt-4o"%string in
        let prefixes := ["code:"; "research:"; "creative:"; "analysis:"]%string in
        let hasPrefix :=
          existsb (fun prefix =>
                     JsString.startsWith (JsString.toLowerCase message) prefix)
                  prefixes in
        if hasPrefix && negb (String.eqb model defaultModel)
        then Some model else None
      else None
  | None => None
  end.

(** [MessageInput.handleSubmit]: what is handed to [onSendMessage]. *)
Definition handleSubmit (message : string) (disabled isLoading : bool)
  : option string :=
  if negb (isValid message) || disabled || isLoading then None
  else Some message.

(** [ChatInterface.handleSendMessage]: the content posted to
    /api/conversations/:id/messages, if any. A missing [conversationId]
    makes the mutation throw before the request. *)
Definition handleSendMessage (conversationId : option string)
           (isPending : bool) (content : string)
  : option (string * string) :=
  if negb (JsString.truthy (JsString.trim content)) || isPending then None
  else match conversationId with
       | Some id => if JsString.truthy id then Some (id, content) else None
       | None => None
       end.

(** Pressing send in [MessageInput] inside [ChatInterface]: the input is
    disabled without a conversation or while a request is pending. *)
Definition send (conversationId : option string) (isPending : bool)
           (message : string) : option (string * string) :=
  let noConversation :=
    match conversationId with
    | Some id => negb (JsString.truthy id)
    | None => true
    end in
  match handleSubmit message (noConversation || isPending) isPending with
  | Some content => handleSendMessage conversationId isPending content
  | None => None
  end.

End Client.

(* ================================================================= *)
(** ** client: Sidebar.tsx *)

Module Sidebar.

(** [s.includes(q)]: [q] occurs in [s] at some index. *)
Fixpoint includes (s q : string) : bool :=
  JsString.startsWith s q
  || match s with
     | EmptyString => false
     | String _ r => includes r q
     end.

(** [filteredConversations]: the conversations shown for a search
    query. *)
Definition filteredConversations (conversations : list Storage.Conversation)
           (searchQuery : string) : list Storage.Conversation :=
  filter (fun conv => includes (JsString.toLowerCase (Storage.title conv))
                               (JsString.toLowerCase searchQuery))
         conversations.

End Sidebar.

(* ================================================================= *)
(** ** shared/schema.ts: the [uuid] columns *)

Module Uuid.

(** [conversations.id], [messages.id] and [messages.conversation_id] are
    [uuid] columns. A text compared with such a column, or written to
    it, is first read as a uuid by the database, and the statement fails
    on a text that is none. The syntax read is PostgreSQL's: sixteen bytes
    of two hexadecimal digits each, in either case, with an optional
    hyphen after any group of four digits but the last, the whole
    optionally in braces. *)
Definition isHexDigit (c : ascii) : bool :=
  let n := nat_of_ascii c in
  ((48 <=? n) && (n <=? 57)) || ((65 <=? n) && (n <=? 70))
  || ((97 <=? n) && (n <=? 102)).

(** The bytes from number [index] on, [count] of them: their digits in
    lower case, and the text left. *)
Fixpoint hexBytes (count index : nat) (src : string)
  : option (string * string) :=
  match count with
  | O => Some (EmptyString, src)
  | S count' =>
      match src with
      | String a (String b rest) =>
          if isHexDigit a && isHexDigit b then
            let rest' :=
              match rest with
              | String c r =>
                  if Ascii.eqb c "-" && Nat.odd index && (index <? 15)
                  then r else rest
              | EmptyString => rest
              end in
            match hexBytes count' (S index) rest' with
            | Some (digits, tail) =>
                Some (String (JsString.lowerCodeUnit a)
                        (String (JsString.lowerCodeUnit b) digits), tail)
            | None => None
            end
          else None
      | _ => None
      end
  end.

(** A uuid as the database writes it: lower case, grouped 8-4-4-4-12. *)
Definition uuid_out (digits : string) : string :=
  substring 0 8 digits ++ "-" ++ substring 8 4 digits ++ "-"
  ++ substring 12 4 digits ++ "-" ++ substring 16 4 digits ++ "-"
  ++ substring 20 12 digits.

(** The uuid a text is read as, if it is one. *)
Definition uuid_in (text : string) : option string :=
  let '(braces, body) :=
    match text with
    | String c r => if Ascii.eqb c "{" then (true, r) else (false, text)
    | EmptyString => (false, text)
    end in
  match hexBytes 16 0 body with
  | None => None
  | Some (digits, tail) =>
      let tail' :=
        if (braces : bool) then
          match tail with
          | String c r => if Ascii.eqb c "}" then Some r else None
          | EmptyString => None
          end
        else Some tail in
      match tail' with
      | Some EmptyString => Some (uuid_out digits)
      | _ => None
      end
  end.

End Uuid.

(* ================================================================= *)
(** ** server/routes.ts, lines 221-235: the text of [req.params.id] *)

Module Intake.
Import Js Routes.

(** [storage.getConversation(conversationId, userId)] on the text of the
    request: the query throws on a text that is no uuid, and compares the
    uuid the text is read as with the ids of the table otherwise. *)
Definition getConversation (db : Storage.Db) (text userId : string)
  : Outcome (option Storage.Conversation) :=
  match Uuid.uuid_in text with
  | None => Rejected (ErrorObject "invalid input syntax for type uuid")
  | Some id => Resolved (Storage.getConversation db id userId)
  end.

(** How the first turn of the handler ends: with a response, or about
    to insert the content as the user's message (line 238). *)
Inductive Verdict :=
| Refused (res : Response)
| Accepted (content : string).

(** The first turn of the handler, from the text of the request: the
    lookup, whose failure is caught, and the two checks. *)
Definition receive (w : World) (userId text : string) (content : Value)
  : World * Verdict :=
  let w := elapse w in
  match getConversation (db w) text userId with
  | Rejected _ => (w, Refused failedToSend)
  | Resolved None => (w, Refused notFound)
  | Resolved (Some _) =>
      if negb (truthy content) || negb (isString content)
      then (w, Refused contentRequired)
      else match content with
           | Str s => (w, Accepted s)
           | _ => (w, Refused contentRequired)
           end
  end.

End Intake.

(* ================================================================= *)
(** ** Properties stated over the program *)

(** [m] starts with [p] when case is ignored: its first [length p] code
    units equal [p] up to case. *)
Definition startsWithIgnoringCase (m p : string) : Prop :=
  exists a b, m = (a ++ b)%string
              /\ String.length a = String.length p
              /\ JsString.toLowerCase a = JsString.toLowerCase p.

(** A string of white space only. *)
Fixpoint allWhiteSpace (s : string) : bool :=
  match s with
  | EmptyString => true
  | String c r => JsString.isWhiteSpace c && allWhiteSpace r
  end.

(** [t] is [s] without the white space around it: [s] is [t] between
    two runs of white space, and [t] neither starts nor ends with white
    space. *)
Definition trimmedOf (s t : string) : Prop :=
  (exists l r, s = (l ++ t ++ r)%string
               /\ allWhiteSpace l = true /\ allWhiteSpace r = true)
  /\ (forall c u, t = String c u -> JsString.isWhiteSpace c = false)
  /\ (forall u c, t = (u ++ String c EmptyString)%string ->
                  JsString.isWhiteSpace c = false).

(** What the router answers when no rule applies. *)
Definition defaultRoute (m : string) : Router.Routed :=
  {| Router.r_model := "gpt-4o";
     Router.r_systemPrompt := None;
     Router.cleanedMessage := m |}.

(** The order of [ORDER BY created_at]. *)
Definition byCreatedAt (a b : Storage.Message) : Prop :=
  Storage.createdAt a <= Storage.createdAt b.

(** The row the handler inserts for the user's message, when the
    request arrives in world [w]: the insert is the handler's second
    turn. *)
Definition userRow (env : Routes.Env) (w : Routes.World)
           (conversationId content : string) : Storage.Message :=
  {| Storage.id := Routes.randomUUID env (1 + Routes.tick w);
     Storage.conversationId := conversationId;
     Storage.role := Gateway.user;
     Storage.content := content;
     Storage.model := None;
     Storage.tokenCount := None;
     Storage.createdAt := Routes.date env (1 + Routes.tick w) |}.

(** The row inserted for the assistant's answer, on the sixth turn. *)
Definition assistantRow (env : Routes.Env) (w : Routes.World)
           (conversationId : string) (ai : Gateway.AiResponse)
  : Storage.Message :=
  {| Storage.id := Routes.randomUUID env (5 + Routes.tick w);
     Storage.conversationId := conversationId;
     Storage.role := Gateway.assistant;
     Storage.content := Gateway.ai_content ai;
     Storage.model := Some (Gateway.ai_model ai);
     Storage.tokenCount := Gateway.ai_tokenCount ai;
     Storage.createdAt := Routes.date env (5 + Routes.tick w) |}.

(** A table of messages with one more row. *)
Definition appended (d : Storage.Db) (m : Storage.Message) : Storage.Db :=
  {| Storage.conversations := Storage.conversations d;
     Storage.messages := (Storage.messages d ++ [m])%list |}.

(** No row of the table has this identifier. *)
Definition unusedId (d : Storage.Db) (i : string) : Prop :=
  existsb (fun m => String.eqb (Storage.id m) i) (Storage.messages d) = false.

(** The history of a conversation as the gateway is given it: its log,
    oldest first, as chat messages. *)
Definition logOf (d : Storage.Db) (conversationId : string)
  : list Gateway.ChatMessage :=
  map Routes.chatOf (Storage.selectMessages d conversationId).

(** The two messages [generateTitle] is given. *)
Definition firstExchange (content : string) (ai : Gateway.AiResponse)
  : list Gateway.ChatMessage :=
  [ {| Gateway.role := Gateway.user; Gateway.content := content |};
    {| Gateway.role := Gateway.assistant;
       Gateway.content := Gateway.ai_content ai |} ].

(** The answer to a submission that went through. *)
Definition delivered (userMessage aiMessage : Storage.Message)
  : Routes.Response :=
  {| Routes.status := 200;
     Routes.json := Routes.Exchange userMessage aiMessage |}.

(** The update that sets a title. *)
Definition titleUpdate (title : string) : Storage.Updates :=
  {| Storage.u_title := Some title; Storage.u_model := None |}.

(** The claim that an empty completion is a failure of the submission:
    whenever the provider answers with an empty completion, the handler
    reports a failure and adds no assistant row. *)
Definition emptyCompletionFails : Prop :=
  forall (env : Routes.Env) (w : Routes.World) (req : Routes.Request)
         (r : Gateway.ChatCompletion),
    (forall n q, Routes.openai env n q = Js.Resolved r) ->
    Gateway.firstContent r = Js.Resolved (Some ""%string) ->
    snd (Routes.submitMessage env w req) = Routes.Responded Routes.failedToSend
    /\ forall m, In m (Storage.messages
                         (Routes.db (fst (Routes.submitMessage env w req)))) ->
                 Storage.role m = Gateway.assistant ->
                 In m (Storage.messages (Routes.db w)).

(** A provider that answers every request with the same completion. *)
Definition constantProvider (text : option string) : Gateway.Provider :=
  fun _ => Js.Resolved
             {| Gateway.choices := [ {| Gateway.message := Some text |} ];
                Gateway.total_tokens := Some 7 |}.

(** An environment for examples: identifiers "m0", "m1", ... and a clock
    that shows the number of the moment. *)
Definition exampleEnv (p : Gateway.Provider) : Routes.Env :=
  {| Routes.openai := fun _ => p;
     Routes.randomUUID :=
       fun n => String "m" (String (ascii_of_nat (48 + n)) EmptyString);
     Routes.date := fun n => n |}.

(** A world for examples: one conversation "c1" of user "u1", no
    message, no client. *)
Definition exampleWorld : Routes.World :=
  {| Routes.db :=
       {| Storage.conversations :=
            [ {| Storage.c_id := "c1"; Storage.c_userId := "u1";
                 Storage.title := "New Conversation";
                 Storage.c_model := "gpt-4o";
                 Storage.c_createdAt := 0; Storage.updatedAt := 0 |} ];
          Storage.messages := [] |};
     Routes.clients := [];
     Routes.wire := [];
     Routes.calls := [];
     Routes.tick := 0 |}.

Definition exampleRequest (text : string) : Routes.Request :=
  {| Routes.userId := "u1";
     Routes.conversationId := "c1";
     Routes.content := Js.Str text |}.

(** A row for examples: message number [n] of conversation "c1",
    written at time [n], by the user when [n] is even. *)
Definition exampleRow (n : nat) : Storage.Message :=
  {| Storage.id := String "x" (String (ascii_of_nat (65 + n)) EmptyString);
     Storage.conversationId := "c1";
     Storage.role := if Nat.even n then Gateway.user else Gateway.assistant;
     Storage.content :=
       String "t" (String (ascii_of_nat (65 + n)) EmptyString);
     Storage.model := None;
     Storage.tokenCount := None;
     Storage.createdAt := n |}.

(** The example world after twelve messages, stored newest first. *)
Definition busyWorld : Routes.World :=
  {| Routes.db :=
       {| Storage.conversations :=
            Storage.conversations (Routes.db exampleWorld);
          Storage.messages := rev (map exampleRow (seq 0 12)) |};
     Routes.clients := [];
     Routes.wire := [];
     Routes.calls := [];
     Routes.tick := 0 |}.


(** A schedule on which the second submission starts while the first
    waits for the provider: four turns of the first, four of the second,
    then each to its end. *)
Definition racingSchedule : list nat :=
  [0; 0; 0; 0; 1; 1; 1; 1; 0; 0; 0; 0; 1; 1].

(** The constraints of shared/schema.ts on the two tables: message ids
    are distinct (primary key) and every message references a
    conversation of the table (foreign key). *)
Definition integrity (d : Storage.Db) : Prop :=
  NoDup (map Storage.id (Storage.messages d))
  /\ forall m, In m (Storage.messages d) ->
               exists c, In c (Storage.conversations d)
                         /\ Storage.c_id c = Storage.conversationId m.

(** The row has this id and this owner. *)
Definition ownedBy (cid uid : string) (c : Storage.Conversation) : bool :=
  String.eqb (Storage.c_id c) cid && String.eqb (Storage.c_userId c) uid.

(** The order of [ORDER BY updated_at DESC]. *)
Definition byUpdatedAtDesc (a b : Storage.Conversation) : Prop :=
  Storage.updatedAt b <= Storage.updatedAt a.

(** Every code unit of a string satisfies a test. *)
Fixpoint allCodeUnits (p : ascii -> bool) (s : string) : bool :=
  match s with
  | EmptyString => true
  | String c r => p c && allCodeUnits p r
  end.

(** A lower-case letter, a digit or the underscore. *)
Definition isFileNameUnit (c : ascii) : bool :=
  let n := nat_of_ascii c in
  ((48 <=? n) && (n <=? 57)) || ((97 <=? n) && (n <=? 122)) || (n =? 95).

(** No conversation of the table has an empty title. *)
Definition nonEmptyTitles (d : Storage.Db) : Prop :=
  forall c, In c (Storage.conversations d) -> Storage.title c <> ""%string.

(** A handler about to store a title holds a title that is not empty. *)
Definition holdsTitle (t : Routes.Task) : Prop :=
  match t with
  | Routes.UpdateTitle _ _ _ _ title => title <> ""%string
  | _ => True
  end.

(** How the tables [d] stand to the tables [d0] they come from: the
    constraints of the schema and the non-empty titles carry over, the
    conversations are the same in number, ids and owners, and the
    messages are those of [d0] followed by new ones. *)
Definition grownFrom (d0 d : Storage.Db) : Prop :=
  (integrity d0 -> integrity d)
  /\ (nonEmptyTitles d0 -> nonEmptyTitles d)
  /\ map Storage.c_id (Storage.conversations d)
     = map Storage.c_id (Storage.conversations d0)
  /\ map Storage.c_userId (Storage.conversations d)
     = map Storage.c_userId (Storage.conversations d0)
  /\ exists added,
       Storage.messages d = (Storage.messages d0 ++ added)%list.


(** The claim that a submission to a conversation the requester does not
    have is answered "not found", whatever the text naming it: when no
    conversation of the requester has the id the text is read as, the
    answer is 404. *)
Definition missingIsNotFound : Prop :=
  forall (w : Routes.World) (userId text : string) (content : Js.Value),
    (forall c, In c (Storage.conversations (Routes.db w)) ->
               Storage.c_userId c = userId ->
               Uuid.uuid_in text <> Some (Storage.c_id c)) ->
    snd (Intake.receive w userId text content)
    = Intake.Refused Routes.notFound.

(** A world whose conversation has a uuid for its id, as every stored
    conversation has. *)
Definition uuidWorld : Routes.World :=
  {| Routes.db :=
       {| Storage.conversations :=
            [ {| Storage.c_id := "123e4567-e89b-12d3-a456-426614174000";
                 Storage.c_userId := "u1";
                 Storage.title := "New Conversation";
                 Storage.c_model := "gpt-4o";
                 Storage.c_createdAt := 0; Storage.updatedAt := 0 |} ];
          Storage.messages := [] |};
     Routes.clients := [];
     Routes.wire := [];
     Routes.calls := [];
     Routes.tick := 0 |}.

(** An inbound frame of the expected shape: a [typing] frame that
    carries a user and a conversation. *)
Definition expectedShape (p : Hub.Parsed) : bool :=
  match p with
  | Hub.ParsedValue f =>
      match Hub.in_type f with
      | Some t => String.eqb t "typing"
      | None => false
      end
      && Hub.truthyField (Hub.in_userId f)
      && Hub.truthyField (Hub.in_conversationId f)
  | _ => false
  end.

(** The claim that every frame not of the expected shape is answered
    with an [error] frame to its sender. *)
Definition everyMalformedFrameAnswered : Prop :=
  forall (clients : Hub.Clients) (sender : string) (c : Hub.Client)
         (p : Hub.Parsed),
    Hub.get clients sender = Some c ->
    Hub.readyState (Hub.ws c) = Hub.OPEN ->
    expectedShape p = false ->
    exists d, In d (snd (Hub.onMessage clients sender p))
              /\ Hub.to d = sender
              /\ Hub.type (Hub.frame d) = Hub.error.

(** The frame [notifyNewMessage] broadcasts. *)
Definition messageFrame (conversationId : string) (payload : Hub.Data)
  : Hub.WebSocketMessage :=
  {| Hub.type := Hub.message;
     Hub.conversationId := Some conversationId;
     Hub.userId := None;
     Hub.data := payload |}.

(** The frame re-broadcast for a [typing] frame. *)
Definition typingFrame (f : Hub.InboundFrame) (userId : string)
  : Hub.WebSocketMessage :=
  {| Hub.type := Hub.typing;
     Hub.conversationId := None;
     Hub.userId := Some userId;
     Hub.data := Hub.dataOf (Hub.in_data f) |}.

(* ================================================================= *)
(** ** Strings *)

Section StringFacts.
Import JsString.

Lemma toLowerCase_app (a b : string) :
  toLowerCase (a ++ b) = (toLowerCase a ++ toLowerCase b)%string.
Proof.
  induction a as [|c a IH]; simpl; [reflexivity | now rewrite IH].
Qed.

Lemma toLowerCase_length (s : string) :
  String.length (toLowerCase s) = String.length s.
Proof.
  induction s as [|c s IH]; simpl; [reflexivity | now rewrite IH].
Qed.

Lemma startsWith_app (p r : string) : startsWith (p ++ r) p = true.
Proof.
  unfold startsWith.
  induction p as [|c p IH]; simpl.
  - now destruct r.
  - destruct (ascii_dec c c) as [_|ne]; [exact IH | now elim ne].
Qed.

Lemma startsWith_inv (p s : string) :
  startsWith s p = true -> exists r, s = (p ++ r)%string.
Proof.
  unfold startsWith. revert s.
  induction p as [|c p IH]; intros s H.
  - now exists s.
  - destruct s as [|d s]; simpl in H; [discriminate|].
    destruct (ascii_dec c d) as [->|]; [|discriminate].
    destruct (IH _ H) as [r ->]. now exists r.
Qed.

Lemma substringFrom_app (a b : string) :
  substringFrom (String.length a) (a ++ b) = b.
Proof.
  induction a as [|c a IH]; simpl; [now destruct b | exact IH].
Qed.

(** The test of the source, [lowercaseMessage.startsWith(prefix)], is
    the case-insensitive prefix test when the prefix is in lower case. *)
Lemma startsWith_lower_iff (p : string) :
  toLowerCase p = p ->
  forall m, startsWith (toLowerCase m) p = true
            <-> startsWithIgnoringCase m p.
Proof.
  intros Hp m. split.
  - revert m. induction p as [|c p IH]; intros m H.
    + exists ""%string, m. now repeat split.
    + simpl in Hp. injection Hp as Hc Hp'.
      destruct m as [|d m]; unfold startsWith in H; simpl in H;
        [discriminate|].
      destruct (ascii_dec c (lowerCodeUnit d)) as [E|]; [|discriminate].
      destruct (IH Hp' m H) as (a & b & -> & Hl & Ha).
      exists (String d a), b.
      cbn [toLowerCase String.length append]. repeat split.
      * now rewrite Hl.
      * rewrite Ha. congruence.
  - intros (a & b & -> & _ & Ha).
    rewrite toLowerCase_app, Ha, Hp. apply startsWith_app.
Qed.

Lemma trimStart_split (s : string) :
  exists l, s = (l ++ trimStart s)%string /\ allWhiteSpace l = true.
Proof.
  induction s as [|c s (l & E & Hl)]; cbn [trimStart].
  - now exists ""%string.
  - destruct (isWhiteSpace c) eqn:Hc.
    + exists (String c l). cbn [append allWhiteSpace].
      rewrite Hc, Hl. split; [now rewrite <- E | reflexivity].
    + now exists ""%string.
Qed.

Lemma trimStart_head (s : string) (c : ascii) (u : string) :
  trimStart s = String c u -> isWhiteSpace c = false.
Proof.
  induction s as [|d s IH]; cbn [trimStart]; [discriminate|].
  destruct (isWhiteSpace d) eqn:Hd; [exact IH|].
  intros E. injection E as <- _. exact Hd.
Qed.

Lemma trimEnd_split (s : string) :
  exists r, s = (trimEnd s ++ r)%string /\ allWhiteSpace r = true.
Proof.
  induction s as [|c s (r & E & Hr)]; cbn [trimEnd].
  - now exists ""%string.
  - destruct (trimEnd s) as [|d t] eqn:Et.
    + destruct (isWhiteSpace c) eqn:Hc.
      * exists (String c r). cbn [append allWhiteSpace] in *.
        rewrite Hc, Hr. split; [now rewrite <- E | reflexivity].
      * exists r. cbn [append] in *. split; [now rewrite <- E | exact Hr].
    + exists r. cbn [append] in *. split; [now rewrite <- E | exact Hr].
Qed.

Lemma trimEnd_head (s : string) (c : ascii) (u : string) :
  trimEnd s = String c u -> exists v, s = String c v.
Proof.
  destruct s as [|d s]; cbn [trimEnd]; [discriminate|].
  destruct (trimEnd s); [destruct (isWhiteSpace d)|];
    intros E; try discriminate; injection E as <- _; now exists s.
Qed.

Lemma trimEnd_last (s u : string) (c : ascii) :
  trimEnd s = (u ++ String c EmptyString)%string -> isWhiteSpace c = false.
Proof.
  revert u. induction s as [|d s IH]; intros u; cbn [trimEnd].
  - destruct u; discriminate.
  - destruct (trimEnd s) as [|e t] eqn:Et.
    + destruct (isWhiteSpace d) eqn:Hd.
      * destruct u; discriminate.
      * destruct u as [|x u]; cbn [append]; intros E.
        -- injection E as <-. exact Hd.
        -- injection E as _ E. destruct u; discriminate.
    + destruct u as [|x u]; cbn [append]; intros E.
      * discriminate.
      * injection E as _ E. exact (IH u E).
Qed.

(** [trim] removes the white space around a string, and nothing else. *)
Lemma trim_trimmedOf (s : string) : trimmedOf s (trim s).
Proof.
  unfold trim.
  destruct (trimStart_split s) as (l & El & Hl).
  destruct (trimEnd_split (trimStart s)) as (r & Er & Hr).
  split; [|split].
  - exists l, r. split; [|now split].
    rewrite El at 1. now rewrite Er at 1.
  - intros c u E. apply trimEnd_head in E as [v E].
    exact (trimStart_head s c v E).
  - intros u c E. exact (trimEnd_last _ u c E).
Qed.

End StringFacts.

(* ================================================================= *)
(** ** The prefix router *)

Section RouterFacts.
Import JsString Router.

Lemma modelRouting_lower :
  Forall (fun e => toLowerCase (fst e) = fst e) modelRouting.
Proof. repeat constructor. Qed.

(** A message that starts, case ignored, with the prefix of a rule is
    routed by that rule: no other rule's prefix can start it too. *)
Lemma getModelAndPrompt_match (p : string) (rule : RoutingRule)
      (a b : string) :
  In (p, rule) modelRouting ->
  String.length a = String.length p ->
  toLowerCase a = toLowerCase p ->
  getModelAndPrompt (a ++ b) =
    {| r_model := model rule;
       r_systemPrompt := systemPrompt rule;
       cleanedMessage := trim b |}.
Proof.
  intros Hin Hlen Hlow.
  unfold getModelAndPrompt.
  rewrite toLowerCase_app, Hlow.
  assert (Hb : trim b = trim (substringFrom (String.length p) (a ++ b)))
    by now rewrite <- Hlen, substringFrom_app.
  rewrite Hb. clear Hb Hlen Hlow.
  generalize (a ++ b)%string (toLowerCase b). intros m lb.
  simpl in Hin.
  destruct Hin as [E|[E|[E|[E|[]]]]]; injection E as <- <-;
  destruct lb; reflexivity.
Qed.

Lemma firstMatch_none (rules : list (string * RoutingRule))
      (lowered m : string) :
  (forall p rule, In (p, rule) rules -> startsWith lowered p = false) ->
  firstMatch rules lowered m = None.
Proof.
  induction rules as [|[p rule] rules IH]; intros H; simpl.
  - reflexivity.
  - rewrite (H p rule (or_introl eq_refl)).
    apply IH. intros q r Hq. apply (H q r). now right.
Qed.

End RouterFacts.

(** C3. Prefix routing. For every raw message [m]: if [m] starts, case
    ignored, with the prefix [p] of a configured rule, that is
    [m = a ++ b] where [a] has the length of [p] and equals it up to
    case, the router returns that rule's model and system prompt, and
    the cleaned message is [b], the message without its first [length p]
    code units, with the white space around it removed. If no configured prefix starts [m], the router
    returns the default model gpt-4o, no system prompt and [m] itself;
    this is so for the empty message. The router is a total function. *)
Theorem route_by_prefix (m : string) :
  (forall p rule a b,
      In (p, rule) Router.modelRouting ->
      m = (a ++ b)%string ->
      String.length a = String.length p ->
      JsString.toLowerCase a = JsString.toLowerCase p ->
      Router.getModelAndPrompt m =
        {| Router.r_model := Router.model rule;
           Router.r_systemPrompt := Router.systemPrompt rule;
           Router.cleanedMessage := JsString.trim b |}
      /\ b = JsString.substringFrom (String.length p) m
      /\ trimmedOf b (JsString.trim b))
  /\ ((forall p rule, In (p, rule) Router.modelRouting ->
                      ~ startsWithIgnoringCase m p) ->
      Router.getModelAndPrompt m = defaultRoute m)
  /\ Router.getModelAndPrompt ""%string = defaultRoute ""%string.
Proof.
  split; [|split].
  - intros p rule a b Hin -> Hlen Hlow. split; [|split].
    + exact (getModelAndPrompt_match p rule a b Hin Hlen Hlow).
    + now rewrite <- Hlen, substringFrom_app.
    + apply trim_trimmedOf.
  - intros Hno. unfold Router.getModelAndPrompt.
    rewrite firstMatch_none; [reflexivity|].
    intros p rule Hin.
    destruct (JsString.startsWith (JsString.toLowerCase m) p) eqn:E;
      [|reflexivity].
    exfalso. apply (Hno p rule Hin).
    pose proof modelRouting_lower as F.
    rewrite Forall_forall in F.
    exact (proj1 (startsWith_lower_iff p (F _ Hin) m) E).
  - reflexivity.
Qed.

(** The routing theorem at "Code:   hi " (rule "code:") and at
    "hello there" (no rule). *)
Lemma route_by_prefix_witness :
  Router.getModelAndPrompt "Code:   hi " =
    {| Router.r_model := "gpt-4o";
       Router.r_systemPrompt := Some "You are an expert software developer and architect. Provide detailed, accurate code examples and explanations. Focus on best practices, security, and maintainability.";
       Router.cleanedMessage := "hi" |}
  /\ Router.getModelAndPrompt "hello there" = defaultRoute "hello there".
Proof.
  split.
  - exact (proj1 (proj1 (route_by_prefix "Code:   hi ") "code:"%string
             {| Router.model := "gpt-4o";
                Router.systemPrompt := Some "You are an expert software developer and architect. Provide detailed, accurate code examples and explanations. Focus on best practices, security, and maintainability."%string |}
             "Code:"%string "   hi "%string
             (or_introl eq_refl) eq_refl eq_refl eq_refl)).
  - apply (proj1 (proj2 (route_by_prefix "hello there"))).
    intros p rule Hin Hci.
    pose proof modelRouting_lower as F.
    rewrite Forall_forall in F.
    apply (proj2 (startsWith_lower_iff p (F _ Hin) _)) in Hci.
    simpl in Hin.
    destruct Hin as [E|[E|[E|[E|[]]]]]; injection E as <- <-;
      vm_compute in Hci; discriminate.
Defined.

(** C10. Every route selects gpt-4o: each configured rule and the
    default name that model, so a prefix changes the system prompt and
    the cleaned message only. *)
Theorem route_model_constant (m : string) :
  Router.r_model (Router.getModelAndPrompt m) = "gpt-4o"%string
  /\ Forall (fun e => Router.model (snd e) = "gpt-4o"%string)
            Router.modelRouting.
Proof.
  split.
  - unfold Router.getModelAndPrompt, Router.modelRouting, Router.firstMatch.
    repeat match goal with
           | |- context [if ?c then _ else _] => destruct c
           end; reflexivity.
  - repeat constructor.
Qed.

(* ================================================================= *)
(** ** The realtime hub *)

Section HubFacts.
Import Hub.

Lemma broadcast_in (clients : Clients) (cid : string)
      (msg : WebSocketMessage) (excl : option string) (d : Delivery) :
  In d (broadcastToConversation clients cid msg excl) <->
  exists k c, In (k, c) clients
              /\ d = {| to := k; socket := ws c; frame := msg |}
              /\ watches c cid = true
              /\ notExcluded k excl = true
              /\ readyState (ws c) = OPEN.
Proof.
  induction clients as [|[k c] r IH]; simpl.
  - split; [tauto | now intros (? & ? & [] & _)].
  - destruct (watches c cid && notExcluded k excl
              && isOpen (readyState (ws c))) eqn:E.
    + apply andb_prop in E as [E Ho]. apply andb_prop in E as [Hw Hx].
      assert (Hopen : readyState (ws c) = OPEN)
        by (destruct (readyState (ws c)); simpl in Ho; congruence).
      simpl. rewrite IH. split.
      * intros [<-|(k' & c' & Hin & Hd)].
        -- exists k, c. repeat split; auto.
        -- exists k', c'. split; [now right | exact Hd].
      * intros (k' & c' & [Heq|Hin] & Hd).
        -- injection Heq as <- <-. left. symmetry. apply Hd.
        -- right. now exists k', c'.
    + rewrite IH. split.
      * intros (k' & c' & Hin & Hd). exists k', c'.
        split; [now right | exact Hd].
      * intros (k' & c' & [Heq|Hin] & Hd & Hw & Hx & Ho).
        -- injection Heq as <- <-. rewrite Hw, Hx, Ho in E. discriminate.
        -- exists k', c'. repeat split; auto.
Qed.

Lemma set_other (clients : Clients) (a : string) (new : Client)
      (k : string) (c : Client) :
  k <> a -> In (k, c) clients -> In (k, c) (set clients a new).
Proof.
  intros Hk. induction clients as [|[k' c'] r IH]; simpl.
  - tauto.
  - intros [E|Hin].
    + injection E as -> ->.
      destruct (String.eqb k a) eqn:Eq.
      * apply String.eqb_eq in Eq. contradiction.
      * now left.
    + destruct (String.eqb k' a); right; auto.
Qed.

Lemma watches_iff (c : Client) (cid : string) :
  watches c cid = true <-> c_conversationId c = Some cid.
Proof.
  unfold watches. destruct (c_conversationId c) as [x|].
  - rewrite String.eqb_eq. split; congruence.
  - split; discriminate.
Qed.

End HubFacts.

(** C8. Fan-out. A [message] broadcast for conversation [C] is sent to
    every registered client that watches [C] on an open connection,
    nobody excluded; a [typing] frame from client [A] that carries a user
    and the conversation [C] is sent on to every other registered client
    that watches [C] on an open connection, and no frame of it goes back
    to [A]. *)
Theorem hub_fan_out (clients : Hub.Clients) (C : string) :
  (forall payload k c,
      In (k, c) clients ->
      Hub.c_conversationId c = Some C ->
      Hub.readyState (Hub.ws c) = Hub.OPEN ->
      In {| Hub.to := k; Hub.socket := Hub.ws c;
            Hub.frame := messageFrame C payload |}
         (Hub.notifyNewMessage clients C payload))
  /\ (forall A f u,
         Hub.get clients A <> None ->
         Hub.in_type f = Some "typing"%string ->
         Hub.in_userId f = Some u -> u <> ""%string ->
         Hub.in_conversationId f = Some C -> C <> ""%string ->
         exists clients' sent,
           Hub.handleMessage clients A (Some f)
             = Js.Resolved (clients', sent)
           /\ (forall k c,
                  In (k, c) clients -> k <> A ->
                  Hub.c_conversationId c = Some C ->
                  Hub.readyState (Hub.ws c) = Hub.OPEN ->
                  In {| Hub.to := k; Hub.socket := Hub.ws c;
                        Hub.frame := typingFrame f u |} sent)
           /\ (forall d, In d sent -> Hub.to d <> A)).
Proof.
  split.
  - intros payload k c Hin Hc Ho.
    unfold Hub.notifyNewMessage. apply broadcast_in.
    exists k, c. repeat split; auto.
    now apply watches_iff.
  - intros A f u Hreg Ht Hu Hune Hc Hcne.
    unfold Hub.handleMessage.
    destruct (Hub.get clients A) as [client|]; [|congruence].
    rewrite Ht, Hu, Hc. simpl.
    destruct u as [|u0 u']; [congruence|].
    destruct C as [|c0 C']; [congruence|]. simpl.
    eexists _, _. split; [reflexivity|]. split.
    + intros k c Hin Hk Hw Ho. apply broadcast_in.
      exists k, c. repeat split; auto.
      * now apply set_other.
      * now apply watches_iff.
      * simpl. destruct (String.eqb k A) eqn:E; [|reflexivity].
        apply String.eqb_eq in E. contradiction.
    + intros d Hd. apply broadcast_in in Hd.
      destruct Hd as (k & c & _ & -> & _ & Hx & _). simpl in *.
      destruct (String.eqb k A) eqn:E; [discriminate|].
      now apply String.eqb_neq in E.
Qed.

(** The fan-out theorem with two clients A and B watching "C": the
    message broadcast reaches A, and A's typing frame reaches B. *)
Lemma hub_fan_out_witness :
  let sockA := {| Hub.socketId := 1; Hub.readyState := Hub.OPEN |} in
  let sockB := {| Hub.socketId := 2; Hub.readyState := Hub.OPEN |} in
  let A := {| Hub.ws := sockA; Hub.c_userId := "ann";
              Hub.c_conversationId := Some "C"%string |} in
  let B := {| Hub.ws := sockB; Hub.c_userId := "bob";
              Hub.c_conversationId := Some "C"%string |} in
  let clients := [("a"%string, A); ("b"%string, B)] in
  let f := {| Hub.in_type := Some "typing"%string;
              Hub.in_conversationId := Some "C"%string;
              Hub.in_userId := Some "ann"%string;
              Hub.in_data := None |} in
  In {| Hub.to := "a"%string; Hub.socket := sockA;
        Hub.frame := messageFrame "C" Hub.NoData |}
     (Hub.notifyNewMessage clients "C" Hub.NoData)
  /\ exists clients' sent,
       Hub.handleMessage clients "a" (Some f) = Js.Resolved (clients', sent)
       /\ In {| Hub.to := "b"%string; Hub.socket := sockB;
                Hub.frame := typingFrame f "ann" |} sent
       /\ (forall d, In d sent -> Hub.to d <> "a"%string).
Proof.
  intros sockA sockB A B clients f.
  destruct (hub_fan_out clients "C") as [Hm Ht]. split.
  - apply (Hm Hub.NoData "a"%string A);
      [left; reflexivity | reflexivity | reflexivity].
  - destruct (Ht "a"%string f "ann"%string) as (clients' & sent & E & Hall & Hno);
      [discriminate | reflexivity | reflexivity | discriminate
       | reflexivity | discriminate |].
    exists clients', sent. split; [exact E|]. split; [|exact Hno].
    apply (Hall "b"%string B);
      [right; left; reflexivity | discriminate | reflexivity | reflexivity].
Defined.

(** A frame that parses but is not a complete [typing] frame leaves the
    hub as it was and sends nothing. *)
Lemma handleMessage_ignored (clients : Hub.Clients) (sender : string)
      (f : Hub.InboundFrame) :
  expectedShape (Hub.ParsedValue f) = false ->
  Hub.handleMessage clients sender (Some f) = Js.Resolved (clients, []).
Proof.
  unfold expectedShape, Hub.handleMessage, Hub.truthyField. intros H.
  destruct (Hub.get clients sender) as [client|]; [|reflexivity].
  destruct (match Hub.in_type f with
            | Some t => String.eqb t "typing"
            | None => false
            end); [|reflexivity].
  destruct (Hub.in_userId f) as [u|]; [|reflexivity].
  destruct (Hub.in_conversationId f) as [c|]; [|reflexivity].
  simpl in H. now rewrite H.
Qed.

(** C9, as stated, fails: a frame of an unhandled type, sent by a
    registered client on an open connection, is not of the expected
    shape and yet no [error] frame is sent back. *)
Lemma unhandled_type_not_answered : ~ everyMalformedFrameAnswered.
Proof.
  intros H.
  pose (c := {| Hub.ws := {| Hub.socketId := 1;
                             Hub.readyState := Hub.OPEN |};
                Hub.c_userId := ""%string;
                Hub.c_conversationId := None |}).
  destruct (H [("a"%string, c)] "a"%string c
              (Hub.ParsedValue {| Hub.in_type := Some "chat"%string;
                                  Hub.in_conversationId := None;
                                  Hub.in_userId := None;
                                  Hub.in_data := None |})
              eq_refl eq_refl eq_refl) as (d & Hd & _).
  exact Hd.
Qed.

(** C9, amended. A frame that is not JSON, or that parses to [null], is
    answered with one [error] frame to its sender (registered, on an open
    connection); a frame that parses to anything else but a complete
    [typing] frame is ignored, with no answer at all. In both cases the
    registry, and with it the sender's connection, is left as it was and
    nothing is broadcast. *)
Theorem malformed_frame_handling (clients : Hub.Clients) (sender : string)
        (c : Hub.Client) (p : Hub.Parsed) :
  Hub.get clients sender = Some c ->
  Hub.readyState (Hub.ws c) = Hub.OPEN ->
  expectedShape p = false ->
  Hub.onMessage clients sender p =
    (clients,
     match p with
     | Hub.ParsedValue _ => []
     | _ => [ {| Hub.to := sender; Hub.socket := Hub.ws c;
                 Hub.frame := Hub.invalidFormat |} ]
     end)
  /\ Hub.type Hub.invalidFormat = Hub.error.
Proof.
  intros Hget Hopen Hshape. split; [|reflexivity].
  unfold Hub.onMessage. destruct p as [| |f].
  - unfold Hub.sendToClient. now rewrite Hget, Hopen.
  - unfold Hub.handleMessage, Hub.sendToClient. now rewrite Hget, Hopen.
  - now rewrite handleMessage_ignored.
Qed.

(** The amended C9 at a frame that is not JSON. *)
Lemma malformed_frame_handling_witness :
  let sock := {| Hub.socketId := 1; Hub.readyState := Hub.OPEN |} in
  let c := {| Hub.ws := sock; Hub.c_userId := ""%string;
              Hub.c_conversationId := None |} in
  Hub.onMessage [("a"%string, c)] "a" Hub.SyntaxError =
    ([("a"%string, c)],
     [ {| Hub.to := "a"%string; Hub.socket := sock;
          Hub.frame := Hub.invalidFormat |} ])
  /\ Hub.type Hub.invalidFormat = Hub.error.
Proof.
  intros sock c.
  exact (malformed_frame_handling [("a"%string, c)] "a"%string c
           Hub.SyntaxError eq_refl eq_refl eq_refl).
Defined.

(* ================================================================= *)
(** ** The store *)


Section StorageFacts.
Import Storage.

Lemma insertByCreatedAt_In (x m : Message) (l : list Message) :
  In m (insertByCreatedAt x l) <-> m = x \/ In m l.
Proof.
  induction l as [|y r IH]; simpl.
  - intuition congruence.
  - destruct (createdAt x <=? createdAt y); simpl.
    + intuition congruence.
    + rewrite IH. intuition congruence.
Qed.

Lemma insertByCreatedAt_first (x : Message) (l : list Message) :
  Forall (byCreatedAt x) l -> insertByCreatedAt x l = x :: l.
Proof.
  destruct l as [|y r]; simpl; [reflexivity|].
  intros H. inversion H as [|? ? Hxy _]; subst.
  apply Nat.leb_le in Hxy. now rewrite Hxy.
Qed.

Lemma insertByCreatedAt_sorted (x : Message) (l : list Message) :
  StronglySorted byCreatedAt l ->
  StronglySorted byCreatedAt (insertByCreatedAt x l).
Proof.
  induction l as [|y r IH]; simpl; intros Hs.
  - repeat constructor.
  - inversion Hs as [|? ? Hr Hy]; subst.
    destruct (createdAt x <=? createdAt y) eqn:E.
    + apply Nat.leb_le in E. constructor; [exact Hs|].
      constructor; [exact E|].
      rewrite Forall_forall in Hy |- *. intros z Hz.
      unfold byCreatedAt in *. specialize (Hy z Hz). lia.
    + apply Nat.leb_gt in E. constructor; [now apply IH|].
      rewrite Forall_forall in Hy |- *. intros z Hz.
      apply insertByCreatedAt_In in Hz. destruct Hz as [->|Hz].
      * unfold byCreatedAt. lia.
      * now apply Hy.
Qed.

Lemma orderByCreatedAt_sorted (l : list Message) :
  StronglySorted byCreatedAt (orderByCreatedAt l).
Proof.
  induction l as [|x r IH]; simpl.
  - constructor.
  - now apply insertByCreatedAt_sorted.
Qed.

Lemma orderByCreatedAt_In (m : Message) (l : list Message) :
  In m (orderByCreatedAt l) <-> In m l.
Proof.
  induction l as [|x r IH]; simpl; [tauto|].
  rewrite insertByCreatedAt_In, IH. intuition congruence.
Qed.

(** Dropping rows commutes with inserting into an ordered list. *)
Lemma filter_insertByCreatedAt (p : Message -> bool) (x : Message)
      (l : list Message) :
  StronglySorted byCreatedAt l ->
  filter p (insertByCreatedAt x l) =
    if p x then insertByCreatedAt x (filter p l) else filter p l.
Proof.
  induction l as [|y r IH]; simpl; intros Hs.
  - now destruct (p x).
  - inversion Hs as [|? ? Hr Hy]; subst.
    destruct (createdAt x <=? createdAt y) eqn:E; simpl.
    + destruct (p x) eqn:Px; [|reflexivity].
      destruct (p y) eqn:Py; simpl.
      * now rewrite E.
      * symmetry. apply insertByCreatedAt_first.
        apply Nat.leb_le in E.
        rewrite Forall_forall in Hy |- *. intros z Hz.
        apply filter_In in Hz. destruct Hz as [Hz _].
        unfold byCreatedAt in *. specialize (Hy z Hz). lia.
    + rewrite (IH Hr).
      destruct (p y) eqn:Py; destruct (p x) eqn:Px; simpl;
        try rewrite E; reflexivity.
Qed.

(** The order of the rows kept by a filter does not depend on the rows
    dropped. *)
Lemma filter_orderByCreatedAt (p : Message -> bool) (l : list Message) :
  filter p (orderByCreatedAt l) = orderByCreatedAt (filter p l).
Proof.
  induction l as [|x r IH]; simpl; [reflexivity|].
  rewrite filter_insertByCreatedAt by apply orderByCreatedAt_sorted.
  rewrite IH. now destruct (p x).
Qed.



Lemma filter_all {A : Type} (p : A -> bool) (l : list A) :
  (forall x, In x l -> p x = true) -> filter p l = l.
Proof.
  induction l as [|x r IH]; simpl; intros H; [reflexivity|].
  rewrite (H x (or_introl eq_refl)), IH; [reflexivity|].
  intros y Hy. apply H. now right.
Qed.

(** An owned conversation exists, whoever is asked for. *)
Lemma getConversation_exists (d : Db) (cid uid : string) (c : Conversation) :
  getConversation d cid uid = Some c ->
  existsb (fun c' => String.eqb (c_id c') cid) (conversations d) = true.
Proof.
  unfold getConversation. intros H.
  apply find_some in H. destruct H as [Hin Hb].
  apply andb_prop in Hb as [Hb _].
  apply existsb_exists. now exists c.
Qed.

(** The log read after a message was added, without that message, is
    the log as it was before. *)
Lemma selectMessages_without_new (d : Db) (cid : string) (new : Message) :
  conversationId new = cid ->
  existsb (fun m => String.eqb (id m) (id new)) (messages d) = false ->
  filter (fun m => negb (String.eqb (id m) (id new)))
         (selectMessages {| conversations := conversations d;
                            messages := messages d ++ [new] |} cid)
  = selectMessages d cid.
Proof.
  intros Hc Hfresh. unfold selectMessages. simpl.
  rewrite filter_orderByCreatedAt. f_equal.
  rewrite filter_app. simpl.
  rewrite Hc, String.eqb_refl. simpl.
  rewrite filter_app. simpl.
  rewrite String.eqb_refl. simpl. rewrite app_nil_r.
  apply filter_all. intros x Hx. apply filter_In in Hx as [Hx _].
  destruct (String.eqb (id x) (id new)) eqn:E; [|reflexivity].
  exfalso. assert (existsb (fun m => String.eqb (id m) (id new))
                           (messages d) = true)
    by (apply existsb_exists; now exists x).
  congruence.
Qed.

End StorageFacts.

(* ================================================================= *)
(** ** The message route, run on its own *)

Section RouteFacts.
Import Js Routes.

Variable env : Env.

(** A run that has responded stays where it is. *)
Lemma run_responded (fuel : nat) (w : World) (res : Response) :
  run env fuel w (Responded res) = (w, Responded res).
Proof. now destruct fuel. Qed.

Lemma run_step (fuel : nat) (w : World) (t : Task) :
  (forall res, t <> Responded res) ->
  run env (S fuel) w t = run env fuel (fst (step env w t)) (snd (step env w t)).
Proof.
  intros H. destruct t; cbn [run];
    try (match goal with
         | |- context [step env w ?t] => destruct (step env w t)
         end; reflexivity).
  exfalso. eapply H. reflexivity.
Qed.

Ltac turn lem := rewrite run_step by discriminate; rewrite lem.

Lemma run_next (fuel : nat) (w w' : World) (t t' : Task) :
  (forall res, t <> Responded res) ->
  step env w t = (w', t') ->
  run env (S fuel) w t = run env fuel w' t'.
Proof. intros H E. rewrite run_step by exact H. now rewrite E. Qed.

(** The turns of the handler, one equation for each [await]. *)
Lemma step_Received (w : World) (req : Request) :
  step env w (Received req) =
    match Storage.getConversation (db (elapse w)) (conversationId req)
                                  (userId req) with
    | None => (elapse w, Responded notFound)
    | Some _ =>
        if negb (truthy (content req)) || negb (isString (content req))
        then (elapse w, Responded contentRequired)
        else match content req with
             | Str s => (elapse w, AddUserMessage (userId req)
                                                  (conversationId req) s)
             | _ => (elapse w, Responded contentRequired)
             end
    end.
Proof. reflexivity. Qed.

Lemma step_AddUserMessage (w : World) (uid cid s : string) :
  step env w (AddUserMessage uid cid s) =
    match Storage.addMessage (randomUUID env (tick w)) (date env (tick w))
            (db (elapse w))
            {| Storage.i_conversationId := cid;
               Storage.i_role := Gateway.user;
               Storage.i_content := s;
               Storage.i_model := None;
               Storage.i_tokenCount := None |} with
    | Rejected _ => (elapse w, Responded failedToSend)
    | Resolved (um, d') => (withDb (elapse w) d', VerifyOwner uid cid s um)
    end.
Proof. reflexivity. Qed.

Lemma step_VerifyOwner (w : World) (uid cid s : string)
      (um : Storage.Message) :
  step env w (VerifyOwner uid cid s um) =
    match Storage.getConversation (db (elapse w)) cid uid with
    | None => (elapse w, Responded failedToSend)
    | Some _ => (elapse w, SelectMessages uid cid s um)
    end.
Proof. reflexivity. Qed.

Lemma step_SelectMessages (w : World) (uid cid s : string)
      (um : Storage.Message) :
  step env w (SelectMessages uid cid s um) =
    (elapse w,
     Generating uid cid s um (Storage.selectMessages (db (elapse w)) cid)).
Proof. reflexivity. Qed.

Lemma step_Generating (w : World) (uid cid s : string)
      (um : Storage.Message) (msgs : list Storage.Message) :
  step env w (Generating uid cid s um msgs) =
    let request :=
      Gateway.completionRequest s (conversationHistory msgs um) in
    match Gateway.completionResult (Gateway.model request)
            (openai env (tick w) request) with
    | Rejected _ => (withCall (elapse w) request, Responded failedToSend)
    | Resolved ai =>
        (withCall (elapse w) request, AddAiMessage uid cid s um msgs ai)
    end.
Proof. reflexivity. Qed.

Lemma step_AddAiMessage (w : World) (uid cid s : string)
      (um : Storage.Message) (msgs : list Storage.Message)
      (ai : Gateway.AiResponse) :
  step env w (AddAiMessage uid cid s um msgs ai) =
    match Storage.addMessage (randomUUID env (tick w)) (date env (tick w))
            (db w)
            {| Storage.i_conversationId := cid;
               Storage.i_role := Gateway.assistant;
               Storage.i_content := Gateway.ai_content ai;
               Storage.i_model := Some (Gateway.ai_model ai);
               Storage.i_tokenCount := Gateway.ai_tokenCount ai |} with
    | Rejected _ => (elapse w, Responded failedToSend)
    | Resolved (am, d') =>
        if List.length msgs =? 1
        then (withDb (elapse w) d', GenerateTitle uid cid s um am ai)
        else notifyAndRespond (withDb (elapse w) d') cid um am
    end.
Proof. reflexivity. Qed.

Lemma step_GenerateTitle (w : World) (uid cid s : string)
      (um am : Storage.Message) (ai : Gateway.AiResponse) :
  step env w (GenerateTitle uid cid s um am ai) =
    match Gateway.titleCall (firstExchange s ai) with
    | None => (elapse w, UpdateTitle uid cid um am Gateway.newConversation)
    | Some request =>
        (withCall (elapse w) request,
         UpdateTitle uid cid um am
                     (Gateway.titleResult (openai env (tick w) request)))
    end.
Proof. reflexivity. Qed.

Lemma step_UpdateTitle (w : World) (uid cid : string)
      (um am : Storage.Message) (title : string) :
  step env w (UpdateTitle uid cid um am title) =
    notifyAndRespond
      (withDb (elapse w)
              (snd (Storage.updateConversation (date env (tick w)) (db w)
                      cid uid (titleUpdate title))))
      cid um am.
Proof. reflexivity. Qed.

(** The first four turns of a valid submission: the conversation is
    found, the user's message is inserted, the owner is verified again
    and the log is read. The handler then waits for the provider. *)
Lemma run_to_generating (w : World) (req : Request) (c : Storage.Conversation)
      (s : string) :
  Storage.getConversation (db w) (conversationId req) (userId req) = Some c ->
  content req = Str s -> s <> ""%string ->
  unusedId (db w) (randomUUID env (1 + tick w)) ->
  let um := userRow env w (conversationId req) s in
  let d1 := appended (db w) um in
  submitMessage env w req =
    run env 4
        {| db := d1; clients := clients w; wire := wire w;
           calls := calls w; tick := 4 + tick w |}
        (Generating (userId req) (conversationId req) s um
                    (Storage.selectMessages d1 (conversationId req))).
Proof.
  intros Hc Hs Hne Hfresh um d1.
  unfold submitMessage.
  turn step_Received.
  cbn [elapse db]. rewrite Hc, Hs.
  destruct s as [|s0 s']; [congruence|].
  cbn [truthy isString JsString.truthy negb orb fst snd].
  turn step_AddUserMessage.
  unfold Storage.addMessage.
  cbn [elapse db tick Storage.i_conversationId].
  unfold unusedId in Hfresh. cbn [Nat.add] in Hfresh. rewrite Hfresh.
  rewrite (getConversation_exists _ _ _ _ Hc). cbn [negb fst snd].
  turn step_VerifyOwner.
  cbn [elapse withDb db Storage.conversations].
  unfold Storage.getConversation in Hc |- *.
  cbn [Storage.conversations]. rewrite Hc. cbn [fst snd].
  turn step_SelectMessages.
  cbn [fst snd]. reflexivity.
Qed.

Lemma history_before (w : World) (cid s : string) :
  unusedId (db w) (randomUUID env (1 + tick w)) ->
  conversationHistory
    (Storage.selectMessages (appended (db w) (userRow env w cid s)) cid)
    (userRow env w cid s)
  = logOf (db w) cid.
Proof.
  intros Hfresh. unfold conversationHistory, logOf. f_equal.
  now apply selectMessages_without_new.
Qed.

(** The whole run of a valid submission, written in direct style. *)
Lemma submitMessage_valid (w : World) (req : Request)
      (c : Storage.Conversation) (s : string) :
  Storage.getConversation (db w) (conversationId req) (userId req) = Some c ->
  content req = Str s -> s <> ""%string ->
  unusedId (db w) (randomUUID env (1 + tick w)) ->
  let cid := conversationId req in
  let um := userRow env w cid s in
  let d1 := appended (db w) um in
  let request := Gateway.completionRequest s (logOf (db w) cid) in
  submitMessage env w req =
    match Gateway.generateResponse (openai env (4 + tick w)) s
                                   (logOf (db w) cid) with
    | Rejected _ =>
        ({| db := d1; clients := clients w; wire := wire w;
            calls := calls w ++ [request]; tick := 5 + tick w |},
         Responded failedToSend)
    | Resolved ai =>
        if existsb (fun m => String.eqb (Storage.id m)
                               (randomUUID env (5 + tick w)))
                   (Storage.messages d1)
        then
          ({| db := d1; clients := clients w; wire := wire w;
              calls := calls w ++ [request]; tick := 6 + tick w |},
           Responded failedToSend)
        else
          let am := assistantRow env w cid ai in
          let d2 := appended d1 am in
          let sent := Hub.notifyNewMessage (clients w) cid
                        (Hub.NewMessageData um am) in
          if List.length (Storage.selectMessages d1 cid) =? 1 then
            ({| db := snd (Storage.updateConversation
                             (date env (7 + tick w)) d2 cid (userId req)
                             (titleUpdate
                                (Gateway.generateTitle
                                   (openai env (6 + tick w))
                                   (firstExchange s ai))));
                clients := clients w;
                wire := wire w ++ sent;
                calls := (calls w ++ [request]) ++ [Gateway.titleRequest s];
                tick := 8 + tick w |},
             Responded (delivered um am))
          else
            ({| db := d2; clients := clients w; wire := wire w ++ sent;
                calls := calls w ++ [request]; tick := 6 + tick w |},
             Responded (delivered um am))
    end.
Proof.
  intros Hc Hs Hne Hfresh cid um d1 request.
  rewrite (run_to_generating w req c s Hc Hs Hne Hfresh).
  fold cid um d1.
  turn step_Generating. cbv zeta. cbn [tick].
  assert (Hh : conversationHistory (Storage.selectMessages d1 cid) um
               = logOf (db w) cid)
    by exact (history_before w cid s Hfresh).
  rewrite Hh. fold request.
  unfold Gateway.generateResponse. fold request.
  destruct (Gateway.completionResult (Gateway.model request)
              (openai env (4 + tick w) request)) as [ai|e];
    cbn [fst snd].
  2:{ apply run_responded. }
  turn step_AddAiMessage.
  unfold Storage.addMessage.
  cbn [db elapse withCall tick Storage.i_conversationId].
  destruct (existsb _ (Storage.messages d1)) eqn:Edup; cbn [fst snd].
  { apply run_responded. }
  assert (Hfk : existsb (fun c' => String.eqb (Storage.c_id c') cid)
                        (Storage.conversations d1) = true)
    by exact (getConversation_exists _ _ _ _ Hc).
  rewrite Hfk. cbn [negb].
  destruct (List.length (Storage.selectMessages d1 cid) =? 1);
    cbn [fst snd].
  - turn step_GenerateTitle.
    unfold Gateway.titleCall, Gateway.firstUserMessage, firstExchange.
    cbn [find Gateway.role Gateway.Role_eqb Gateway.content].
    destruct s as [|s0 s']; [congruence|].
    cbn [JsString.truthy fst snd].
    turn step_UpdateTitle.
    unfold notifyAndRespond. cbn [fst snd].
    rewrite run_responded. reflexivity.
  - unfold notifyAndRespond. cbn [fst snd].
    rewrite run_responded. reflexivity.
Qed.

End RouteFacts.

(* ================================================================= *)
(** ** Submissions turned away *)

Section Rejections.
Import Js Routes.

Variable env : Env.

Lemma getConversation_none (d : Storage.Db) (cid uid : string) :
  (forall c, In c (Storage.conversations d) ->
             Storage.c_id c = cid -> Storage.c_userId c <> uid) ->
  Storage.getConversation d cid uid = None.
Proof.
  intros H. unfold Storage.getConversation.
  destruct (find _ (Storage.conversations d)) as [c|] eqn:E; [|reflexivity].
  apply find_some in E as [Hin Hb].
  apply andb_prop in Hb as [Hi Hu].
  apply String.eqb_eq in Hi, Hu. now elim (H c Hin Hi).
Qed.

Lemma submitMessage_notFound (w : World) (req : Request) :
  Storage.getConversation (db w) (conversationId req) (userId req) = None ->
  submitMessage env w req = (elapse w, Responded notFound).
Proof.
  intros H. unfold submitMessage.
  erewrite run_next; [apply run_responded | discriminate |].
  unfold step. cbn [elapse db]. now rewrite H.
Qed.

Lemma submitMessage_contentRequired (w : World) (req : Request)
      (c : Storage.Conversation) :
  Storage.getConversation (db w) (conversationId req) (userId req) = Some c ->
  (forall s, content req = Str s -> s = ""%string) ->
  submitMessage env w req = (elapse w, Responded contentRequired).
Proof.
  intros H Hbad. unfold submitMessage.
  erewrite run_next; [apply run_responded | discriminate |].
  unfold step. cbn [elapse db]. rewrite H.
  destruct (content req) as [| |b|n|s|] eqn:E; cbn;
    try reflexivity; try (now destruct b); try (now destruct n).
  rewrite (Hbad s eq_refl). reflexivity.
Qed.

Lemma receive_notFound (w : World) (uid text id : string)
      (content : Value) :
  Uuid.uuid_in text = Some id ->
  Storage.getConversation (db w) id uid = None ->
  Intake.receive w uid text content = (elapse w, Intake.Refused notFound).
Proof.
  intros Hid H. unfold Intake.receive, Intake.getConversation.
  rewrite Hid. cbn [elapse db]. now rewrite H.
Qed.

Lemma receive_contentRequired (w : World) (uid text id : string)
      (content : Value) (c : Storage.Conversation) :
  Uuid.uuid_in text = Some id ->
  Storage.getConversation (db w) id uid = Some c ->
  (forall s, content = Str s -> s = ""%string) ->
  Intake.receive w uid text content
  = (elapse w, Intake.Refused contentRequired).
Proof.
  intros Hid H Hbad. unfold Intake.receive, Intake.getConversation.
  rewrite Hid. cbn [elapse db]. rewrite H.
  destruct content as [| |b|n|s|]; cbn;
    try reflexivity; try (now destruct b); try (now destruct n).
  rewrite (Hbad s eq_refl). reflexivity.
Qed.

End Rejections.

(** On a text the database reads as the uuid [id], the first turn is
    the first turn of the machine on [id]. *)
Lemma receive_step (env : Routes.Env) (w : Routes.World)
      (uid text id : string) (content : Js.Value) :
  Uuid.uuid_in text = Some id ->
  Routes.step env w
    (Routes.Received {| Routes.userId := uid;
                        Routes.conversationId := id;
                        Routes.content := content |})
  = (fst (Intake.receive w uid text content),
     match snd (Intake.receive w uid text content) with
     | Intake.Refused res => Routes.Responded res
     | Intake.Accepted s => Routes.AddUserMessage uid id s
     end).
Proof.
  intros H. unfold Intake.receive, Intake.getConversation, Routes.step.
  rewrite H.
  cbn [Routes.userId Routes.conversationId Routes.content].
  destruct (Storage.getConversation _ id uid); [|reflexivity].
  destruct (negb (Js.truthy content) || negb (Js.isString content));
    [reflexivity|].
  destruct content; reflexivity.
Qed.

(** C7, as stated, fails: a text that is no uuid names no conversation
    of anybody, and the submission is answered 500, not 404. *)
Lemma malformed_id_is_not_404 : ~ missingIsNotFound.
Proof.
  intros H.
  specialize (H uuidWorld "u1"%string "not-a-uuid"%string (Js.Str "hello")).
  assert (Hno : forall c,
             In c (Storage.conversations (Routes.db uuidWorld)) ->
             Storage.c_userId c = "u1"%string ->
             Uuid.uuid_in "not-a-uuid" <> Some (Storage.c_id c))
    by (intros c _ _; discriminate).
  specialize (H Hno). vm_compute in H. discriminate.
Qed.

(** C7, amended. Rejection before persistence. Let the text naming the
    conversation be read as the uuid [id]. A submission to a conversation
    that no row of the table gives to the requesting owner (no such
    conversation, or one owned by somebody else) is answered 404, not
    403; a submission to a conversation of the owner whose content is not
    a non-empty string is answered 400; any other submission goes on to
    insert its content. A text that is no uuid makes the lookup throw,
    and the submission is answered 500. In each case of refusal the
    handler has answered on its first turn, and no message is inserted:
    the database, the registry, the frames sent and the provider calls
    are as before. *)
Theorem rejected_before_persistence (env : Routes.Env) (w : Routes.World)
        (uid text : string) (content : Js.Value) :
  (Uuid.uuid_in text = None ->
   Intake.getConversation (Routes.db w) text uid
     = Js.Rejected (Js.ErrorObject "invalid input syntax for type uuid")
   /\ Intake.receive w uid text content
      = (Routes.elapse w, Intake.Refused Routes.failedToSend))
  /\ (forall id,
         Uuid.uuid_in text = Some id ->
         let req := {| Routes.userId := uid;
                       Routes.conversationId := id;
                       Routes.content := content |} in
         ((forall c, In c (Storage.conversations (Routes.db w)) ->
                     Storage.c_id c = id -> Storage.c_userId c <> uid) ->
          Intake.receive w uid text content
            = (Routes.elapse w, Intake.Refused Routes.notFound)
          /\ Routes.submitMessage env w req
             = (Routes.elapse w, Routes.Responded Routes.notFound))
         /\ (Storage.getConversation (Routes.db w) id uid <> None ->
             (forall s, content = Js.Str s -> s = ""%string) ->
             Intake.receive w uid text content
               = (Routes.elapse w, Intake.Refused Routes.contentRequired)
             /\ Routes.submitMessage env w req
                = (Routes.elapse w,
                   Routes.Responded Routes.contentRequired))
         /\ (forall s,
                Storage.getConversation (Routes.db w) id uid <> None ->
                content = Js.Str s -> s <> ""%string ->
                Intake.receive w uid text content
                  = (Routes.elapse w, Intake.Accepted s)))
  /\ Routes.status Routes.notFound = 404
  /\ Routes.status Routes.contentRequired = 400
  /\ Routes.status Routes.failedToSend = 500
  /\ Routes.db (Routes.elapse w) = Routes.db w
  /\ Routes.clients (Routes.elapse w) = Routes.clients w
  /\ Routes.wire (Routes.elapse w) = Routes.wire w
  /\ Routes.calls (Routes.elapse w) = Routes.calls w.
Proof.
  split; [|split].
  - intros H. unfold Intake.receive, Intake.getConversation.
    rewrite H. split; reflexivity.
  - intros id Hid req. split; [|split].
    + intros Hno.
      pose proof (getConversation_none (Routes.db w) id uid Hno) as Enone.
      split.
      * now apply (receive_notFound w uid text id content).
      * now apply submitMessage_notFound.
    + intros Hc Hbad.
      destruct (Storage.getConversation (Routes.db w) id uid) as [c|] eqn:Ec;
        [|congruence].
      split.
      * now apply (receive_contentRequired w uid text id content c).
      * now apply (submitMessage_contentRequired env w req c).
    + intros s Hc -> Hne.
      unfold Intake.receive, Intake.getConversation. rewrite Hid.
      cbn [Routes.elapse Routes.db].
      destruct (Storage.getConversation (Routes.db w) id uid);
        [|congruence].
      destruct s; [congruence | reflexivity].
  - repeat split.
Qed.

(** The amended C7 in a world whose conversation has a uuid for its id:
    at that conversation named in upper case and in braces by another
    user, at an empty content, and at a text that is no uuid. *)
Lemma rejected_before_persistence_witness :
  let env := exampleEnv (constantProvider (Some "hi"%string)) in
  Uuid.uuid_in "{123E4567E89B-12D3-A456-426614174000}"
    = Some "123e4567-e89b-12d3-a456-426614174000"%string
  /\ Intake.receive uuidWorld "u2"
       "{123E4567E89B-12D3-A456-426614174000}" (Js.Str "hello")
     = (Routes.elapse uuidWorld, Intake.Refused Routes.notFound)
  /\ Intake.receive uuidWorld "u1"
       "{123E4567E89B-12D3-A456-426614174000}" (Js.Str "")
     = (Routes.elapse uuidWorld, Intake.Refused Routes.contentRequired)
  /\ Intake.receive uuidWorld "u1" "123e4567" (Js.Str "hello")
     = (Routes.elapse uuidWorld, Intake.Refused Routes.failedToSend).
Proof.
  intros env.
  pose proof (rejected_before_persistence env uuidWorld "u2"
                "{123E4567E89B-12D3-A456-426614174000}" (Js.Str "hello"))
    as (_ & Hother & _).
  pose proof (rejected_before_persistence env uuidWorld "u1"
                "{123E4567E89B-12D3-A456-426614174000}" (Js.Str ""))
    as (_ & Hempty & _).
  pose proof (rejected_before_persistence env uuidWorld "u1"
                "123e4567" (Js.Str "hello"))
    as (Hbad & _).
  split; [reflexivity|]. split; [|split].
  - refine (proj1 (proj1 (Hother _ eq_refl) _)).
    intros c [<-|[]] _. discriminate.
  - refine (proj1 (proj1 (proj2 (Hempty _ eq_refl)) _ _)).
    + discriminate.
    + intros s E. now injection E as <-.
  - exact (proj2 (Hbad eq_refl)).
Defined.

(* ================================================================= *)
(** ** The gateway *)

Section GatewayFacts.
Import Js Gateway.

(** Every failure of the provider call, and every response that cannot
    be read, leaves [generateResponse] through its [catch]. *)
Lemma generateResponse_failure (openai : Provider) (userMessage : string)
      (history : list ChatMessage) (e : Thrown) :
  (openai (completionRequest userMessage history) = Rejected e
   \/ exists r, openai (completionRequest userMessage history) = Resolved r
                /\ firstContent r = Rejected e) ->
  generateResponse openai userMessage history
    = Rejected (generationFailed e).
Proof.
  unfold generateResponse, completionResult.
  intros [-> | (r & -> & ->)]; reflexivity.
Qed.

(** An empty completion is a result like any other. *)
Lemma generateResponse_empty (openai : Provider) (userMessage : string)
      (history : list ChatMessage) (r : ChatCompletion) :
  openai (completionRequest userMessage history) = Resolved r ->
  (firstContent r = Resolved None
   \/ firstContent r = Resolved (Some ""%string)) ->
  generateResponse openai userMessage history
    = Resolved {| ai_content := "";
                  ai_model := model (completionRequest userMessage history);
                  ai_tokenCount := total_tokens r |}.
Proof.
  unfold generateResponse, completionResult.
  intros -> [-> | ->]; reflexivity.
Qed.


Lemma sliceLast_suffix {A : Type} (n : nat) (l : list A) :
  exists older, l = (older ++ sliceLast n l)%list
                /\ List.length (sliceLast n l) = Nat.min n (List.length l).
Proof.
  unfold sliceLast. exists (firstn (List.length l - n) l). split.
  - symmetry. apply firstn_skipn.
  - rewrite length_skipn. lia.
Qed.


Lemma nth_error_snoc {A : Type} (l r : list A) (a : A) :
  nth_error (l ++ a :: r) (List.length l) = Some a.
Proof.
  rewrite nth_error_app2 by lia. now rewrite Nat.sub_diag.
Qed.

End GatewayFacts.

(* ================================================================= *)
(** ** Submissions that reach the provider *)

(** C5. Failed generation. When the gateway raises its error for a
    submission (the conversation is the owner's, the content a non-empty
    string, the user's row inserted), the handler answers 500 "Failed to
    send message", which no successful answer equals; the database is the
    one before with the user's row appended and nothing else, so the user
    message stays and no assistant message is written. *)
Theorem generation_failure_keeps_user_message
        (env : Routes.Env) (w : Routes.World) (req : Routes.Request)
        (c : Storage.Conversation) (s : string) (e : Js.Thrown) :
  Storage.getConversation (Routes.db w) (Routes.conversationId req)
                          (Routes.userId req) = Some c ->
  Routes.content req = Js.Str s -> s <> ""%string ->
  unusedId (Routes.db w) (Routes.randomUUID env (1 + Routes.tick w)) ->
  Gateway.generateResponse (Routes.openai env (4 + Routes.tick w)) s
    (logOf (Routes.db w) (Routes.conversationId req)) = Js.Rejected e ->
  let um := userRow env w (Routes.conversationId req) s in
  exists w',
    Routes.submitMessage env w req
      = (w', Routes.Responded Routes.failedToSend)
    /\ Routes.db w' = appended (Routes.db w) um
    /\ Storage.role um = Gateway.user
    /\ Storage.content um = s
    /\ Routes.wire w' = Routes.wire w
    /\ Routes.status Routes.failedToSend = 500
    /\ forall userMessage aiMessage,
         Routes.failedToSend <> delivered userMessage aiMessage.
Proof.
  intros Hc Hs Hne Hfresh Hgen um.
  rewrite (submitMessage_valid env w req c s Hc Hs Hne Hfresh), Hgen.
  eexists. split; [reflexivity|].
  repeat split. intros ? ?. discriminate.
Qed.

(** The failed-generation theorem with a provider that rejects. *)
Lemma generation_failure_keeps_user_message_witness :
  let env := exampleEnv (fun _ => Js.Rejected (Js.ErrorObject "timeout")) in
  exists w',
    Routes.submitMessage env exampleWorld (exampleRequest "hello")
      = (w', Routes.Responded Routes.failedToSend)
    /\ Routes.db w'
       = appended (Routes.db exampleWorld)
                  (userRow env exampleWorld "c1" "hello").
Proof.
  intros env.
  destruct (generation_failure_keeps_user_message env exampleWorld
              (exampleRequest "hello")
              {| Storage.c_id := "c1"; Storage.c_userId := "u1";
                 Storage.title := "New Conversation";
                 Storage.c_model := "gpt-4o";
                 Storage.c_createdAt := 0; Storage.updatedAt := 0 |}
              "hello"%string
              (Gateway.generationFailed (Js.ErrorObject "timeout"))
              eq_refl eq_refl)
    as (w' & E & Hdb & _);
    [discriminate | reflexivity | reflexivity |].
  exists w'. split; [exact E | exact Hdb].
Defined.

(** C1, as stated, fails: with a provider that answers with an empty
    completion, the submission is delivered and an assistant row with
    empty content is inserted. *)
Lemma empty_completion_is_persisted : ~ emptyCompletionFails.
Proof.
  intros H.
  destruct (H (exampleEnv (constantProvider (Some ""%string)))
              exampleWorld (exampleRequest "hello") _
              (fun _ _ => eq_refl) eq_refl) as [Hres _].
  vm_compute in Hres. discriminate.
Qed.

(** C1, amended. When the provider call is rejected or its response
    cannot be read, [generateResponse] raises its error, the handler
    answers 500 and the database gains the user's row only. An empty
    completion is not a failure: [generateResponse] resolves with the
    content [""], and once its row is inserted the submission is
    delivered with an assistant message of empty content. *)
Theorem completion_failure_handling
        (env : Routes.Env) (w : Routes.World) (req : Routes.Request)
        (c : Storage.Conversation) (s : string) :
  Storage.getConversation (Routes.db w) (Routes.conversationId req)
                          (Routes.userId req) = Some c ->
  Routes.content req = Js.Str s -> s <> ""%string ->
  unusedId (Routes.db w) (Routes.randomUUID env (1 + Routes.tick w)) ->
  let cid := Routes.conversationId req in
  let um := userRow env w cid s in
  let request := Gateway.completionRequest s (logOf (Routes.db w) cid) in
  let settled := Routes.openai env (4 + Routes.tick w) request in
  (forall e,
      (settled = Js.Rejected e
       \/ exists r, settled = Js.Resolved r
                    /\ Gateway.firstContent r = Js.Rejected e) ->
      Gateway.generateResponse (Routes.openai env (4 + Routes.tick w)) s
        (logOf (Routes.db w) cid)
        = Js.Rejected (Gateway.generationFailed e)
      /\ exists w',
           Routes.submitMessage env w req
             = (w', Routes.Responded Routes.failedToSend)
           /\ Routes.db w' = appended (Routes.db w) um)
  /\ (forall r,
         settled = Js.Resolved r ->
         (Gateway.firstContent r = Js.Resolved None
          \/ Gateway.firstContent r = Js.Resolved (Some ""%string)) ->
         unusedId (appended (Routes.db w) um)
                  (Routes.randomUUID env (5 + Routes.tick w)) ->
         exists w' am,
           Routes.submitMessage env w req
             = (w', Routes.Responded (delivered um am))
           /\ Storage.role am = Gateway.assistant
           /\ Storage.content am = ""%string
           /\ In am (Storage.messages (Routes.db w'))).
Proof.
  intros Hc Hs Hne Hfresh cid um request settled. split.
  - intros e He.
    pose proof (generateResponse_failure _ s _ e He) as Hgen.
    split; [exact Hgen|].
    rewrite (submitMessage_valid env w req c s Hc Hs Hne Hfresh).
    fold cid. rewrite Hgen.
    eexists. split; reflexivity.
  - intros r Hr Hempty Hfresh2.
    pose proof (generateResponse_empty _ s _ r Hr Hempty) as Hgen.
    rewrite (submitMessage_valid env w req c s Hc Hs Hne Hfresh).
    fold cid. rewrite Hgen. fold um.
    unfold unusedId in Hfresh2. rewrite Hfresh2.
    destruct (List.length _ =? 1);
      eexists _, _; (split; [reflexivity|]);
      (split; [reflexivity|]); (split; [reflexivity|]); cbn.
    + apply in_or_app. right. now left.
    + apply in_or_app. right. now left.
Qed.

(** The amended C1 with a provider that rejects. *)
Lemma completion_failure_handling_witness :
  let env := exampleEnv (fun _ => Js.Rejected (Js.ErrorObject "timeout")) in
  Gateway.generateResponse (Routes.openai env 4) "hello" []
    = Js.Rejected (Js.ErrorObject "Failed to generate AI response: timeout")
  /\ exists w',
       Routes.submitMessage env exampleWorld (exampleRequest "hello")
         = (w', Routes.Responded Routes.failedToSend)
       /\ Routes.db w'
          = appended (Routes.db exampleWorld)
                     (userRow env exampleWorld "c1" "hello").
Proof.
  intros env.
  exact (proj1 (completion_failure_handling env exampleWorld
                  (exampleRequest "hello")
                  {| Storage.c_id := "c1"; Storage.c_userId := "u1";
                     Storage.title := "New Conversation";
                     Storage.c_model := "gpt-4o";
                     Storage.c_createdAt := 0; Storage.updatedAt := 0 |}
                  "hello"%string eq_refl eq_refl
                  (fun H => match H with eq_refl => I end)
                  eq_refl)
               (Js.ErrorObject "timeout") (or_introl eq_refl)).
Defined.

Section HistoryFacts.
Import Js Routes.


(** The call made first by a submission whose user message is inserted
    is the completion request built from the log as it was before. *)
Lemma completion_call (env : Env) (w : World) (req : Request)
      (c : Storage.Conversation) (s : string) :
  Storage.getConversation (db w) (conversationId req) (userId req) = Some c ->
  content req = Str s -> s <> ""%string ->
  unusedId (db w) (randomUUID env (1 + tick w)) ->
  nth_error (calls (fst (submitMessage env w req))) (List.length (calls w))
    = Some (Gateway.completionRequest s (logOf (db w) (conversationId req))).
Proof.
  intros Hc Hs Hne Hfresh.
  rewrite (submitMessage_valid env w req c s Hc Hs Hne Hfresh).
  destruct (Gateway.generateResponse _ s _) as [ai|e];
    [|apply nth_error_snoc].
  destruct (existsb _ _); [apply nth_error_snoc|].
  destruct (List.length _ =? 1); cbn [fst calls].
  - rewrite <- app_assoc. apply nth_error_snoc.
  - apply nth_error_snoc.
Qed.

Lemma titleRequest_not_completion (s s' : string)
      (h : list Gateway.ChatMessage) :
  Gateway.titleRequest s <> Gateway.completionRequest s' h.
Proof.
  intros E. apply (f_equal Gateway.temperature) in E. discriminate.
Qed.

End HistoryFacts.

(** In that conversation the provider is given the ten newest messages,
    "tC" to "tL", oldest first, then the current turn. *)
Example busy_history :
  map Gateway.content
      (Gateway.messages
         (Gateway.completionRequest "hello"
            (logOf (Routes.db busyWorld) "c1")))
  = ["tC"; "tD"; "tE"; "tF"; "tG"; "tH"; "tI"; "tJ"; "tK"; "tL";
     "hello"]%string.
Proof. vm_compute. reflexivity. Qed.




(** With a provider that rejects the title call, the same submission is
    delivered all the same, the title request is made, and the
    conversation is given the fallback title. *)
Example title_failure_is_swallowed :
  let env :=
    {| Routes.openai :=
         fun n => if n =? 6
                  then fun _ => Js.Rejected (Js.ErrorObject "overloaded")
                  else constantProvider (Some "hi"%string);
       Routes.randomUUID :=
         Routes.randomUUID (exampleEnv (constantProvider None));
       Routes.date := fun n => n |} in
  let done := Routes.submitMessage env exampleWorld (exampleRequest "hello") in
  (exists um am, snd done = Routes.Responded (delivered um am))
  /\ map Gateway.temperature (Routes.calls (fst done))
     = ["0.7"; "0.3"]%string
  /\ option_map Storage.title
       (Storage.getConversation (Routes.db (fst done)) "c1" "u1")
     = Some "New Conversation"%string.
Proof.
  cbv zeta. split; [|split]; [|vm_compute; reflexivity..].
  eexists _, _. vm_compute. reflexivity.
Qed.

(* ================================================================= *)
(** ** Two submissions to one conversation *)

Section TwoSubmissions.
Import Js Routes.

Variable env : Env.



End TwoSubmissions.


(** On that schedule both submissions are delivered, and the calls to
    the provider settle in this order: for the first answer, for the
    title, and for the second answer, asked with a history that holds
    the first user message but not the first answer. The log ends with
    the two answers after the two questions. *)
Example racing_submissions :
  let env := exampleEnv (constantProvider (Some "hi"%string)) in
  let final :=
    Routes.interleave env racingSchedule exampleWorld
      [Routes.Received (exampleRequest "first");
       Routes.Received (exampleRequest "second")] in
  map (fun t => match t with
                | Routes.Responded r => Routes.status r
                | _ => 0
                end) (snd final) = [200; 200]
  /\ nth_error (map (fun r => map Gateway.content (Gateway.messages r))
                    (Routes.calls (fst final))) 2
     = Some ["first"; "second"]%string
  /\ map Storage.content
         (Storage.selectMessages (Routes.db (fst final)) "c1")
     = ["first"; "second"; "hi"; "hi"]%string.
Proof. vm_compute. repeat split. Qed.



(* ================================================================= *)
(** ** The registry of the hub *)

Section RegistryFacts.
Import Hub.

Lemma get_set_same (clients : Clients) (k : string) (c : Client) :
  get (set clients k c) k = Some c.
Proof.
  induction clients as [|[k' c'] r IH]; cbn [set get].
  - now rewrite String.eqb_refl.
  - destruct (String.eqb k' k) eqn:E; cbn [get]; rewrite E;
      [reflexivity | exact IH].
Qed.

Lemma get_set_other (clients : Clients) (k k' : string) (c : Client) :
  k' <> k -> get (set clients k c) k' = get clients k'.
Proof.
  intros Hk. induction clients as [|[x c'] r IH]; cbn [set get].
  - destruct (String.eqb k k') eqn:E; [|reflexivity].
    apply String.eqb_eq in E. congruence.
  - destruct (String.eqb x k) eqn:E; cbn [get].
    + apply String.eqb_eq in E. subst x.
      destruct (String.eqb k k') eqn:E'; [|reflexivity].
      apply String.eqb_eq in E'. congruence.
    + now rewrite IH.
Qed.

Lemma set_keys (clients : Clients) (k : string) (c c0 : Client) :
  get clients k = Some c0 ->
  map fst (set clients k c) = map fst clients.
Proof.
  induction clients as [|[x c'] r IH]; cbn [set get map fst].
  - discriminate.
  - destruct (String.eqb x k) eqn:E; cbn [map fst]; [reflexivity|].
    intros H. now rewrite IH.
Qed.

Lemma set_in (clients : Clients) (k : string) (c c0 : Client) :
  get clients k = Some c0 -> In (k, c) (set clients k c).
Proof.
  induction clients as [|[x c'] r IH]; cbn [set get].
  - discriminate.
  - destruct (String.eqb x k) eqn:E.
    + apply String.eqb_eq in E. subst x. intros _. now left.
    + intros H. right. now apply IH.
Qed.

Lemma get_delete_same (clients : Clients) (k : string) :
  get (delete clients k) k = None.
Proof.
  unfold delete. induction clients as [|[x c] r IH]; cbn [filter get fst].
  - reflexivity.
  - destruct (String.eqb x k) eqn:E; cbn [negb get]; [exact IH|].
    now rewrite E.
Qed.

Lemma get_delete_other (clients : Clients) (k k' : string) :
  k' <> k -> get (delete clients k) k' = get clients k'.
Proof.
  intros Hk. unfold delete.
  induction clients as [|[x c] r IH]; cbn [filter get fst].
  - reflexivity.
  - destruct (String.eqb x k) eqn:E; cbn [negb get].
    + apply String.eqb_eq in E. subst x.
      destruct (String.eqb k k') eqn:E'; [|exact IH].
      apply String.eqb_eq in E'. congruence.
    + now rewrite IH.
Qed.

Lemma get_in (clients : Clients) (k : string) (c : Client) :
  get clients k = Some c -> In (k, c) clients.
Proof.
  induction clients as [|[x c'] r IH]; cbn [get]; [discriminate|].
  destruct (String.eqb x k) eqn:E.
  - apply String.eqb_eq in E. subst x. intros H. injection H as <-. now left.
  - intros H. right. now apply IH.
Qed.

Lemma in_get_unique (clients : Clients) (k : string) (c : Client) :
  NoDup (map fst clients) -> In (k, c) clients -> get clients k = Some c.
Proof.
  induction clients as [|[x c'] r IH]; cbn [map fst get]; [intros _ []|].
  intros Hnd [E|Hin]; inversion Hnd as [|? ? Hx Hr]; subst.
  - injection E as -> ->. now rewrite String.eqb_refl.
  - destruct (String.eqb x k) eqn:E.
    + apply String.eqb_eq in E. subst x. exfalso. apply Hx.
      change k with (fst (k, c)). now apply in_map.
    + now apply IH.
Qed.

End RegistryFacts.

(** X1. Registering a connection. After [handleConnection] the client
    id is registered with that socket, no user and no conversation; every
    other id is registered as before; and the one frame sent is the
    [connection] confirmation to the new client, on an open socket, or
    nothing at all when the socket is not open. *)
Theorem register_then_lookup (clients : Hub.Clients) (k : string)
        (sock : Hub.WebSocket) :
  let clients' := fst (Hub.handleConnection clients k sock) in
  let sent := snd (Hub.handleConnection clients k sock) in
  Hub.get clients' k
    = Some {| Hub.ws := sock; Hub.c_userId := ""%string;
              Hub.c_conversationId := None |}
  /\ (forall k', k' <> k -> Hub.get clients' k' = Hub.get clients k')
  /\ sent
     = if Hub.isOpen (Hub.readyState sock)
       then [ {| Hub.to := k; Hub.socket := sock;
                 Hub.frame :=
                   {| Hub.type := Hub.connection;
                      Hub.conversationId := None;
                      Hub.userId := None;
                      Hub.data := Hub.ConnectionData
                                    k "Connected to Learning VI" |} |} ]
       else [].
Proof.
  cbn [Hub.handleConnection fst snd]. split; [|split].
  - apply get_set_same.
  - intros k' Hk. now apply get_set_other.
  - unfold Hub.sendToClient. rewrite get_set_same. reflexivity.
Qed.

(** X2. Unregistering. After the [close] or [error] listener ran for a
    client id, the id is not registered, every other id is registered as
    before, and no later send or broadcast reaches it. *)
Theorem unregister_forgets (clients : Hub.Clients) (k : string) :
  let clients' := Hub.onClose clients k in
  Hub.get clients' k = None
  /\ (forall k', k' <> k -> Hub.get clients' k' = Hub.get clients k')
  /\ (forall message, Hub.sendToClient clients' k message = [])
  /\ (forall conversationId message exclude d,
         In d (Hub.broadcastToConversation clients' conversationId
                 message exclude) ->
         Hub.to d <> k).
Proof.
  cbn zeta. unfold Hub.onClose. split; [|split; [|split]].
  - apply get_delete_same.
  - intros k' Hk. now apply get_delete_other.
  - intros message. unfold Hub.sendToClient. now rewrite get_delete_same.
  - intros cid message exclude d Hd.
    apply broadcast_in in Hd as (k' & c & Hin & -> & _).
    unfold Hub.delete in Hin. apply filter_In in Hin as [_ Hne].
    cbn [fst Hub.to] in *. intros ->.
    now rewrite String.eqb_refl in Hne.
Qed.

(** The unregistering theorem after a registration. *)
Lemma unregister_forgets_witness :
  let sock := {| Hub.socketId := 1; Hub.readyState := Hub.OPEN |} in
  let clients := fst (Hub.handleConnection [] "a" sock) in
  Hub.get (Hub.onClose clients "a") "a" = None.
Proof.
  intros sock clients.
  exact (proj1 (unregister_forgets clients "a"%string)).
Defined.

(** X3. Where frames go. Every frame a broadcast sends carries the
    message unchanged and goes to a registered client that watches the
    conversation on an open socket and is not the excluded one; a send to
    one client reaches that client's open socket only, and sends nothing
    when the client is unknown or its socket is not open. No more frames
    are sent than there are clients. *)
Theorem frames_reach_open_watchers_only
        (clients : Hub.Clients) (conversationId : string)
        (message : Hub.WebSocketMessage) (exclude : option string) :
  (forall d,
      In d (Hub.broadcastToConversation clients conversationId message
              exclude) ->
      Hub.frame d = message
      /\ Hub.readyState (Hub.socket d) = Hub.OPEN
      /\ exclude <> Some (Hub.to d)
      /\ exists c, In (Hub.to d, c) clients
                   /\ Hub.socket d = Hub.ws c
                   /\ Hub.c_conversationId c = Some conversationId)
  /\ List.length (Hub.broadcastToConversation clients conversationId
                    message exclude) <= List.length clients
  /\ (forall k d,
         In d (Hub.sendToClient clients k message) ->
         Hub.to d = k /\ Hub.frame d = message
         /\ Hub.readyState (Hub.socket d) = Hub.OPEN
         /\ exists c, Hub.get clients k = Some c /\ Hub.socket d = Hub.ws c)
  /\ (forall k,
         (Hub.get clients k = None
          \/ exists c, Hub.get clients k = Some c
                       /\ Hub.readyState (Hub.ws c) <> Hub.OPEN) ->
         Hub.sendToClient clients k message = []).
Proof.
  split; [|split; [|split]].
  - intros d Hd.
    apply broadcast_in in Hd as (k & c & Hin & -> & Hw & Hx & Ho).
    cbn [Hub.frame Hub.socket Hub.to]. repeat split; auto.
    + intros ->. cbn in Hx. now rewrite String.eqb_refl in Hx.
    + exists c. repeat split; auto. now apply watches_iff.
  - induction clients as [|[k c] r IH]; cbn [Hub.broadcastToConversation];
      [apply le_n|].
    destruct (_ && _ && _); cbn [List.length]; lia.
  - intros k d. unfold Hub.sendToClient.
    destruct (Hub.get clients k) as [c|] eqn:E; [|intros []].
    destruct (Hub.readyState (Hub.ws c)) eqn:Eo; cbn [Hub.isOpen];
      intros Hin; try contradiction.
    destruct Hin as [<-|[]]. cbn. repeat split; auto. now exists c.
  - intros k [E | (c & E & Hc)]; unfold Hub.sendToClient; rewrite E;
      [reflexivity|].
    destruct (Hub.readyState (Hub.ws c)); cbn [Hub.isOpen];
      try reflexivity. now elim Hc.
Qed.

(** The theorem on a registry with one open watcher of "C" and one
    closing. *)
Lemma frames_reach_open_watchers_only_witness :
  let a := {| Hub.ws := {| Hub.socketId := 1; Hub.readyState := Hub.OPEN |};
              Hub.c_userId := "ann"%string;
              Hub.c_conversationId := Some "C"%string |} in
  let b := {| Hub.ws := {| Hub.socketId := 2;
                           Hub.readyState := Hub.CLOSING |};
              Hub.c_userId := "bob"%string;
              Hub.c_conversationId := Some "C"%string |} in
  let clients := [("a"%string, a); ("b"%string, b)] in
  let d := {| Hub.to := "a"%string; Hub.socket := Hub.ws a;
              Hub.frame := Hub.invalidFormat |} in
  Hub.readyState (Hub.socket d) = Hub.OPEN
  /\ Hub.sendToClient clients "b" Hub.invalidFormat = [].
Proof.
  intros a b clients d.
  destruct (frames_reach_open_watchers_only clients "C" Hub.invalidFormat
              None) as (Hb & _ & _ & Hs).
  split.
  - exact (proj1 (proj2 (Hb d (or_introl eq_refl)))).
  - apply Hs. right. exists b. split; [reflexivity | discriminate].
Defined.

(** X4. What an inbound frame can change. Whatever a client sends, the
    listener neither adds nor removes a registration, leaves every other
    client's entry as it was, and keeps the sender's socket. *)
Theorem inbound_frame_keeps_registry (clients : Hub.Clients) (k : string)
        (p : Hub.Parsed) :
  let clients' := fst (Hub.onMessage clients k p) in
  map fst clients' = map fst clients
  /\ (forall k', k' <> k -> Hub.get clients' k' = Hub.get clients k')
  /\ option_map Hub.ws (Hub.get clients' k)
     = option_map Hub.ws (Hub.get clients k).
Proof.
  cbn zeta. unfold Hub.onMessage.
  assert (Hsame : forall m,
    let r := match Hub.handleMessage clients k m with
             | Js.Resolved r => r
             | Js.Rejected _ =>
                 (clients, Hub.sendToClient clients k Hub.invalidFormat)
             end in
    map fst (fst r) = map fst clients
    /\ (forall k', k' <> k -> Hub.get (fst r) k' = Hub.get clients k')
    /\ option_map Hub.ws (Hub.get (fst r) k)
       = option_map Hub.ws (Hub.get clients k)).
  { intros m. unfold Hub.handleMessage.
    destruct (Hub.get clients k) as [c|] eqn:E; [|cbn [fst]; rewrite ?E; repeat split].
    destruct m as [m|]; [|cbn [fst]; rewrite ?E; repeat split].
    destruct (match Hub.in_type m with
              | Some t => String.eqb t "typing"
              | None => false
              end); [|cbn [fst]; rewrite ?E; repeat split].
    destruct (Hub.in_userId m) as [u|]; [|cbn [fst]; rewrite ?E; repeat split].
    destruct (Hub.in_conversationId m) as [cv|]; [|cbn [fst]; rewrite ?E; repeat split].
    destruct (JsString.truthy u && JsString.truthy cv);
      [|cbn [fst]; rewrite ?E; repeat split].
    cbn [fst]. split; [|split].
    - now apply (set_keys clients k _ c).
    - intros k' Hk. now apply get_set_other.
    - rewrite get_set_same. reflexivity. }
  destruct p as [| |f].
  - cbn [fst]. repeat split.
  - exact (Hsame None).
  - exact (Hsame (Some f)).
Qed.

(** X5. Watching follows the last typing frame. After a typing frame of
    a registered client, with a user and a conversation [D], the client is
    registered for that user and [D]; a message broadcast for [D] reaches
    it when its socket is open, and, client ids being distinct, a
    broadcast for any other conversation does not. *)
Theorem typing_frame_moves_watcher (clients : Hub.Clients) (k : string)
        (c : Hub.Client) (f : Hub.InboundFrame) (u D : string) :
  Hub.get clients k = Some c ->
  Hub.in_type f = Some "typing"%string ->
  Hub.in_userId f = Some u -> u <> ""%string ->
  Hub.in_conversationId f = Some D -> D <> ""%string ->
  let clients' := fst (Hub.onMessage clients k (Hub.ParsedValue f)) in
  let entry := {| Hub.ws := Hub.ws c; Hub.c_userId := u;
                  Hub.c_conversationId := Some D |} in
  Hub.get clients' k = Some entry
  /\ (Hub.readyState (Hub.ws c) = Hub.OPEN ->
      forall payload,
        In {| Hub.to := k; Hub.socket := Hub.ws c;
              Hub.frame := messageFrame D payload |}
           (Hub.notifyNewMessage clients' D payload))
  /\ (NoDup (map fst clients) ->
      forall C payload d,
        C <> D ->
        In d (Hub.notifyNewMessage clients' C payload) -> Hub.to d <> k).
Proof.
  intros Hget Ht Hu Hune Hd HDne clients' entry.
  assert (E : clients' = Hub.set clients k entry).
  { unfold clients', Hub.onMessage, Hub.handleMessage.
    rewrite Hget, Ht, Hu, Hd. cbn [String.eqb Ascii.eqb Bool.eqb].
    destruct u; [congruence|]. destruct D; [congruence|]. reflexivity. }
  rewrite E. split; [apply get_set_same|]. split.
  - intros Ho payload. unfold Hub.notifyNewMessage. apply broadcast_in.
    exists k, entry. repeat split; auto.
    + now apply (set_in clients k entry c).
    + apply watches_iff. reflexivity.
  - intros Hnd C payload d HC Hin. unfold Hub.notifyNewMessage in Hin.
    apply broadcast_in in Hin as (k' & c' & Hin & -> & Hw & _).
    cbn [Hub.to]. intros ->.
    assert (Hnd' : NoDup (map fst (Hub.set clients k entry)))
      by now rewrite (set_keys clients k entry c Hget).
    pose proof (in_get_unique _ _ _ Hnd' Hin) as Hg.
    rewrite get_set_same in Hg. injection Hg as <-.
    apply watches_iff in Hw. cbn in Hw. congruence.
Qed.

(** The theorem for a client that moves from "C" to "D". *)
Lemma typing_frame_moves_watcher_witness :
  let sock := {| Hub.socketId := 1; Hub.readyState := Hub.OPEN |} in
  let c := {| Hub.ws := sock; Hub.c_userId := "ann"%string;
              Hub.c_conversationId := Some "C"%string |} in
  let f := {| Hub.in_type := Some "typing"%string;
              Hub.in_conversationId := Some "D"%string;
              Hub.in_userId := Some "ann"%string;
              Hub.in_data := None |} in
  let clients' := fst (Hub.onMessage [("a"%string, c)] "a"
                         (Hub.ParsedValue f)) in
  Hub.get clients' "a"
    = Some {| Hub.ws := sock; Hub.c_userId := "ann"%string;
              Hub.c_conversationId := Some "D"%string |}
  /\ forall payload d,
       In d (Hub.notifyNewMessage clients' "C" payload) ->
       Hub.to d <> "a"%string.
Proof.
  intros sock c f clients'.
  destruct (typing_frame_moves_watcher [("a"%string, c)] "a"%string c f
              "ann"%string "D"%string eq_refl eq_refl eq_refl)
    as (Hg & _ & Hno); [discriminate | reflexivity | discriminate |].
  split; [exact Hg|].
  intros payload d. apply Hno.
  - repeat constructor. intros [].
  - discriminate.
Defined.

(* ================================================================= *)
(** ** The tables *)

Section TableFacts.
Import Storage.

Lemma insertByCreatedAt_perm (x : Message) (l : list Message) :
  Permutation (insertByCreatedAt x l) (x :: l).
Proof.
  induction l as [|y r IH]; cbn [insertByCreatedAt]; [reflexivity|].
  destruct (createdAt x <=? createdAt y); [reflexivity|].
  rewrite IH. apply perm_swap.
Qed.

Lemma orderByCreatedAt_perm (l : list Message) :
  Permutation (orderByCreatedAt l) l.
Proof.
  induction l as [|x r IH]; cbn [orderByCreatedAt]; [reflexivity|].
  rewrite insertByCreatedAt_perm. now constructor.
Qed.


Lemma find_none_filter {A : Type} (hit : A -> bool) (l : list A) :
  find hit l = None ->
  filter hit l = [] /\ filter (fun c => negb (hit c)) l = l.
Proof.
  induction l as [|x r IH]; cbn [find filter]; [now split|].
  destruct (hit x); [discriminate|]. intros H.
  destruct (IH H) as [-> ->]. now split.
Qed.

Lemma find_some_filter {A : Type} (hit : A -> bool) (l : list A) (c : A) :
  find hit l = Some c -> filter hit l <> [].
Proof.
  induction l as [|x r IH]; cbn [find filter]; [discriminate|].
  destruct (hit x); [discriminate | exact IH].
Qed.

Lemma distinct_ids_filter (keep : Message -> bool) (rows : list Message) :
  NoDup (map id rows) -> NoDup (map id (filter keep rows)).
Proof.
  induction rows as [|x r IH]; cbn [map filter]; [auto|].
  intros H. inversion H as [|? ? Hx Hr]; subst.
  destruct (keep x); cbn [map]; [|now apply IH].
  constructor; [|now apply IH].
  intros Hin. apply Hx. apply in_map_iff in Hin as (y & E & Hy).
  apply filter_In in Hy as [Hy _]. rewrite <- E. now apply in_map.
Qed.

Lemma db_eta (d : Db) :
  {| conversations := conversations d; messages := messages d |} = d.
Proof. now destruct d. Qed.

Lemma insertByUpdatedAtDesc_In (x c : Conversation) (l : list Conversation) :
  In c (Conversations.insertByUpdatedAtDesc x l) <-> c = x \/ In c l.
Proof.
  induction l as [|y r IH]; cbn [Conversations.insertByUpdatedAtDesc In].
  - intuition congruence.
  - destruct (updatedAt y <=? updatedAt x); cbn [In].
    + intuition congruence.
    + rewrite IH. intuition congruence.
Qed.

Lemma insertByUpdatedAtDesc_sorted (x : Conversation)
      (l : list Conversation) :
  StronglySorted byUpdatedAtDesc l ->
  StronglySorted byUpdatedAtDesc (Conversations.insertByUpdatedAtDesc x l).
Proof.
  induction l as [|y r IH]; cbn [Conversations.insertByUpdatedAtDesc];
    intros Hs.
  - repeat constructor.
  - inversion Hs as [|? ? Hr Hy]; subst.
    destruct (updatedAt y <=? updatedAt x) eqn:E.
    + apply Nat.leb_le in E. constructor; [exact Hs|].
      constructor; [exact E|].
      rewrite Forall_forall in Hy |- *. intros z Hz.
      unfold byUpdatedAtDesc in *. specialize (Hy z Hz). lia.
    + apply Nat.leb_gt in E. constructor; [now apply IH|].
      rewrite Forall_forall in Hy |- *. intros z Hz.
      apply insertByUpdatedAtDesc_In in Hz. destruct Hz as [->|Hz].
      * unfold byUpdatedAtDesc. lia.
      * now apply Hy.
Qed.

Lemma insertByUpdatedAtDesc_perm (x : Conversation) (l : list Conversation) :
  Permutation (Conversations.insertByUpdatedAtDesc x l) (x :: l).
Proof.
  induction l as [|y r IH]; cbn [Conversations.insertByUpdatedAtDesc];
    [reflexivity|].
  destruct (updatedAt y <=? updatedAt x); [reflexivity|].
  rewrite IH. apply perm_swap.
Qed.

Lemma filter_filter_nil {A : Type} (p q : A -> bool) (l : list A) :
  (forall x, In x l -> p x = true -> q x = false) ->
  filter p (filter q l) = [].
Proof.
  induction l as [|x r IH]; cbn [filter]; intros H; [reflexivity|].
  assert (IH' : filter p (filter q r) = [])
    by (apply IH; intros y Hy; apply H; now right).
  destruct (q x) eqn:Eq; [|exact IH'].
  cbn [filter]. destruct (p x) eqn:Ep; [|exact IH'].
  rewrite (H x (or_introl eq_refl) Ep) in Eq. discriminate.
Qed.

Lemma filter_filter_same {A : Type} (p q : A -> bool) (l : list A) :
  (forall x, In x l -> p x = true -> q x = true) ->
  filter p (filter q l) = filter p l.
Proof.
  induction l as [|x r IH]; cbn [filter]; intros H; [reflexivity|].
  assert (IH' : filter p (filter q r) = filter p r)
    by (apply IH; intros y Hy; apply H; now right).
  destruct (p x) eqn:Ep.
  - rewrite (H x (or_introl eq_refl) Ep). cbn [filter].
    now rewrite Ep, IH'.
  - destruct (q x); cbn [filter]; [rewrite Ep|]; exact IH'.
Qed.

Lemma deleteConversation_eq (d : Db) (cid uid : string) :
  Conversations.deleteConversation d cid uid =
    (0 <? List.length (filter (ownedBy cid uid) (conversations d)),
     {| conversations :=
          filter (fun c => negb (ownedBy cid uid c)) (conversations d);
        messages :=
          filter (fun m => negb (existsb
                             (fun c => String.eqb (c_id c) (conversationId m))
                             (filter (ownedBy cid uid) (conversations d))))
                 (messages d) |}).
Proof. reflexivity. Qed.

End TableFacts.

(** X6. The log of a conversation. The log read for a conversation holds
    exactly the rows of that conversation, each once (it is a permutation
    of them), ordered by creation time, oldest first. *)
Theorem log_is_sorted_permutation (d : Storage.Db) (cid : string) :
  StronglySorted byCreatedAt (Storage.selectMessages d cid)
  /\ Permutation (Storage.selectMessages d cid)
       (filter (fun m => String.eqb (Storage.conversationId m) cid)
               (Storage.messages d))
  /\ (forall m, In m (Storage.selectMessages d cid)
                <-> In m (Storage.messages d)
                    /\ Storage.conversationId m = cid).
Proof.
  unfold Storage.selectMessages. split; [|split].
  - apply orderByCreatedAt_sorted.
  - apply orderByCreatedAt_perm.
  - intros m. rewrite orderByCreatedAt_In, filter_In, String.eqb_eq.
    reflexivity.
Qed.

(** X7. Round trip. A message that was added is read back by the owner
    with the role, content, model and token count it was given; the log
    of its conversation is the log before plus that row, and the log of
    every other conversation is as before. *)
Theorem message_round_trip (d d' : Storage.Db) (newId uid : string)
        (now : nat) (im : Storage.InsertMessage) (m : Storage.Message)
        (c : Storage.Conversation) :
  Storage.addMessage newId now d im = Js.Resolved (m, d') ->
  Storage.getConversation d (Storage.i_conversationId im) uid = Some c ->
  Storage.role m = Storage.i_role im
  /\ Storage.content m = Storage.i_content im
  /\ Storage.model m = Storage.i_model im
  /\ Storage.tokenCount m = Storage.i_tokenCount im
  /\ (exists l,
         Storage.getConversationMessages d' (Storage.i_conversationId im) uid
           = Js.Resolved l
         /\ In m l
         /\ Permutation l (m :: Storage.selectMessages d
                                  (Storage.i_conversationId im)))
  /\ (forall cid' uid',
         cid' <> Storage.i_conversationId im ->
         Storage.getConversationMessages d' cid' uid'
           = Storage.getConversationMessages d cid' uid').
Proof.
  unfold Storage.addMessage. intros Hadd Hc.
  destruct (existsb _ (Storage.messages d)); [discriminate|].
  destruct (negb _); [discriminate|].
  injection Hadd as <- <-. cbn [Storage.role Storage.content Storage.model
                                  Storage.tokenCount].
  repeat (split; [reflexivity|]). split.
  - unfold Storage.getConversationMessages, Storage.getConversation in *.
    cbn [Storage.conversations]. rewrite Hc.
    eexists. split; [reflexivity|].
    unfold Storage.selectMessages. cbn [Storage.messages].
    rewrite filter_app. cbn [filter Storage.conversationId].
    rewrite String.eqb_refl. split.
    + apply orderByCreatedAt_In. apply in_or_app. right. now left.
    + rewrite orderByCreatedAt_perm.
      rewrite Permutation_app_comm. cbn [app]. constructor.
      symmetry. apply orderByCreatedAt_perm.
  - intros cid' uid' Hne.
    unfold Storage.getConversationMessages, Storage.getConversation,
      Storage.selectMessages.
    cbn [Storage.conversations Storage.messages].
    rewrite filter_app. cbn [filter Storage.conversationId].
    destruct (String.eqb (Storage.i_conversationId im) cid') eqn:E.
    + apply String.eqb_eq in E. congruence.
    + now rewrite app_nil_r.
Qed.

(** The round trip on the example conversation. *)
Lemma message_round_trip_witness :
  let im := {| Storage.i_conversationId := "c1";
               Storage.i_role := Gateway.assistant;
               Storage.i_content := "hi";
               Storage.i_model := Some "gpt-4o"%string;
               Storage.i_tokenCount := Some 7 |} in
  let m := {| Storage.id := "m1"; Storage.conversationId := "c1";
              Storage.role := Gateway.assistant; Storage.content := "hi";
              Storage.model := Some "gpt-4o"%string;
              Storage.tokenCount := Some 7; Storage.createdAt := 3 |} in
  exists l,
    Storage.getConversationMessages
      (appended (Routes.db exampleWorld) m) "c1" "u1" = Js.Resolved l
    /\ In m l.
Proof.
  intros im m.
  destruct (message_round_trip (Routes.db exampleWorld)
              (appended (Routes.db exampleWorld) m) "m1"%string "u1"%string
              3 im m
              {| Storage.c_id := "c1"; Storage.c_userId := "u1";
                 Storage.title := "New Conversation";
                 Storage.c_model := "gpt-4o";
                 Storage.c_createdAt := 0; Storage.updatedAt := 0 |}
              eq_refl eq_refl)
    as (_ & _ & _ & _ & (l & Hl & Hin & _) & _).
  exists l. split; [exact Hl | exact Hin].
Defined.

Section IntegrityFacts.
Import Storage.

Lemma addMessage_integrity (d d' : Db) (newId : string) (now : nat)
      (im : InsertMessage) (m : Message) :
  integrity d ->
  addMessage newId now d im = Js.Resolved (m, d') ->
  integrity d'.
Proof.
  unfold addMessage. intros [Hnd Hfk] Hadd.
  destruct (existsb _ (messages d)) eqn:Epk; [discriminate|].
  destruct (existsb _ (conversations d)) eqn:Efk; [|discriminate].
  cbn [negb] in Hadd. injection Hadd as <- <-. split.
  - cbn [messages]. rewrite map_app. cbn [map id].
    apply NoDup_app; [exact Hnd | repeat constructor; intros [] |].
    intros x Hx [<-|[]].
    apply in_map_iff in Hx as (y & Ey & Hy).
    assert (existsb (fun m0 => String.eqb (id m0) newId) (messages d) = true)
      by (apply existsb_exists; exists y; split;
          [exact Hy | now apply String.eqb_eq]).
    congruence.
  - cbn [messages conversations]. intros x Hx.
    apply in_app_or in Hx as [Hx|[<-|[]]]; [now apply Hfk|].
    apply existsb_exists in Efk as (c & Hc & Ec).
    apply String.eqb_eq in Ec. now exists c.
Qed.

Lemma updateConversation_integrity (d : Db) (now : nat) (cid uid : string)
      (u : Updates) :
  integrity d -> integrity (snd (updateConversation now d cid uid u)).
Proof.
  intros [Hnd Hfk]. unfold updateConversation. cbn [snd]. split.
  - exact Hnd.
  - cbn [messages conversations]. intros m Hm.
    destruct (Hfk m Hm) as (c & Hc & Ec).
    eexists. split; [apply in_map; exact Hc|].
    destruct (_ && _); [exact Ec | exact Ec].
Qed.

Lemma deleteConversation_integrity (d : Db) (cid uid : string) :
  integrity d ->
  integrity (snd (Conversations.deleteConversation d cid uid)).
Proof.
  intros [Hnd Hfk]. unfold Conversations.deleteConversation. cbn [snd].
  split; cbn [messages conversations].
  - now apply distinct_ids_filter.
  - intros m Hm. apply filter_In in Hm as [Hm Hkeep].
    destruct (Hfk m Hm) as (c & Hc & Ec).
    exists c. split; [|exact Ec].
    apply filter_In. split; [exact Hc|].
    destruct (String.eqb (c_id c) cid && String.eqb (c_userId c) uid)
      eqn:Ehit; [|reflexivity].
    exfalso. apply negb_true_iff in Hkeep.
    assert (existsb (fun c0 => String.eqb (c_id c0) (conversationId m))
              (filter (fun c0 => String.eqb (c_id c0) cid
                                 && String.eqb (c_userId c0) uid)
                      (conversations d)) = true).
    { apply existsb_exists. exists c. split.
      - apply filter_In. now split.
      - now apply String.eqb_eq. }
    congruence.
Qed.

End IntegrityFacts.

(** X8. The constraints of the schema are kept. On tables where message
    ids are distinct and every message belongs to a conversation of the
    table, adding a message, updating a conversation and deleting a
    conversation (with its messages) all leave tables of that kind. *)
Theorem store_keeps_integrity (d : Storage.Db) :
  integrity d ->
  (forall newId now im m d',
      Storage.addMessage newId now d im = Js.Resolved (m, d') ->
      integrity d')
  /\ (forall now cid uid u,
         integrity (snd (Storage.updateConversation now d cid uid u)))
  /\ (forall cid uid,
         integrity (snd (Conversations.deleteConversation d cid uid))).
Proof.
  intros H. split; [|split].
  - intros newId now im m d'. now apply addMessage_integrity.
  - intros now cid uid u. now apply updateConversation_integrity.
  - intros cid uid. now apply deleteConversation_integrity.
Qed.

(** The theorem on the tables of the example world. *)
Lemma store_keeps_integrity_witness :
  integrity (snd (Conversations.deleteConversation
                    (Routes.db exampleWorld) "c1" "u1")).
Proof.
  apply (store_keeps_integrity (Routes.db exampleWorld)).
  split; [constructor | intros m []].
Defined.



(** What [deleteConversation] does, for the requester and for everybody
    else. *)
Lemma deleteConversation_facts (d : Storage.Db) (cid uid : string) :
  let deleted := fst (Conversations.deleteConversation d cid uid) in
  let d' := snd (Conversations.deleteConversation d cid uid) in
  (deleted = true <-> Storage.getConversation d cid uid <> None)
  /\ (deleted = false -> d' = d)
  /\ Storage.getConversation d' cid uid = None
  /\ (deleted = true -> Storage.selectMessages d' cid = [])
  /\ (forall cid' uid',
         cid' <> cid ->
         Storage.selectMessages d' cid' = Storage.selectMessages d cid'
         /\ Storage.getConversation d' cid' uid'
            = Storage.getConversation d cid' uid').
Proof.
  cbn zeta. rewrite deleteConversation_eq. cbn [fst snd].
  set (hit := ownedBy cid uid).
  assert (Hex : forall x,
    existsb (fun c => String.eqb (Storage.c_id c) x)
            (filter hit (Storage.conversations d)) = true ->
    x = cid).
  { intros x H. apply existsb_exists in H as (c & Hc & Ec).
    apply filter_In in Hc as [_ Hh]. unfold hit, ownedBy in Hh.
    apply andb_prop in Hh as [Hi _].
    apply String.eqb_eq in Hi, Ec. congruence. }
  assert (Hget : forall d0 a b,
    Storage.getConversation d0 a b
    = find (ownedBy a b) (Storage.conversations d0)) by reflexivity.
  split; [|split; [|split; [|split]]].
  - rewrite Hget. fold hit. split.
    + intros H Hnone. apply find_none_filter in Hnone as [Hnone _].
      rewrite Hnone in H. discriminate.
    + intros H. destruct (find hit (Storage.conversations d)) as [c|] eqn:E;
        [|congruence].
      apply find_some_filter in E.
      destruct (filter hit (Storage.conversations d)); [congruence|].
      reflexivity.
  - intros H.
    assert (Hnil : filter hit (Storage.conversations d) = [])
      by (destruct (filter hit (Storage.conversations d));
          [reflexivity | discriminate]).
    rewrite Hnil. cbn [existsb negb].
    assert (Hall : filter (fun c => negb (hit c)) (Storage.conversations d)
                   = Storage.conversations d).
    { apply filter_all. intros x Hx.
      destruct (hit x) eqn:Ex; [|reflexivity].
      assert (Hin : In x (filter hit (Storage.conversations d)))
        by (apply filter_In; now split).
      rewrite Hnil in Hin. contradiction. }
    rewrite Hall, filter_all by reflexivity. apply db_eta.
  - rewrite Hget. cbn [Storage.conversations]. fold hit.
    destruct (find hit (filter (fun c => negb (hit c))
                               (Storage.conversations d))) as [c|] eqn:E;
      [|reflexivity].
    apply find_some in E as [Hin Hh]. apply filter_In in Hin as [_ Hn].
    rewrite Hh in Hn. discriminate.
  - intros H. unfold Storage.selectMessages. cbn [Storage.messages].
    rewrite filter_filter_nil; [reflexivity|].
    intros m Hm Hc. apply String.eqb_eq in Hc. apply negb_false_iff.
    destruct (filter hit (Storage.conversations d)) as [|c r] eqn:Ef;
      [discriminate|].
    assert (Hc0 : In c (filter hit (Storage.conversations d)))
      by (rewrite Ef; now left).
    apply filter_In in Hc0 as [_ Hh]. unfold hit, ownedBy in Hh.
    apply andb_prop in Hh as [Hi _].
    apply existsb_exists. exists c. split; [now left|].
    now rewrite Hc.
  - intros cid' uid' Hne. split.
    + unfold Storage.selectMessages. cbn [Storage.messages]. f_equal.
      apply filter_filter_same.
      intros m Hm Hc. apply String.eqb_eq in Hc. apply negb_true_iff.
      destruct (existsb _ _) eqn:E; [|reflexivity].
      apply Hex in E. congruence.
    + rewrite !Hget. cbn [Storage.conversations].
      induction (Storage.conversations d) as [|x r IH]; cbn [filter find];
        [reflexivity|].
      destruct (hit x) eqn:Ehit; cbn [negb find].
      * unfold hit, ownedBy in Ehit. apply andb_prop in Ehit as [Ei _].
        apply String.eqb_eq in Ei. unfold ownedBy at 2. rewrite Ei.
        destruct (String.eqb cid cid') eqn:E;
          [apply String.eqb_eq in E; congruence|].
        cbn [andb]. apply IH.
        intros y Hy. apply Hex. cbn [filter]. unfold hit, ownedBy.
        fold (ownedBy cid uid). fold hit.
        destruct (String.eqb (Storage.c_id x) cid
                  && String.eqb (Storage.c_userId x) uid);
          [cbn [existsb]; rewrite Hy; apply orb_true_r | exact Hy].
      * destruct (ownedBy cid' uid' x); [reflexivity|]. apply IH.
        intros y Hy. apply Hex. cbn [filter]. now rewrite Ehit.
Qed.

(** X10. Deleting a conversation. The answer is true exactly when the
    conversation is the requester's; otherwise the tables are unchanged.
    After the call the conversation is not found for the requester; when
    one was deleted its log is empty; and the log of every conversation
    with another id, and who may read it, are as before. *)
Theorem delete_conversation_behaviour (d : Storage.Db) (cid uid : string) :
  let deleted := fst (Conversations.deleteConversation d cid uid) in
  let d' := snd (Conversations.deleteConversation d cid uid) in
  (deleted = true <-> Storage.getConversation d cid uid <> None)
  /\ (deleted = false -> d' = d)
  /\ Storage.getConversation d' cid uid = None
  /\ (deleted = true -> Storage.selectMessages d' cid = [])
  /\ (forall cid' uid',
         cid' <> cid ->
         Storage.selectMessages d' cid' = Storage.selectMessages d cid'
         /\ Storage.getConversation d' cid' uid'
            = Storage.getConversation d cid' uid').
Proof. exact (deleteConversation_facts d cid uid). Qed.

(** The deletion theorem on the example conversation: its owner deletes
    it, another user cannot. *)
Lemma delete_conversation_behaviour_witness :
  let d := Routes.db exampleWorld in
  fst (Conversations.deleteConversation d "c1" "u1") = true
  /\ snd (Conversations.deleteConversation d "c1" "u2") = d.
Proof.
  intros d.
  destruct (delete_conversation_behaviour d "c1" "u1") as (Hyes & _).
  destruct (delete_conversation_behaviour d "c1" "u2") as (_ & Hno & _).
  split.
  - apply Hyes. discriminate.
  - apply Hno. reflexivity.
Defined.

(** X11. The list of a user's conversations holds exactly the
    conversations of that user, each once, the most recently updated
    first. *)
Theorem user_conversations_sorted_owned (d : Storage.Db) (uid : string) :
  let l := Conversations.getUserConversations d uid in
  StronglySorted byUpdatedAtDesc l
  /\ Permutation l
       (filter (fun c => String.eqb (Storage.c_userId c) uid)
               (Storage.conversations d))
  /\ (forall c, In c l <-> In c (Storage.conversations d)
                           /\ Storage.c_userId c = uid).
Proof.
  cbn zeta. unfold Conversations.getUserConversations.
  assert (Hperm : forall l,
    Permutation (Conversations.orderByUpdatedAtDesc l) l).
  { induction l as [|x r IH]; cbn [Conversations.orderByUpdatedAtDesc];
      [reflexivity|].
    rewrite insertByUpdatedAtDesc_perm. now constructor. }
  split; [|split].
  - induction (filter _ _) as [|x r IH];
      cbn [Conversations.orderByUpdatedAtDesc]; [constructor|].
    now apply insertByUpdatedAtDesc_sorted.
  - apply Hperm.
  - intros c. split.
    + intros H. apply (Permutation_in _ (Hperm _)) in H.
      apply filter_In in H as [H E]. apply String.eqb_eq in E. now split.
    + intros [H E]. apply (Permutation_in _ (Permutation_sym (Hperm _))).
      apply filter_In. split; [exact H | now apply String.eqb_eq].
Qed.

(** X12. Reading a conversation. For a conversation that is not the
    requester's, GET /api/conversations/:id answers 404 while
    GET /api/conversations/:id/messages answers 500, the store's error
    reaching the handler's [catch]; neither answer holds a message. For
    the owner both answer 200 with the same log. *)
Theorem conversation_reads (d : Storage.Db) (uid cid : string) :
  (Storage.getConversation d cid uid = None ->
   Api.getConversation d uid cid
     = {| Api.status := 404;
          Api.payload := Api.Message "Conversation not found" |}
   /\ Api.getMessages d uid cid
      = {| Api.status := 500;
           Api.payload := Api.Message "Failed to fetch messages" |})
  /\ (forall c,
         Storage.getConversation d cid uid = Some c ->
         Api.getConversation d uid cid
           = {| Api.status := 200;
                Api.payload :=
                  Api.ConversationWithMessages
                    c (Storage.selectMessages d cid) |}
         /\ Api.getMessages d uid cid
            = {| Api.status := 200;
                 Api.payload :=
                   Api.MessageList (Storage.selectMessages d cid) |}).
Proof.
  unfold Api.getConversation, Api.getMessages,
    Conversations.getConversationWithMessages,
    Storage.getConversationMessages.
  split.
  - intros ->. now split.
  - intros c ->. now split.
Qed.

(** The theorem on the example conversation, read by another user. *)
Lemma conversation_reads_witness :
  Api.status (Api.getConversation (Routes.db exampleWorld) "u2" "c1") = 404
  /\ Api.status (Api.getMessages (Routes.db exampleWorld) "u2" "c1") = 500.
Proof.
  destruct (proj1 (conversation_reads (Routes.db exampleWorld) "u2" "c1")
              eq_refl) as [-> ->].
  split; reflexivity.
Defined.

(* ================================================================= *)
(** ** Every path of a submission *)

Section SubmissionPaths.
Import Js Routes.

Variable env : Env.

(** The insert of the user's row is rejected when the drawn id is
    taken: the handler answers 500 and nothing was written. *)
Lemma submitMessage_id_taken (w : World) (req : Request)
      (c : Storage.Conversation) (s : string) :
  Storage.getConversation (db w) (conversationId req) (userId req) = Some c ->
  content req = Str s -> s <> ""%string ->
  ~ unusedId (db w) (randomUUID env (1 + tick w)) ->
  submitMessage env w req = (elapse (elapse w), Responded failedToSend).
Proof.
  intros Hc Hs Hne Htaken. unfold submitMessage.
  rewrite run_step by discriminate. rewrite step_Received.
  cbn [elapse db]. rewrite Hc, Hs.
  destruct s as [|s0 s']; [congruence|].
  cbn [truthy isString JsString.truthy negb orb fst snd].
  rewrite run_step by discriminate. rewrite step_AddUserMessage.
  unfold Storage.addMessage. cbn [elapse db tick].
  unfold unusedId in Htaken. cbn [Nat.add] in Htaken.
  destruct (existsb _ (Storage.messages (db w))); [|congruence].
  cbn [fst snd]. apply run_responded.
Qed.

(** The four ways a submission can go. *)
Lemma submitMessage_paths (w : World) (req : Request) :
  (Storage.getConversation (db w) (conversationId req) (userId req) = None
   /\ submitMessage env w req = (elapse w, Responded notFound))
  \/ (exists c,
         Storage.getConversation (db w) (conversationId req) (userId req)
           = Some c
         /\ (forall s, content req = Str s -> s = ""%string)
         /\ submitMessage env w req = (elapse w, Responded contentRequired))
  \/ (exists c s,
         Storage.getConversation (db w) (conversationId req) (userId req)
           = Some c
         /\ content req = Str s /\ s <> ""%string
         /\ ~ unusedId (db w) (randomUUID env (1 + tick w))
         /\ submitMessage env w req
            = (elapse (elapse w), Responded failedToSend))
  \/ (exists c s,
         Storage.getConversation (db w) (conversationId req) (userId req)
           = Some c
         /\ content req = Str s /\ s <> ""%string
         /\ unusedId (db w) (randomUUID env (1 + tick w))).
Proof.
  destruct (Storage.getConversation (db w) (conversationId req)
              (userId req)) as [c|] eqn:Hc.
  2:{ left. split; [reflexivity|]. now apply submitMessage_notFound. }
  right.
  assert (Hcases : (forall s, content req = Str s -> s = ""%string)
                   \/ exists s, content req = Str s /\ s <> ""%string).
  { destruct (content req) as [| | | |s|];
      try (left; intros ? ?; discriminate).
    destruct s as [|a s].
    - left. intros s E. now injection E as <-.
    - right. eexists. split; [reflexivity | discriminate]. }
  destruct Hcases as [Hbad | (s & Hs & Hne)].
  - left. exists c. repeat split; auto.
    now apply (submitMessage_contentRequired env w req c).
  - right.
    destruct (existsb (fun m => String.eqb (Storage.id m)
                                  (randomUUID env (1 + tick w)))
                      (Storage.messages (db w))) eqn:E.
    + left. exists c, s. repeat split; auto.
      * unfold unusedId. congruence.
      * apply (submitMessage_id_taken w req c s); auto.
        unfold unusedId. congruence.
    + right. now exists c, s.
Qed.

End SubmissionPaths.

(** X13. Every submission is answered. Whatever the request, the world
    and the behaviour of provider, clock and identifiers, the handler
    reaches its response within its eight turns, and the response is one
    of: 200 with the two stored messages, 400, 404 or 500 with a failure
    message. *)
Theorem every_submission_answered (env : Routes.Env) (w : Routes.World)
        (req : Routes.Request) :
  exists res,
    snd (Routes.submitMessage env w req) = Routes.Responded res
    /\ ((exists um am, res = delivered um am)
        \/ res = Routes.contentRequired
        \/ res = Routes.notFound
        \/ res = Routes.failedToSend).
Proof.
  destruct (submitMessage_paths env w req)
    as [(_ & ->) | [(c & _ & _ & ->) | [(c & s & _ & _ & _ & _ & ->)
       | (c & s & Hc & Hs & Hne & Hfresh)]]].
  - eexists. split; [reflexivity|]. auto.
  - eexists. split; [reflexivity|]. auto.
  - eexists. split; [reflexivity|]. auto.
  - rewrite (submitMessage_valid env w req c s Hc Hs Hne Hfresh).
    destruct (Gateway.generateResponse _ _ _) as [ai|e].
    2:{ eexists. split; [reflexivity|]. auto. }
    destruct (existsb _ _).
    { eexists. split; [reflexivity|]. auto. }
    destruct (List.length _ =? 1);
      (eexists; split; [reflexivity|]; left; eauto).
Qed.

Section DeliveryFacts.
Import Js Routes.

Lemma getModelAndPrompt_model (m : string) :
  Router.r_model (Router.getModelAndPrompt m) = "gpt-4o"%string.
Proof.
  unfold Router.getModelAndPrompt, Router.modelRouting, Router.firstMatch.
  repeat match goal with
         | |- context [if ?c then _ else _] => destruct c
         end; reflexivity.
Qed.


Lemma titleResult_nonempty (settled : Outcome Gateway.ChatCompletion) :
  Gateway.titleResult settled <> ""%string.
Proof.
  unfold Gateway.titleResult.
  destruct settled as [r|e]; [|discriminate].
  destruct (Gateway.firstContent r) as [[c|]|]; try discriminate.
  destruct (JsString.trim c); cbn [JsString.truthy]; discriminate.
Qed.

Lemma generateTitle_nonempty (openai : Gateway.Provider)
      (messages : list Gateway.ChatMessage) :
  Gateway.generateTitle openai messages <> ""%string.
Proof.
  unfold Gateway.generateTitle.
  destruct (Gateway.titleCall messages); [|discriminate].
  apply titleResult_nonempty.
Qed.

Lemma appended_integrity (d : Storage.Db) (m : Storage.Message)
      (c : Storage.Conversation) :
  integrity d ->
  unusedId d (Storage.id m) ->
  In c (Storage.conversations d) ->
  Storage.c_id c = Storage.conversationId m ->
  integrity (appended d m).
Proof.
  intros [Hnd Hfk] Hfresh Hc Ec. split.
  - cbn [appended Storage.messages]. rewrite map_app. cbn [map].
    apply NoDup_app; [exact Hnd | repeat constructor; intros [] |].
    intros x Hx [<-|[]].
    apply in_map_iff in Hx as (y & Ey & Hy).
    assert (existsb (fun m0 => String.eqb (Storage.id m0) (Storage.id m))
                    (Storage.messages d) = true)
      by (apply existsb_exists; exists y; split;
          [exact Hy | now apply String.eqb_eq]).
    unfold unusedId in Hfresh. congruence.
  - cbn [appended Storage.messages Storage.conversations]. intros x Hx.
    apply in_app_or in Hx as [Hx|[<-|[]]]; [now apply Hfk|].
    now exists c.
Qed.

Lemma getConversation_in (d : Storage.Db) (cid uid : string)
      (c : Storage.Conversation) :
  Storage.getConversation d cid uid = Some c ->
  In c (Storage.conversations d) /\ Storage.c_id c = cid
  /\ Storage.c_userId c = uid.
Proof.
  unfold Storage.getConversation. intros H.
  apply find_some in H as [Hin Hb]. apply andb_prop in Hb as [Hi Hu].
  apply String.eqb_eq in Hi, Hu. auto.
Qed.

End DeliveryFacts.




(** X15. What a failed submission leaves. When the answer is not a
    delivered pair, nothing was sent to any socket, the registry and the
    table of conversations are as before, and the table of messages is as
    before or has gained one [user] row of the conversation. *)
Theorem failed_submission (env : Routes.Env) (w : Routes.World)
        (req : Routes.Request) :
  (forall um am, snd (Routes.submitMessage env w req)
                 <> Routes.Responded (delivered um am)) ->
  let w' := fst (Routes.submitMessage env w req) in
  Routes.wire w' = Routes.wire w
  /\ Routes.clients w' = Routes.clients w
  /\ Storage.conversations (Routes.db w')
     = Storage.conversations (Routes.db w)
  /\ (Storage.messages (Routes.db w') = Storage.messages (Routes.db w)
      \/ exists um,
           Storage.messages (Routes.db w')
             = (Storage.messages (Routes.db w) ++ [um])%list
           /\ Storage.role um = Gateway.user
           /\ Storage.conversationId um = Routes.conversationId req).
Proof.
  intros Hfail w'. unfold w'. clear w'.
  destruct (submitMessage_paths env w req)
    as [(_ & E) | [(c & _ & _ & E) | [(c & s & _ & _ & _ & _ & E)
       | (c & s & Hc & Hs & Hne & Hfresh)]]];
    try (rewrite E; cbn; repeat split; auto; fail).
  rewrite (submitMessage_valid env w req c s Hc Hs Hne Hfresh) in Hfail |- *.
  destruct (Gateway.generateResponse _ s _) as [ai|e].
  2:{ cbn. repeat split; auto. right. eexists. repeat split. }
  destruct (existsb _ _).
  { cbn. repeat split; auto. right. eexists. repeat split. }
  destruct (List.length _ =? 1); cbn [snd] in Hfail;
    exfalso; eapply Hfail; reflexivity.
Qed.

(** The theorem with a provider that rejects. *)
Lemma failed_submission_witness :
  let env := exampleEnv (fun _ => Js.Rejected (Js.ErrorObject "timeout")) in
  Routes.wire (fst (Routes.submitMessage env exampleWorld
                      (exampleRequest "hello"))) = [].
Proof.
  intros env.
  apply (failed_submission env exampleWorld (exampleRequest "hello")).
  intros um am. vm_compute. discriminate.
Defined.

(* ================================================================= *)
(** ** What every turn keeps *)

Section TurnFacts.
Import Js Routes.

Variable env : Env.

Lemma grownFrom_refl (d : Storage.Db) : grownFrom d d.
Proof.
  split; [auto|]. split; [auto|]. split; [reflexivity|].
  split; [reflexivity|]. exists []. now rewrite app_nil_r.
Qed.

Lemma grownFrom_addMessage (d0 d d' : Storage.Db) (i : string) (now : nat)
      (im : Storage.InsertMessage) (m : Storage.Message) :
  grownFrom d0 d ->
  Storage.addMessage i now d im = Resolved (m, d') ->
  grownFrom d0 d'.
Proof.
  intros (Hi & Ht & Hids & Hus & added & Hm) Hadd.
  pose proof Hadd as Hadd'. unfold Storage.addMessage in Hadd'.
  destruct (existsb _ (Storage.messages d)); [discriminate|].
  destruct (negb _); [discriminate|].
  injection Hadd' as _ <-.
  split; [|split; [|split; [|split]]].
  - intros H0. eapply addMessage_integrity; [apply Hi, H0 | exact Hadd].
  - exact Ht.
  - exact Hids.
  - exact Hus.
  - eexists. cbn [Storage.messages]. rewrite Hm, <- app_assoc. reflexivity.
Qed.

Lemma grownFrom_updateTitle (d0 d : Storage.Db) (now : nat)
      (cid uid title : string) :
  grownFrom d0 d -> title <> ""%string ->
  grownFrom d0 (snd (Storage.updateConversation now d cid uid
                       (titleUpdate title))).
Proof.
  intros (Hi & Ht & Hids & Hus & added & Hm) Hne.
  split; [|split; [|split; [|split]]].
  - intros H0. apply updateConversation_integrity. now apply Hi.
  - intros H0 c Hc. specialize (Ht H0).
    unfold Storage.updateConversation in Hc.
    cbn [snd Storage.conversations] in Hc.
    apply in_map_iff in Hc as (x & <- & Hx).
    destruct (_ && _); [exact Hne | now apply Ht].
  - rewrite <- Hids. unfold Storage.updateConversation.
    cbn [snd Storage.conversations]. rewrite map_map.
    apply map_ext. intros x. now destruct (_ && _).
  - rewrite <- Hus. unfold Storage.updateConversation.
    cbn [snd Storage.conversations]. rewrite map_map.
    apply map_ext. intros x. now destruct (_ && _).
  - exists added. exact Hm.
Qed.

(** A turn of a handler keeps what [grownFrom] says, whatever the
    handler and whenever it runs. *)
Lemma step_grownFrom (d0 : Storage.Db) (w : World) (t : Task) :
  grownFrom d0 (db w) -> holdsTitle t ->
  grownFrom d0 (db (fst (step env w t)))
  /\ holdsTitle (snd (step env w t)).
Proof.
  intros Hg Ht. destruct t.
  - rewrite step_Received. cbn [elapse db].
    destruct (Storage.getConversation _ _ _); [|now split].
    destruct (_ || _); [now split|].
    destruct (content req); now split.
  - rewrite step_AddUserMessage. cbn [elapse db].
    destruct (Storage.addMessage _ _ _ _) as [[um d']|e] eqn:E;
      [|now split].
    cbn [fst snd withDb db holdsTitle]. split; [|exact I].
    eapply grownFrom_addMessage; eassumption.
  - rewrite step_VerifyOwner. cbn [elapse db].
    destruct (Storage.getConversation _ _ _); now split.
  - rewrite step_SelectMessages. now split.
  - rewrite step_Generating. cbv zeta.
    destruct (Gateway.completionResult _ _); now split.
  - rewrite step_AddAiMessage.
    destruct (Storage.addMessage _ _ _ _) as [[am d']|e] eqn:E;
      [|now split].
    assert (Hg' : grownFrom d0 d')
      by (eapply grownFrom_addMessage; eassumption).
    destruct (List.length _ =? 1); now split.
  - rewrite step_GenerateTitle.
    destruct (Gateway.titleCall _); cbn [fst snd elapse withCall db
                                           holdsTitle].
    + split; [exact Hg | apply titleResult_nonempty].
    + split; [exact Hg | discriminate].
  - rewrite step_UpdateTitle.
    cbn [notifyAndRespond fst snd withSent withDb db holdsTitle].
    split; [|exact I]. now apply grownFrom_updateTitle.
  - now split.
Qed.

Lemma run_grownFrom (d0 : Storage.Db) (fuel : nat) (w : World) (t : Task) :
  grownFrom d0 (db w) -> holdsTitle t ->
  grownFrom d0 (db (fst (run env fuel w t))).
Proof.
  revert w t. induction fuel as [|fuel IH]; intros w t Hg Ht.
  - now destruct t.
  - destruct (step_grownFrom d0 w t Hg Ht) as [Hg' Ht'].
    destruct t; try (rewrite run_step by discriminate; now apply IH).
    exact Hg.
Qed.

Lemma advance_grownFrom (d0 : Storage.Db) (i : nat) (w : World)
      (tasks : list Task) :
  grownFrom d0 (db w) -> Forall holdsTitle tasks ->
  grownFrom d0 (db (fst (advance env i w tasks)))
  /\ Forall holdsTitle (snd (advance env i w tasks)).
Proof.
  revert i w. induction tasks as [|t rest IH]; intros i w Hg Hts.
  - destruct i; cbn [advance fst snd]; (split; [exact Hg | constructor]).
  - inversion Hts as [|? ? Ht Hrest]; subst. destruct i as [|j].
    + cbn [advance].
      assert (Hstep : grownFrom d0 (db (fst (step env w t)))
                      /\ holdsTitle (snd (step env w t)))
        by now apply step_grownFrom.
      destruct t; try (destruct (step env w _) as [w' t'];
                       cbn [fst snd] in *; split;
                       [apply Hstep | constructor; [apply Hstep | exact Hrest]]).
      now split.
    + cbn [advance].
      destruct (IH j w Hg Hrest) as [Hg' Hts'].
      destruct (advance env j w rest) as [w' rest'].
      cbn [fst snd] in *. split; [exact Hg' | now constructor].
Qed.

Lemma interleave_grownFrom (d0 : Storage.Db) (schedule : list nat)
      (w : World) (tasks : list Task) :
  grownFrom d0 (db w) -> Forall holdsTitle tasks ->
  grownFrom d0 (db (fst (interleave env schedule w tasks))).
Proof.
  revert w tasks. induction schedule as [|i later IH]; intros w tasks Hg Hts.
  - exact Hg.
  - cbn [interleave].
    destruct (advance_grownFrom d0 i w tasks Hg Hts) as [Hg' Hts'].
    destruct (advance env i w tasks) as [w' tasks'].
    now apply IH.
Qed.

End TurnFacts.

(** X16. What no submission breaks. Whatever the request and the
    behaviour of provider, clock and identifiers, the tables after a
    submission keep distinct message ids and messages that belong to
    conversations of the table, if the tables before did; keep titles
    that are not empty, if those before were not; hold the same
    conversations, by id and by owner; and hold the messages of before,
    in place, followed by the new ones. *)
Theorem submission_keeps_store_sound (env : Routes.Env) (w : Routes.World)
        (req : Routes.Request) :
  let d := Routes.db w in
  let d' := Routes.db (fst (Routes.submitMessage env w req)) in
  (integrity d -> integrity d')
  /\ (nonEmptyTitles d -> nonEmptyTitles d')
  /\ map Storage.c_id (Storage.conversations d')
     = map Storage.c_id (Storage.conversations d)
  /\ map Storage.c_userId (Storage.conversations d')
     = map Storage.c_userId (Storage.conversations d)
  /\ exists added,
       Storage.messages d' = (Storage.messages d ++ added)%list.
Proof.
  apply (run_grownFrom env (Routes.db w) 8 w (Routes.Received req)).
  - apply grownFrom_refl.
  - exact I.
Qed.

(** The theorem on the first submission to the example conversation. *)
Lemma submission_keeps_store_sound_witness :
  let env := exampleEnv (constantProvider (Some "hi"%string)) in
  integrity (Routes.db (fst (Routes.submitMessage env exampleWorld
                               (exampleRequest "hello")))).
Proof.
  intros env.
  apply (submission_keeps_store_sound env exampleWorld
           (exampleRequest "hello")).
  split; [constructor | intros m []].
Defined.

(** X17. The same under any interleaving. Whatever submissions are
    under way and in whatever order their turns are taken, the tables
    keep the constraints of the schema and the non-empty titles, hold the
    same conversations by id and owner, and only gain messages after
    those they had. *)
Theorem interleaving_keeps_store_sound
        (env : Routes.Env) (w : Routes.World) (reqs : list Routes.Request)
        (schedule : list nat) :
  let d := Routes.db w in
  let d' := Routes.db (fst (Routes.interleave env schedule w
                              (map Routes.Received reqs))) in
  (integrity d -> integrity d')
  /\ (nonEmptyTitles d -> nonEmptyTitles d')
  /\ map Storage.c_id (Storage.conversations d')
     = map Storage.c_id (Storage.conversations d)
  /\ map Storage.c_userId (Storage.conversations d')
     = map Storage.c_userId (Storage.conversations d)
  /\ exists added,
       Storage.messages d' = (Storage.messages d ++ added)%list.
Proof.
  apply (interleave_grownFrom env (Routes.db w) schedule w).
  - apply grownFrom_refl.
  - apply Forall_forall. intros t Ht.
    apply in_map_iff in Ht as (r & <- & _). exact I.
Qed.

(** The theorem on the racing schedule of the two example submissions. *)
Lemma interleaving_keeps_store_sound_witness :
  let env := exampleEnv (constantProvider (Some "hi"%string)) in
  integrity
    (Routes.db (fst (Routes.interleave env racingSchedule exampleWorld
                       (map Routes.Received
                            [exampleRequest "first";
                             exampleRequest "second"])))).
Proof.
  intros env.
  apply (interleaving_keeps_store_sound env exampleWorld
           [exampleRequest "first"; exampleRequest "second"]
           racingSchedule).
  split; [constructor | intros m []].
Defined.

(* ================================================================= *)
(** ** More on the gateway *)

Section MoreGatewayFacts.
Import Js Gateway.

Lemma sliceLast_short {A : Type} (n : nat) (l : list A) :
  List.length l <= n -> sliceLast n l = l.
Proof.
  intros H. unfold sliceLast.
  replace (List.length l - n) with 0 by lia. reflexivity.
Qed.

Lemma string_app_nil_r (s : string) : (s ++ "")%string = s.
Proof. induction s as [|c s IH]; cbn [append]; [reflexivity | now rewrite IH]. Qed.

Lemma trimmedOf_self (s t : string) : trimmedOf s t -> trimmedOf t t.
Proof.
  intros (_ & Hh & Hl). split; [|now split].
  exists ""%string, ""%string. cbn [append allWhiteSpace].
  now rewrite string_app_nil_r.
Qed.

End MoreGatewayFacts.

(** X18. The size of a request. Whatever the message and however long
    the history handed in, the request to the provider has at least one
    and at most twelve messages: at most one system prompt, at most ten
    of history, and the current turn. A history of ten entries or fewer
    is passed whole. The request asks gpt-4o for at most 4000 tokens. *)
Theorem request_is_bounded (userMessage : string)
        (history : list Gateway.ChatMessage) :
  let r := Gateway.completionRequest userMessage history in
  1 <= List.length (Gateway.messages r) <= 12
  /\ (exists systemTurn,
         Gateway.messages r
         = (systemTurn ++ Js.sliceLast 10 history
            ++ [ {| Gateway.role := Gateway.user;
                    Gateway.content :=
                      Router.cleanedMessage
                        (Router.getModelAndPrompt userMessage) |} ])%list
         /\ List.length systemTurn <= 1)
  /\ (List.length history <= 10 -> Js.sliceLast 10 history = history)
  /\ Gateway.model r = "gpt-4o"%string
  /\ Gateway.max_tokens r = 4000.
Proof.
  cbn zeta. unfold Gateway.completionRequest.
  cbn [Gateway.messages Gateway.model Gateway.max_tokens].
  destruct (sliceLast_suffix 10 history) as (older & _ & Hlen).
  set (sys := match Router.r_systemPrompt _ with
              | Some p => if JsString.truthy p then [_] else []
              | None => []
              end).
  assert (Hsys : List.length sys <= 1).
  { unfold sys. destruct (Router.r_systemPrompt _) as [p|]; [|cbn; lia].
    destruct (JsString.truthy p); cbn; lia. }
  split; [|split; [|split; [|split]]].
  - rewrite !length_app, Hlen. cbn [List.length]. lia.
  - exists sys. now split.
  - apply sliceLast_short.
  - apply getModelAndPrompt_model.
  - reflexivity.
Qed.

(** The theorem on a history of three messages. *)
Lemma request_is_bounded_witness :
  let h := map Routes.chatOf (map exampleRow (seq 0 3)) in
  Js.sliceLast 10 h = h.
Proof.
  intros h.
  apply (proj1 (proj2 (proj2 (request_is_bounded "hello" h)))).
  cbn. lia.
Defined.

(** X19. How a generation fails, and only how. [generateResponse]
    rejects exactly when the provider call is rejected or the response
    has no first choice or no message in it, and then with an [Error]
    whose message is "Failed to generate AI response: " followed by the
    message of the cause, or by "Unknown error" when the cause is not an
    [Error]. When it resolves, the content is the provider's (the empty
    string for [null]), the token count is the provider's, and the model
    is gpt-4o. *)
Theorem generation_outcomes (openai : Gateway.Provider)
        (userMessage : string) (history : list Gateway.ChatMessage) :
  let request := Gateway.completionRequest userMessage history in
  (forall e,
      Gateway.generateResponse openai userMessage history = Js.Rejected e ->
      exists cause,
        (openai request = Js.Rejected cause
         \/ exists r, openai request = Js.Resolved r
                      /\ Gateway.firstContent r = Js.Rejected cause)
        /\ e = Js.ErrorObject
                 ("Failed to generate AI response: "
                  ++ match cause with
                     | Js.ErrorObject m => m
                     | Js.NotAnError => "Unknown error"
                     end))
  /\ (forall ai,
         Gateway.generateResponse openai userMessage history
           = Js.Resolved ai ->
         exists r c,
           openai request = Js.Resolved r
           /\ Gateway.firstContent r = Js.Resolved c
           /\ Gateway.ai_content ai
              = match c with Some s => s | None => ""%string end
           /\ Gateway.ai_tokenCount ai = Gateway.total_tokens r
           /\ Gateway.ai_model ai = "gpt-4o"%string).
Proof.
  cbn zeta. unfold Gateway.generateResponse, Gateway.completionResult.
  destruct (openai _) as [r|cause] eqn:Eo.
  - destruct (Gateway.firstContent r) as [c|cause] eqn:Ec; split.
    + discriminate.
    + intros ai H. injection H as <-. exists r, c.
      split; [reflexivity|]. split; [exact Ec|].
      split; [reflexivity|]. split; [reflexivity|].
      apply getModelAndPrompt_model.
    + intros e H. injection H as <-. exists cause. split; [|reflexivity].
      right. now exists r.
    + discriminate.
  - split; [|discriminate].
    intros e H. injection H as <-. exists cause. split; [now left|].
    reflexivity.
Qed.

(** The theorem with a provider that throws something that is not an
    [Error]. *)
Lemma generation_outcomes_witness :
  exists cause,
    Js.ErrorObject "Failed to generate AI response: Unknown error"
    = Js.ErrorObject
        ("Failed to generate AI response: "
         ++ match cause with
            | Js.ErrorObject m => m
            | Js.NotAnError => "Unknown error"
            end).
Proof.
  destruct (proj1 (generation_outcomes (fun _ => Js.Rejected Js.NotAnError)
                     "hello" [])
              (Js.ErrorObject "Failed to generate AI response: Unknown error")
              eq_refl) as (cause & _ & E).
  exists cause. exact E.
Defined.

(** X20. Titles. Whatever the provider does, the title [generateTitle]
    returns is not empty and has no white space around it: it is the
    fixed "New Conversation" or the provider's content, trimmed. When
    the messages handed in hold no user message with content, the
    provider is not called. *)
Theorem title_is_well_formed (openai : Gateway.Provider)
        (messages : list Gateway.ChatMessage) :
  let t := Gateway.generateTitle openai messages in
  t <> ""%string
  /\ trimmedOf t t
  /\ (t = "New Conversation"%string
      \/ exists r c,
           openai (Gateway.titleRequest (Gateway.firstUserMessage messages))
             = Js.Resolved r
           /\ Gateway.firstContent r = Js.Resolved (Some c)
           /\ t = JsString.trim c)
  /\ (Gateway.firstUserMessage messages = ""%string ->
      Gateway.titleCall messages = None
      /\ t = "New Conversation"%string).
Proof.
  cbn zeta. split; [apply generateTitle_nonempty|].
  assert (Hfix : trimmedOf "New Conversation" "New Conversation")
    by (apply (trimmedOf_self "New Conversation"), trim_trimmedOf).
  unfold Gateway.generateTitle, Gateway.titleCall.
  destruct (Gateway.firstUserMessage messages) as [|a s] eqn:Ef;
    cbn [JsString.truthy].
  - split; [exact Hfix|]. split; [now left|]. now split.
  - unfold Gateway.titleResult.
    destruct (openai _) as [r|e] eqn:Eo.
    2:{ split; [exact Hfix|]. split; [now left | discriminate]. }
    destruct (Gateway.firstContent r) as [[c|]|e] eqn:Ec;
      try (split; [exact Hfix|]; split; [now left | discriminate]).
    destruct (JsString.trim c) as [|b u] eqn:Et; cbn [JsString.truthy].
    + split; [exact Hfix|]. split; [now left | discriminate].
    + split; [|split; [|discriminate]].
      * rewrite <- Et. apply (trimmedOf_self c), trim_trimmedOf.
      * right. exists r, c. now rewrite Et.
Qed.

(** The theorem on messages without a user message. *)
Lemma title_is_well_formed_witness :
  Gateway.generateTitle (constantProvider (Some "A title"%string)) []
    = "New Conversation"%string.
Proof.
  exact (proj2 (proj2 (proj2 (proj2
           (title_is_well_formed (constantProvider (Some "A title"%string))
                                 [])))
           eq_refl)).
Defined.

(* ================================================================= *)
(** ** The other routes and the client *)

Section ApiFacts.

Lemma fileNameUnit_of_any (c : ascii) :
  isFileNameUnit
    (JsString.lowerCodeUnit (if Api.isAlphanumeric c then c else "_"%char))
  = true.
Proof.
  destruct c as [[] [] [] [] [] [] [] []]; vm_compute; reflexivity.
Qed.

Lemma replaceNonAlphanumeric_safe (title : string) :
  allCodeUnits isFileNameUnit
    (JsString.toLowerCase (Api.replaceNonAlphanumeric title)) = true
  /\ String.length (JsString.toLowerCase (Api.replaceNonAlphanumeric title))
     = String.length title.
Proof.
  induction title as [|c r [IH1 IH2]];
    cbn [Api.replaceNonAlphanumeric JsString.toLowerCase allCodeUnits
         String.length]; [now split|].
  rewrite fileNameUnit_of_any, IH1, IH2. now split.
Qed.

Lemma substringTo_length (n : nat) (s : string) :
  String.length (Api.substringTo n s) = Nat.min n (String.length s).
Proof.
  revert s. induction n as [|n IH]; intros s; [reflexivity|].
  destruct s as [|c r]; cbn [Api.substringTo String.length]; [reflexivity|].
  now rewrite IH.
Qed.

Lemma string_app_length (a b : string) :
  String.length (a ++ b) = String.length a + String.length b.
Proof.
  induction a as [|c a IH]; cbn [append String.length]; [reflexivity|].
  now rewrite IH.
Qed.

End ApiFacts.

(** X21. After a deletion. When DELETE /api/conversations/:id answers
    204, the conversation is gone for its owner: reading it answers 404,
    its log is empty, deleting it again answers 404 and changes nothing,
    and a message submitted to it is answered 404 with nothing stored. *)
Theorem deleted_conversation_is_gone (d : Storage.Db) (uid cid : string) :
  Api.status (fst (Api.deleteConversation d uid cid)) = 204 ->
  let d' := snd (Api.deleteConversation d uid cid) in
  Api.status (Api.getConversation d' uid cid) = 404
  /\ Storage.selectMessages d' cid = []
  /\ Api.deleteConversation d' uid cid
     = ({| Api.status := 404;
           Api.payload := Api.Message "Conversation not found" |}, d')
  /\ forall env w req,
       Routes.db w = d' ->
       Routes.conversationId req = cid -> Routes.userId req = uid ->
       Routes.submitMessage env w req
         = (Routes.elapse w, Routes.Responded Routes.notFound).
Proof.
  unfold Api.deleteConversation.
  destruct (deleteConversation_facts d cid uid)
    as (Hiff & _ & Hgone & Hlog & _).
  destruct (Conversations.deleteConversation d cid uid) as [deleted d'] eqn:E.
  cbn [fst snd] in *.
  destruct deleted; cbn [fst snd Api.status]; [intros _ | discriminate].
  split; [|split; [|split]].
  - unfold Api.getConversation, Conversations.getConversationWithMessages.
    now rewrite Hgone.
  - now apply Hlog.
  - destruct (deleteConversation_facts d' cid uid) as (Hiff' & Hsame & _).
    destruct (Conversations.deleteConversation d' cid uid)
      as [again d''] eqn:E'.
    cbn [fst snd] in *.
    destruct again.
    + exfalso. now apply (proj1 Hiff' eq_refl).
    + now rewrite (Hsame eq_refl).
  - intros env w req <- <- <-. now apply submitMessage_notFound.
Qed.

(** The theorem on the example conversation. *)
Lemma deleted_conversation_is_gone_witness :
  let d' := snd (Api.deleteConversation (Routes.db exampleWorld) "u1" "c1") in
  Api.status (Api.getConversation d' "u1" "c1") = 404.
Proof.
  intros d'.
  exact (proj1 (deleted_conversation_is_gone (Routes.db exampleWorld)
                  "u1" "c1" eq_refl)).
Defined.

(** X22. The name of an exported file. Whatever the title and the
    format asked for, the file name is a stem, a dot and an extension:
    the stem is as long as the title and made of lower-case letters,
    digits and underscores only; the extension is "json" or "txt" when
    that format is asked for and "md" otherwise. *)
Theorem export_filename_is_safe (title : string) (format : option string) :
  exists stem ext,
    Api.exportFilename title format = (stem ++ "." ++ ext)%string
    /\ String.length stem = String.length title
    /\ allCodeUnits isFileNameUnit stem = true
    /\ (ext = "json"%string \/ ext = "txt"%string \/ ext = "md"%string)
    /\ (ext = "json"%string <-> format = Some "json"%string)
    /\ (ext = "txt"%string <-> format = Some "txt"%string).
Proof.
  destruct (replaceNonAlphanumeric_safe title) as [Hsafe Hlen].
  exists (JsString.toLowerCase (Api.replaceNonAlphanumeric title)),
         (Api.fileExtension format).
  split; [reflexivity|]. split; [exact Hlen|]. split; [exact Hsafe|].
  unfold Api.fileExtension. destruct format as [f|].
  - destruct (String.eqb f "json") eqn:Ej.
    + apply String.eqb_eq in Ej. subst f.
      split; [now left|]. split; split; intros; try reflexivity;
        discriminate.
    + apply String.eqb_neq in Ej.
      destruct (String.eqb f "txt") eqn:Et.
      * apply String.eqb_eq in Et. subst f.
        split; [right; now left|]. split; split; intros; try reflexivity;
          discriminate.
      * apply String.eqb_neq in Et.
        split; [right; now right|]. split; split; intros H;
          try discriminate; injection H as ->; congruence.
  - split; [right; now right|]. split; split; intros; discriminate.
Qed.

(** X23. The routes shown to the client. Over any table of rules, the
    answer of GET /api/models/routing lists the prefixes and models of
    the rules, in their order, and each description has at most 103 code
    units: it is empty without a prompt, and else the first hundred code
    units of the prompt followed by three dots. *)
Theorem routing_info_shape (rules : list (string * Router.RoutingRule)) :
  map Api.prefix (Api.routingInfoOf rules) = map fst rules
  /\ map Api.model (Api.routingInfoOf rules)
     = map (fun e => Router.model (snd e)) rules
  /\ Forall (fun i => String.length (Api.description i) <= 103)
            (Api.routingInfoOf rules)
  /\ Forall2 (fun e i =>
                forall p, Router.systemPrompt (snd e) = Some p ->
                          p <> ""%string ->
                          Api.description i
                          = (Api.substringTo 100 p ++ "...")%string)
             rules (Api.routingInfoOf rules).
Proof.
  unfold Api.routingInfoOf. split; [|split; [|split]].
  - rewrite map_map. reflexivity.
  - rewrite map_map. reflexivity.
  - apply Forall_forall. intros i Hi.
    apply in_map_iff in Hi as (e & <- & _). cbn [Api.description].
    destruct (Router.systemPrompt (snd e)) as [p|]; [|cbn; lia].
    destruct (JsString.truthy p); [|cbn; lia].
    rewrite string_app_length, substringTo_length. cbn [String.length]. lia.
  - induction rules as [|e r IH]; cbn [map]; constructor; [|exact IH].
    intros p -> Hp. cbn [Api.description].
    destruct p; [congruence | reflexivity].
Qed.

(** The theorem on the table of the program. *)
Lemma routing_info_shape_witness :
  map Api.prefix Api.routingInfo
  = ["code:"; "research:"; "creative:"; "analysis:"]%string.
Proof.
  exact (proj1 (routing_info_shape Router.modelRouting)).
Defined.

(** X24. The preview of the route in the client. With the answer of
    GET /api/models/routing loaded, the client's [getModelForPrefix]
    gives, for a message that starts with one of the four prefixes, the
    model the server routes that message to, and for any other message
    the model selected in the interface; and the line "Will route to" is
    never shown, since every rule names the default model. Before the
    answer is loaded the selected model is given for every message. *)
Theorem route_preview (selectedModel message : string) :
  let loaded :=
    Client.getModelForPrefix (Some Api.routingInfo) selectedModel in
  let hasPrefix :=
    existsb (fun p => JsString.startsWith (JsString.toLowerCase message) p)
            ["code:"; "research:"; "creative:"; "analysis:"]%string in
  loaded message
    = (if hasPrefix
       then Router.r_model (Router.getModelAndPrompt message)
       else selectedModel)
  /\ Client.routedModel (Some loaded) message = None
  /\ Client.getModelForPrefix None selectedModel message = selectedModel.
Proof.
  cbn zeta. split; [|split; [|reflexivity]].
  - rewrite getModelAndPrompt_model.
    unfold Client.getModelForPrefix, Api.routingInfo, Api.routingInfoOf.
    cbn [map Router.modelRouting Client.firstRoute Api.prefix Api.model
         fst snd Router.model existsb].
    repeat match goal with
           | |- context [if JsString.startsWith ?a ?b then _ else _] =>
               destruct (JsString.startsWith a b)
           end; reflexivity.
  - unfold Client.routedModel.
    destruct (JsString.truthy _); [|reflexivity].
    unfold Client.getModelForPrefix, Api.routingInfo, Api.routingInfoOf.
    cbn [map Router.modelRouting Client.firstRoute Api.prefix Api.model
         fst snd Router.model existsb].
    repeat match goal with
           | |- context [if JsString.startsWith ?a ?b then _ else _] =>
               destruct (JsString.startsWith a b)
           end; cbn [orb andb]; try reflexivity.
Qed.

(** X25. What the client posts. When pressing send posts a message, a
    conversation is selected, no request is pending, and the content
    posted is the text typed, unchanged: between 1 and 4000 code units,
    not blank. The server never answers such a post with 400. *)
Theorem client_posts_valid_content (conversationId : option string)
        (isPending : bool) (message id content : string) :
  Client.send conversationId isPending message = Some (id, content) ->
  content = message
  /\ conversationId = Some id /\ id <> ""%string
  /\ isPending = false
  /\ 1 <= String.length content <= 4000
  /\ JsString.trim content <> ""%string
  /\ forall env w uid,
       snd (Routes.submitMessage env w
              {| Routes.userId := uid; Routes.conversationId := id;
                 Routes.content := Js.Str content |})
       <> Routes.Responded Routes.contentRequired.
Proof.
  unfold Client.send, Client.handleSubmit, Client.handleSendMessage,
    Client.isValid, Client.maxLength.
  destruct (0 <? String.length message) eqn:E0;
    cbn [andb negb orb]; [|discriminate].
  destruct (String.length message <=? 4000) eqn:E1;
    cbn [andb negb orb]; [|discriminate].
  destruct conversationId as [cid|]; cbn [andb negb orb]; [|discriminate].
  destruct (JsString.truthy cid) eqn:Ec;
    cbn [andb negb orb]; [|discriminate].
  destruct isPending; cbn [andb negb orb]; [discriminate|].
  destruct (JsString.truthy (JsString.trim message)) eqn:Et;
    cbn [andb negb orb]; [|discriminate].
  intros H. injection H as <- <-.
  apply Nat.ltb_lt in E0. apply Nat.leb_le in E1.
  assert (Hne : message <> ""%string)
    by (intros ->; cbn in E0; lia).
  repeat split; auto; try lia.
  - intros ->. discriminate.
  - intros Ht. rewrite Ht in Et. discriminate.
  - intros env w uid.
    destruct (submitMessage_paths env w
                {| Routes.userId := uid; Routes.conversationId := cid;
                   Routes.content := Js.Str message |})
      as [(_ & ->) | [(c & _ & Hbad & _) | [(c & s & _ & _ & _ & _ & ->)
         | (c & s & Hc & Hs & Hs' & Hfresh)]]]; try discriminate.
    + now elim Hne; apply Hbad.
    + rewrite (submitMessage_valid env w _ c s Hc Hs Hs' Hfresh).
      destruct (Gateway.generateResponse _ _ _); [|discriminate].
      destruct (existsb _ _); [discriminate|].
      destruct (List.length _ =? 1); discriminate.
Qed.

(** The theorem on a message typed into the example conversation. *)
Lemma client_posts_valid_content_witness :
  1 <= String.length "code: hi" <= 4000
  /\ JsString.trim "code: hi" <> ""%string.
Proof.
  destruct (client_posts_valid_content (Some "c1"%string) false
              "code: hi" "c1" "code: hi" eq_refl)
    as (_ & _ & _ & _ & Hlen & Htrim & _).
  split; [exact Hlen | exact Htrim].
Defined.



Section SearchFacts.
Import JsString.

Lemma lowerCodeUnit_idempotent (c : ascii) :
  lowerCodeUnit (lowerCodeUnit c) = lowerCodeUnit c.
Proof.
  destruct c as [[] [] [] [] [] [] [] []]; vm_compute; reflexivity.
Qed.

Lemma toLowerCase_idempotent (s : string) :
  toLowerCase (toLowerCase s) = toLowerCase s.
Proof.
  induction s as [|c s IH]; cbn [toLowerCase]; [reflexivity|].
  now rewrite lowerCodeUnit_idempotent, IH.
Qed.

Lemma includes_iff (s q : string) :
  Sidebar.includes s q = true
  <-> exists before after, s = (before ++ q ++ after)%string.
Proof.
  induction s as [|c s IH]; cbn [Sidebar.includes].
  - rewrite orb_false_r. split.
    + intros H. apply startsWith_inv in H as [r E].
      exists ""%string, r. exact E.
    + intros (b & a & E). destruct b; [|discriminate].
      cbn [append] in E. rewrite E. apply startsWith_app.
  - rewrite orb_true_iff, IH. split.
    + intros [H | (b & a & ->)].
      * apply startsWith_inv in H as [r E]. exists ""%string, r. exact E.
      * exists (String c b), a. reflexivity.
    + intros (b & a & E). destruct b as [|x b].
      * left. cbn [append] in E. rewrite E. apply startsWith_app.
      * right. cbn [append] in E. injection E as _ ->. now exists b, a.
Qed.

End SearchFacts.

(** X27. Searching the sidebar. A conversation is shown exactly when
    its title, in lower case, contains the query, in lower case; the
    empty query shows every conversation; and changing the query to
    lower case does not change what is shown. *)
Theorem sidebar_search (conversations : list Storage.Conversation)
        (searchQuery : string) :
  (forall conv,
      In conv (Sidebar.filteredConversations conversations searchQuery)
      <-> In conv conversations
          /\ exists before after,
               JsString.toLowerCase (Storage.title conv)
               = (before ++ JsString.toLowerCase searchQuery ++ after)%string)
  /\ Sidebar.filteredConversations conversations ""%string = conversations
  /\ Sidebar.filteredConversations conversations
       (JsString.toLowerCase searchQuery)
     = Sidebar.filteredConversations conversations searchQuery.
Proof.
  unfold Sidebar.filteredConversations. split; [|split].
  - intros conv. now rewrite filter_In, includes_iff.
  - apply filter_all. intros conv _.
    cbn [JsString.toLowerCase]. apply includes_iff.
    exists ""%string, (JsString.toLowerCase (Storage.title conv)).
    reflexivity.
  - now rewrite toLowerCase_idempotent.
Qed.

(** The theorem on the example conversation, searched for "CONV". *)
Lemma sidebar_search_witness :
  let conv := {| Storage.c_id := "c1"; Storage.c_userId := "u1";
                 Storage.title := "New Conversation";
                 Storage.c_model := "gpt-4o";
                 Storage.c_createdAt := 0; Storage.updatedAt := 0 |} in
  In conv (Sidebar.filteredConversations [conv] "CONV").
Proof.
  intros conv.
  apply (proj2 (proj1 (sidebar_search [conv] "CONV") conv)).
  split; [now left|].
  exists "new "%string, "ersation"%string. reflexivity.
Defined.

(** The registration theorem: a second client leaves the first as it
    was. *)
Lemma register_then_lookup_witness :
  let sockA := {| Hub.socketId := 1; Hub.readyState := Hub.OPEN |} in
  let sockB := {| Hub.socketId := 2; Hub.readyState := Hub.OPEN |} in
  let one := fst (Hub.handleConnection [] "a" sockA) in
  Hub.get (fst (Hub.handleConnection one "b" sockB)) "a" = Hub.get one "a".
Proof.
  intros sockA sockB one.
  apply (proj1 (proj2 (register_then_lookup one "b"%string sockB))).
  discriminate.
Defined.

(** The theorem on what an inbound frame can change: a typing frame of
    "a" leaves the entry of "b". *)
Lemma inbound_frame_keeps_registry_witness :
  let a := {| Hub.ws := {| Hub.socketId := 1; Hub.readyState := Hub.OPEN |};
              Hub.c_userId := ""%string; Hub.c_conversationId := None |} in
  let b := {| Hub.ws := {| Hub.socketId := 2; Hub.readyState := Hub.OPEN |};
              Hub.c_userId := "bob"%string;
              Hub.c_conversationId := Some "C"%string |} in
  let clients := [("a"%string, a); ("b"%string, b)] in
  let p := Hub.ParsedValue
             {| Hub.in_type := Some "typing"%string;
                Hub.in_conversationId := Some "C"%string;
                Hub.in_userId := Some "ann"%string;
                Hub.in_data := None |} in
  Hub.get (fst (Hub.onMessage clients "a" p)) "b" = Some b.
Proof.
  intros a b clients p.
  apply (proj1 (proj2 (inbound_frame_keeps_registry clients "a"%string p))).
  discriminate.
Defined.

(** The log theorem on the twelve messages of the busy example: the
    third message is in the log of "c1". *)
Lemma log_is_sorted_permutation_witness :
  In (exampleRow 2) (Storage.selectMessages (Routes.db busyWorld) "c1").
Proof.
  apply (proj2 (proj2 (proj2
           (log_is_sorted_permutation (Routes.db busyWorld) "c1"))
           (exampleRow 2))).
  split; [|reflexivity].
  cbn. right. right. right. right. right. right. right. right. right.
  now left.
Defined.

(** The theorem on the conversations of user "u1" in the example. *)
Lemma user_conversations_sorted_owned_witness :
  let conv := {| Storage.c_id := "c1"; Storage.c_userId := "u1";
                 Storage.title := "New Conversation";
                 Storage.c_model := "gpt-4o";
                 Storage.c_createdAt := 0; Storage.updatedAt := 0 |} in
  In conv (Conversations.getUserConversations (Routes.db exampleWorld) "u1").
Proof.
  intros conv.
  apply (proj2 (proj2 (proj2
           (user_conversations_sorted_owned (Routes.db exampleWorld) "u1"))
           conv)).
  split; [now left | reflexivity].
Defined.

(** The file name theorem at a title with spaces and capitals. *)
Lemma export_filename_is_safe_witness :
  exists stem ext,
    Api.exportFilename "My Chat #1" (Some "txt"%string)
      = (stem ++ "." ++ ext)%string
    /\ allCodeUnits isFileNameUnit stem = true
    /\ ext = "txt"%string.
Proof.
  destruct (export_filename_is_safe "My Chat #1" (Some "txt"%string))
    as (stem & ext & E & _ & Hs & _ & _ & Ht).
  exists stem, ext. split; [exact E|]. split; [exact Hs|].
  apply Ht. reflexivity.
Defined.

(* ================================================================= *)
(** ** The context window *)

Section WindowFacts.
Import Js.

Lemma sliceLast_map {A B : Type} (f : A -> B) (n : nat) (l : list A) :
  sliceLast n (map f l) = map f (sliceLast n l).
Proof.
  unfold sliceLast. now rewrite length_map, skipn_map.
Qed.

Lemma selectMessages_perm (d : Storage.Db) (cid : string) :
  Permutation (Storage.selectMessages d cid)
    (filter (fun m => String.eqb (Storage.conversationId m) cid)
            (Storage.messages d)).
Proof.
  unfold Storage.selectMessages. apply orderByCreatedAt_perm.
Qed.

Lemma unusedId_not_in (d : Storage.Db) (m : Storage.Message) :
  unusedId d (Storage.id m) -> ~ In m (Storage.messages d).
Proof.
  unfold unusedId. intros H Hin.
  assert (E : existsb (fun x => String.eqb (Storage.id x) (Storage.id m))
                      (Storage.messages d) = true).
  { apply existsb_exists. exists m. split; [exact Hin|].
    apply String.eqb_refl. }
  congruence.
Qed.

End WindowFacts.

(** C2. Context window. For every submission that gets its user
    message inserted, the request made to the provider is the call made
    next, and its messages are: the system prompt of the route, if any;
    then one entry for each of the last ten rows (all of them when there
    are fewer) of the conversation's log as it was before the
    submission, oldest first, with the role and the content of the row;
    then the current turn, a [user] message with the cleaned content.
    That log holds the rows of the conversation, ordered by creation
    time; it is the log read after the insertion, in which the inserted
    row is, without that row. *)
Theorem history_is_last_ten
        (env : Routes.Env) (w : Routes.World) (req : Routes.Request)
        (c : Storage.Conversation) (s : string) :
  Storage.getConversation (Routes.db w) (Routes.conversationId req)
                          (Routes.userId req) = Some c ->
  Routes.content req = Js.Str s -> s <> ""%string ->
  unusedId (Routes.db w) (Routes.randomUUID env (1 + Routes.tick w)) ->
  let cid := Routes.conversationId req in
  let um := userRow env w cid s in
  let rows := Storage.selectMessages (Routes.db w) cid in
  let read := Storage.selectMessages (appended (Routes.db w) um) cid in
  let route := Router.getModelAndPrompt s in
  exists request systemTurn older,
    nth_error (Routes.calls (fst (Routes.submitMessage env w req)))
              (List.length (Routes.calls w)) = Some request
    /\ Gateway.messages request
       = (systemTurn
          ++ map (fun m => {| Gateway.role := Storage.role m;
                              Gateway.content := Storage.content m |})
                 (Js.sliceLast 10 rows)
          ++ [ {| Gateway.role := Gateway.user;
                  Gateway.content := Router.cleanedMessage route |} ])%list
    /\ (forall m, In m systemTurn -> Gateway.role m = Gateway.system)
    /\ (forall p, Router.r_systemPrompt route = Some p -> p <> ""%string ->
                  systemTurn = [ {| Gateway.role := Gateway.system;
                                    Gateway.content := p |} ])
    /\ (Router.r_systemPrompt route = None -> systemTurn = [])
    /\ rows = (older ++ Js.sliceLast 10 rows)%list
    /\ List.length (Js.sliceLast 10 rows) = Nat.min 10 (List.length rows)
    /\ StronglySorted byCreatedAt rows
    /\ Permutation rows
         (filter (fun m => String.eqb (Storage.conversationId m) cid)
                 (Storage.messages (Routes.db w)))
    /\ rows = filter (fun m => negb (String.eqb (Storage.id m)
                                                (Storage.id um))) read
    /\ In um read
    /\ ~ In um rows.
Proof.
  intros Hc Hs Hne Hfresh cid um rows read route.
  destruct (sliceLast_suffix 10 rows) as (older & Hold & Hlen).
  exists (Gateway.completionRequest s (logOf (Routes.db w) cid)).
  exists (match Router.r_systemPrompt route with
          | Some p => if JsString.truthy p
                      then [ {| Gateway.role := Gateway.system;
                                Gateway.content := p |} ]
                      else []
          | None => []
          end).
  exists older.
  split; [exact (completion_call env w req c s Hc Hs Hne Hfresh)|].
  split.
  { unfold Gateway.completionRequest, logOf. cbn [Gateway.messages].
    fold route. rewrite sliceLast_map. reflexivity. }
  split.
  { intros m. destruct (Router.r_systemPrompt route) as [p|]; [|intros []].
    destruct (JsString.truthy p); [|intros []].
    intros [<-|[]]. reflexivity. }
  split.
  { intros p -> Hp. destruct p; [congruence | reflexivity]. }
  split.
  { now intros ->. }
  split; [exact Hold|]. split; [exact Hlen|].
  split; [apply orderByCreatedAt_sorted|].
  split; [apply selectMessages_perm|].
  split.
  { symmetry. apply selectMessages_without_new; [reflexivity | exact Hfresh]. }
  split.
  { unfold read, Storage.selectMessages.
    apply orderByCreatedAt_In. apply filter_In. split.
    - cbn [appended Storage.messages]. apply in_or_app. right. now left.
    - apply String.eqb_refl. }
  intros Hin.
  apply (unusedId_not_in (Routes.db w) um Hfresh).
  unfold rows, Storage.selectMessages in Hin.
  apply (proj1 (orderByCreatedAt_In _ _)) in Hin.
  apply filter_In in Hin. tauto.
Qed.

(** The context-window theorem in a conversation of twelve messages,
    "tA" to "tL", written in turn by the user and the assistant and
    stored newest first: the provider is given the ten newest, oldest
    first, each with its role, and then the current turn. *)
Lemma history_is_last_ten_witness :
  let env := exampleEnv (constantProvider (Some "hi"%string)) in
  exists request,
    nth_error (Routes.calls
                 (fst (Routes.submitMessage env busyWorld
                         (exampleRequest "hello"))))
              0 = Some request
    /\ Gateway.messages request
       = [ {| Gateway.role := Gateway.user; Gateway.content := "tC" |};
           {| Gateway.role := Gateway.assistant; Gateway.content := "tD" |};
           {| Gateway.role := Gateway.user; Gateway.content := "tE" |};
           {| Gateway.role := Gateway.assistant; Gateway.content := "tF" |};
           {| Gateway.role := Gateway.user; Gateway.content := "tG" |};
           {| Gateway.role := Gateway.assistant; Gateway.content := "tH" |};
           {| Gateway.role := Gateway.user; Gateway.content := "tI" |};
           {| Gateway.role := Gateway.assistant; Gateway.content := "tJ" |};
           {| Gateway.role := Gateway.user; Gateway.content := "tK" |};
           {| Gateway.role := Gateway.assistant; Gateway.content := "tL" |};
           {| Gateway.role := Gateway.user; Gateway.content := "hello" |} ].
Proof.
  intros env.
  assert (Hne : "hello"%string <> ""%string)
    by exact (fun H => match H with eq_refl => I end).
  destruct (history_is_last_ten env busyWorld (exampleRequest "hello")
              {| Storage.c_id := "c1"; Storage.c_userId := "u1";
                 Storage.title := "New Conversation";
                 Storage.c_model := "gpt-4o";
                 Storage.c_createdAt := 0; Storage.updatedAt := 0 |}
              "hello"%string eq_refl eq_refl Hne eq_refl)
    as (request & sys & older & Hn & Hm & _ & _ & Hsys & _).
  exists request. split; [exact Hn|].
  exact (eq_trans Hm
           (f_equal (fun l => (l ++ _)%list) (Hsys eq_refl))).
Defined.
